(** * liveStream: dual-channel broadcast orchestration

    A shallow embedding of the control plane of the liveStream server
    (final.js and its two sibling revisions) and the properties of its
    specification.

    - JavaScript strings are sequences of UTF-16 code units ([list N]).
    - An [async] function is a [Task]: a tree of awaited operations
      (YouTube Data API requests, Mongo reads and writes, timers, token
      files) ending in a value or a thrown error.  [run] executes a task
      against a [Platform], which answers every remote request from the
      history of the operations performed so far, and against the
      persistent [World] (the Mongo collections and token files).
    - An Express handler is a task that yields the one response it sends.
    - [Promise.all] of two promises takes the order in which the
      platform's answers reach the handler as a parameter; the platform
      decides an answer when it receives the request.

    What the model leaves out: Mongo operations and timers always
    fulfil; the token-rotation hook of the company client is not run;
    request bodies hold strings where the handlers expect strings;
    [console.log] is dropped. *)

From Stdlib Require Import List NArith ZArith Bool String Ascii Lia.
Import ListNotations.
Local Open Scope N_scope.

Set Implicit Arguments.

(* ================================================================== *)
(** ** JavaScript strings *)
(* ================================================================== *)

Definition jsstring := list N.

(** The code units of an ASCII literal. *)
Definition js (s : string) : jsstring :=
  List.map N_of_ascii (list_ascii_of_string s).
Arguments js : simpl never.

Fixpoint jseqb (a b : jsstring) : bool :=
  match a, b with
  | [], [] => true
  | x :: a', y :: b' => N.eqb x y && jseqb a' b'
  | _, _ => false
  end.

(** JS truthiness of a string: only the empty string is falsy. *)
Definition truthy (s : jsstring) : bool :=
  match s with [] => false | _ :: _ => true end.

(** [a || b] on strings. *)
Definition js_or (a b : jsstring) : jsstring := if truthy a then a else b.

(** Truthiness of an optional string property ([undefined] is falsy). *)
Definition truthy_opt (o : option jsstring) : bool :=
  match o with Some s => truthy s | None => false end.

(** The class [\s] of a regular expression, which is also what
    [String.prototype.trim] strips: WhiteSpace and LineTerminator. *)
Definition is_space (c : N) : bool :=
  ((9 <=? c) && (c <=? 13))            (* TAB LF VT FF CR *)
  || (c =? 32)                         (* SPACE *)
  || (c =? 160)                        (* NO-BREAK SPACE *)
  || (c =? 5760)                       (* OGHAM SPACE MARK *)
  || ((8192 <=? c) && (c <=? 8202))    (* EN QUAD .. HAIR SPACE *)
  || (c =? 8232) || (c =? 8233)        (* LINE, PARAGRAPH SEPARATOR *)
  || (c =? 8239) || (c =? 8287)        (* NARROW NBSP, MEDIUM MATH SPACE *)
  || (c =? 12288)                      (* IDEOGRAPHIC SPACE *)
  || (c =? 65279).                     (* ZERO WIDTH NO-BREAK SPACE *)

Definition SPACE : N := 32.

Fixpoint trimStart (s : jsstring) : jsstring :=
  match s with
  | c :: s' => if is_space c then trimStart s' else s
  | [] => []
  end.

Definition trimEnd (s : jsstring) : jsstring := rev (trimStart (rev s)).

(** [str.trim()] *)
Definition trim (s : jsstring) : jsstring := trimEnd (trimStart s).

(** [str.replace(/\s+/g, r)]: every maximal run of white space becomes
    [r].  [in_run] records that the previous code unit was white space. *)
Fixpoint replace_space_runs (r : jsstring) (in_run : bool) (s : jsstring)
  : jsstring :=
  match s with
  | [] => []
  | c :: s' =>
      if is_space c
      then (if in_run then [] else r) ++ replace_space_runs r true s'
      else c :: replace_space_runs r false s'
  end.

(** part_001, /end-stream:
    [const normalize = (str) => str.trim().replace(/\s+/g, " ")] *)
Definition normalize (str : jsstring) : jsstring :=
  replace_space_runs [SPACE] false (trim str).

(** part_001, /end-stream: [compareStrings(str1, str2)] *)
Definition compareStrings (str1 str2 : jsstring) : bool :=
  jseqb (normalize str1) (normalize str2).

(** [ground.title.replace(/\s+/g, "")] of getExistingStream. *)
Definition strip_spaces (s : jsstring) : jsstring :=
  replace_space_runs [] false s.

(** The words of a string: its maximal runs of code units that are not
    white space.  [word] is the word being read. *)
Fixpoint split_words (s : jsstring) (word : jsstring) : list jsstring :=
  match s with
  | [] => match word with [] => [] | _ => [word] end
  | c :: s' =>
      if is_space c
      then match word with
           | [] => split_words s' []
           | _ => word :: split_words s' []
           end
      else split_words s' (word ++ [c])
  end.

Definition words (s : jsstring) : list jsstring := split_words s [].

(** The words joined by single spaces. *)
Fixpoint unwords (ws : list jsstring) : jsstring :=
  match ws with
  | [] => []
  | [w] => w
  | w :: rest => w ++ SPACE :: unwords rest
  end.

(** Does the string end in a code unit that is not white space (or is
    it empty)? *)
Fixpoint ends_clean (s : jsstring) : bool :=
  match s with
  | [] => true
  | [c] => negb (is_space c)
  | _ :: s' => ends_clean s'
  end.

(** Does the string start with a code unit that is not white space (or
    is it empty)? *)
Definition starts_clean (s : jsstring) : bool :=
  match s with
  | [] => true
  | c :: _ => negb (is_space c)
  end.

(* ================================================================== *)
(** ** Data model *)
(* ================================================================== *)

(** The stored OAuth credential of one channel ([youtubeTokens]). *)
Record Tokens := { access_token : jsstring; refresh_token : jsstring }.

(** The credentials an OAuth2 client carries when a request is made;
    [None] when [setCredentials] was given [undefined]. *)
Definition OAuth2Client := option Tokens.

Module Ground.
Record t := {
  groundId : jsstring;
  title : jsstring;
  streamKey : jsstring;
  academyStreamId : option jsstring;
  companyStreamId : option jsstring }.
End Ground.

Module Academy.
Record t := {
  academyId : jsstring;
  name : jsstring;
  youtubeTokens : option Tokens;
  grounds : list Ground.t }.
End Academy.

Module Company.
Record t := {
  name : jsstring;
  youtubeTokens : option Tokens }.
End Company.

(** A [liveStream] resource: [id], [cdn.ingestionInfo.*], [cdn.*],
    [status.streamStatus] and [status.healthStatus.status]. *)
Module LiveStream.
Record HealthStatus := { status : jsstring }.
Record t := {
  id : jsstring;
  streamName : jsstring;
  ingestionAddress : jsstring;
  resolution : jsstring;
  frameRate : jsstring;
  ingestionType : jsstring;
  streamStatus : jsstring;
  healthStatus : option HealthStatus }.
End LiveStream.

(** A [liveBroadcast] resource: [id], [snippet.title],
    [status.lifeCycleStatus] and [contentDetails.boundStreamId]. *)
Module LiveBroadcast.
Record t := {
  id : jsstring;
  title : jsstring;
  lifeCycleStatus : jsstring;
  boundStreamId : option jsstring }.
End LiveBroadcast.

(** Request body of [liveStreams.insert]. *)
Module StreamInsert.
Record t := {
  title : jsstring;
  ingestionType : jsstring;
  resolution : jsstring;
  frameRate : jsstring;
  streamName : option jsstring }.
End StreamInsert.

(** Request body of [liveBroadcasts.insert]. *)
Module BroadcastInsert.
Record t := {
  title : jsstring;
  description : jsstring;
  scheduledStartTime : jsstring;
  privacyStatus : jsstring;
  selfDeclaredMadeForKids : bool;
  enableAutoStart : bool;
  enableAutoStop : bool;
  defaultStreamKey : option jsstring }.
End BroadcastInsert.

(** The two per-ground fields the resolver may set. *)
Inductive StreamIdField := academyStreamIdField | companyStreamIdField.

Inductive JsError :=
| Error (message : jsstring)
| ReferenceError (message : jsstring)
| RangeError (message : jsstring).

Definition message (e : JsError) : jsstring :=
  match e with Error m | ReferenceError m | RangeError m => m end.

(** How an awaited promise settles: rejected or fulfilled. *)
Definition Settled (X : Type) : Type := (JsError + X)%type.

(* ================================================================== *)
(** ** Awaited operations *)
(* ================================================================== *)

Inductive Op : Type -> Type :=
(* YouTube Data API v3 *)
| liveStreams_list (auth : OAuth2Client) (id : option jsstring)
    : Op (list LiveStream.t)
| liveStreams_insert (auth : OAuth2Client) (requestBody : StreamInsert.t)
    : Op LiveStream.t
| liveBroadcasts_insert (auth : OAuth2Client) (requestBody : BroadcastInsert.t)
    : Op LiveBroadcast.t
| liveBroadcasts_bind (auth : OAuth2Client) (id streamId : jsstring)
    : Op unit
| liveBroadcasts_list_active (auth : OAuth2Client)
    : Op (list LiveBroadcast.t)
| liveBroadcasts_list (auth : OAuth2Client) (id : jsstring)
    : Op (list LiveBroadcast.t)
| liveBroadcasts_transition (auth : OAuth2Client)
    (broadcastStatus id : jsstring) : Op LiveBroadcast.t
| channels_list_mine (auth : OAuth2Client) : Op unit
(* [new Date(startTime).toISOString()]; [None] is [new Date()] *)
| Date_toISOString (startTime : option jsstring) : Op jsstring
(* [new Promise((resolve) => setTimeout(resolve, ms))] *)
| setTimeout (ms : Z) : Op unit
(* Mongo *)
| Academy_findOne (academyId : jsstring) : Op (option Academy.t)
| Academy_findOneAndUpdate (academyId groundId : jsstring)
    (updateField : StreamIdField) (value : jsstring) : Op unit
| Company_findOne : Op (option Company.t)
(* token files of the file-based revisions *)
| loadTokens (channelName : jsstring) : Op (option Tokens).

Inductive Event := Ev : forall X, Op X -> Event.
Arguments Ev [X] _.

(** The remote side: it answers a request (and a date conversion) from
    the operations performed so far. *)
Definition Platform := list Event -> forall X, Op X -> Settled X.

Record World := {
  academies : list Academy.t;
  companies : list Company.t;
  token_files : list (jsstring * Tokens);
  trace : list Event }.

(* ------------------------------------------------------------------ *)
(** *** Mongo queries *)

Definition is_ground (groundId : jsstring) (g : Ground.t) : bool :=
  jseqb (Ground.groundId g) groundId.

(** [academy.grounds.find((g) => g.groundId === groundId)] *)
Definition find_ground (groundId : jsstring) (a : Academy.t)
  : option Ground.t :=
  find (is_ground groundId) (Academy.grounds a).

Definition is_academy (academyId : jsstring) (a : Academy.t) : bool :=
  jseqb (Academy.academyId a) academyId.

(** The filter [{ academyId, "grounds.groundId": groundId }]. *)
Definition is_academy_with_ground (academyId groundId : jsstring)
  (a : Academy.t) : bool :=
  is_academy academyId a && existsb (is_ground groundId) (Academy.grounds a).

(** Apply [f] to the first element that satisfies [p]. *)
Fixpoint update_first (A : Type) (p : A -> bool) (f : A -> A) (l : list A)
  : list A :=
  match l with
  | [] => []
  | x :: l' => if p x then f x :: l' else x :: update_first p f l'
  end.

Definition set_stream_id (field : StreamIdField) (v : jsstring)
  (g : Ground.t) : Ground.t :=
  match field with
  | academyStreamIdField =>
      {| Ground.groundId := Ground.groundId g;
         Ground.title := Ground.title g;
         Ground.streamKey := Ground.streamKey g;
         Ground.academyStreamId := Some v;
         Ground.companyStreamId := Ground.companyStreamId g |}
  | companyStreamIdField =>
      {| Ground.groundId := Ground.groundId g;
         Ground.title := Ground.title g;
         Ground.streamKey := Ground.streamKey g;
         Ground.academyStreamId := Ground.academyStreamId g;
         Ground.companyStreamId := Some v |}
  end.

Definition with_grounds (gs : list Ground.t) (a : Academy.t) : Academy.t :=
  {| Academy.academyId := Academy.academyId a;
     Academy.name := Academy.name a;
     Academy.youtubeTokens := Academy.youtubeTokens a;
     Academy.grounds := gs |}.

(** [Academy.findOneAndUpdate({ academyId, "grounds.groundId": groundId },
      { $set: { [`grounds.$.${updateField}`]: value } })]:
    the first matching document, and in it the first matching element of
    [grounds] (the positional [$]). *)
Definition findOneAndUpdate (academyId groundId : jsstring)
  (field : StreamIdField) (v : jsstring) (db : list Academy.t)
  : list Academy.t :=
  update_first (is_academy_with_ground academyId groundId)
    (fun a => with_grounds
                (update_first (is_ground groundId) (set_stream_id field v)
                   (Academy.grounds a)) a)
    db.

Fixpoint lookup_tokens (n : jsstring) (files : list (jsstring * Tokens))
  : option Tokens :=
  match files with
  | [] => None
  | (k, v) :: rest => if jseqb k n then Some v else lookup_tokens n rest
  end.

(* ------------------------------------------------------------------ *)
(** *** Performing one operation *)

Definition record_event (e : Event) (w : World) : World :=
  {| academies := academies w; companies := companies w;
     token_files := token_files w; trace := trace w ++ [e] |}.

Definition with_academies (db : list Academy.t) (w : World) : World :=
  {| academies := db; companies := companies w;
     token_files := token_files w; trace := trace w |}.

Definition perform (P : Platform) X (op : Op X) (w : World)
  : Settled X * World :=
  let w' := record_event (Ev op) w in
  match op in Op X return Settled X * World with
  | Academy_findOne academyId =>
      (inr (find (is_academy academyId) (academies w)), w')
  | Academy_findOneAndUpdate academyId groundId field v =>
      (inr tt,
       with_academies (findOneAndUpdate academyId groundId field v
                         (academies w)) w')
  | Company_findOne => (inr (hd_error (companies w)), w')
  | loadTokens n => (inr (lookup_tokens n (token_files w)), w')
  | setTimeout _ => (inr tt, w')
  | remote => (P (trace w) _ remote, w')
  end.

(* ================================================================== *)
(** ** Tasks *)
(* ================================================================== *)

Inductive Task (A : Type) : Type :=
| Return (a : A)
| Throw (e : JsError)
| Await X (op : Op X) (k : Settled X -> Task A).
Arguments Return [A] _.
Arguments Throw {A} _.
Arguments Await [A X] _ _.

Fixpoint bind A B (t : Task A) (f : A -> Task B) : Task B :=
  match t with
  | Return a => f a
  | Throw e => Throw e
  | Await op k => Await op (fun r => bind (k r) f)
  end.

(** [try { t } catch (error) { h error }] *)
Fixpoint try_catch A (t : Task A) (h : JsError -> Task A) : Task A :=
  match t with
  | Return a => Return a
  | Throw e => h e
  | Await op k => Await op (fun r => try_catch (k r) h)
  end.

(** [await op]: a rejection is thrown at the await. *)
Definition await X (op : Op X) : Task X :=
  Await op (fun r => match r with inl e => Throw e | inr x => Return x end).

Declare Scope task_scope.
Delimit Scope task_scope with task.
Notation "x <- t ;; k" := (bind t (fun x => k))
  (at level 61, t at next level, right associativity) : task_scope.
Notation "t ;;; k" := (bind t (fun _ => k))
  (at level 61, right associativity) : task_scope.
Local Open Scope task_scope.

Fixpoint run (P : Platform) A (t : Task A) (w : World) : Settled A * World :=
  match t with
  | Return a => (inr a, w)
  | Throw e => (inl e, w)
  | Await op k => let (r, w') := perform P op w in run P (k r) w'
  end.

(** The promise of a task, observed: it never throws. *)
Definition settle A (t : Task A) : Task (Settled A) :=
  try_catch (a <- t ;; Return (inr a)) (fun e => Return (inl e)).

(** The task that has settled as [r]. *)
Definition done A (r : Settled A) : Task A :=
  match r with
  | inr a => Return a
  | inl e => Throw e
  end.

(** Two promises that are both waiting for an answer.  [p1] and [p2]
    are what is left of each once its pending answer has reached it,
    and [arrival] is the order in which the answers reach the handler:
    [true] resumes the first promise, [false] the second.  A resumed
    promise runs up to its next request, which is sent at once, and then
    waits again.  When one of the two has settled the other is run to
    its end, and so are both, the first one first, when [arrival] says
    nothing more.  The flag tells whether the first promise settled no
    later than the second. *)
Fixpoint race A B (arrival : list bool) (p1 : Task A) (p2 : Task B)
  : Task (Settled A * Settled B * bool) :=
  match arrival with
  | [] => r1 <- settle p1 ;; r2 <- settle p2 ;; Return (r1, r2, true)
  | true :: rest =>
      match p1 with
      | Return a => r2 <- settle p2 ;; Return (inr a, r2, true)
      | Throw e => r2 <- settle p2 ;; Return (inl e, r2, true)
      | Await op k => Await op (fun x => race rest (k x) p2)
      end
  | false :: rest =>
      match p2 with
      | Return b => r1 <- settle p1 ;; Return (r1, inr b, false)
      | Throw e => r1 <- settle p1 ;; Return (r1, inl e, false)
      | Await op k => Await op (fun y => race rest p1 (k y))
      end
  end.

(** Two promises started one after the other and run to completion.
    Each runs, when it is started, up to its first request: the first
    promise's request is sent, then the second's.  From there on the
    answers reach them in the order [arrival].  The platform decides
    its answer when it receives the request. *)
Definition both A B (arrival : list bool) (t1 : Task A) (t2 : Task B)
  : Task (Settled A * Settled B * bool) :=
  match t1 with
  | Return a => r2 <- settle t2 ;; Return (inr a, r2, true)
  | Throw e => r2 <- settle t2 ;; Return (inl e, r2, true)
  | Await op1 k1 =>
      Await op1 (fun x =>
        match t2 with
        | Return b => r1 <- settle (k1 x) ;; Return (r1, inr b, false)
        | Throw e => r1 <- settle (k1 x) ;; Return (r1, inl e, false)
        | Await op2 k2 => Await op2 (fun y => race arrival (k1 x) (k2 y))
        end)
  end.

(** [await Promise.all([t1, t2])]: fulfilled with both values, or
    rejected with the rejection that came first.  A rejection does not
    cancel the other promise: its remaining requests are still made.
    The task here settles once both promises have; the handlers only
    build their response from the outcome, so the requests that follow a
    rejection appear in the trace as they do on the wire. *)
Definition Promise_all A B (arrival : list bool) (t1 : Task A)
  (t2 : Task B) : Task (A * B) :=
  r <- both arrival t1 t2 ;;
  match r with
  | (inr a, inr b, _) => Return (a, b)
  | (inl e, inr _, _) => Throw e
  | (inr _, inl e, _) => Throw e
  | (inl e1, inl e2, first) => Throw (if first then e1 else e2)
  end.

(* ================================================================== *)
(** ** Stream resolver and broadcast binder (final.js, part_001) *)
(* ================================================================== *)

(** What [getExistingStream] returns. *)
Module StreamInfo.
Record t := {
  streamId : jsstring;
  streamKey : jsstring;
  ingestionAddress : jsstring;
  resolution : jsstring;
  frameRate : jsstring;
  ingestionType : jsstring }.
End StreamInfo.

(** What [createBroadcastAndBind] returns:
    [{ academyId, groundId, broadcastId, ...streamDetails }]. *)
Module Bound.
Record t := {
  academyId : jsstring;
  groundId : jsstring;
  broadcastId : jsstring;
  stream : StreamInfo.t }.
End Bound.

Definition stream_info (s : LiveStream.t) : StreamInfo.t :=
  {| StreamInfo.streamId := LiveStream.id s;
     StreamInfo.streamKey := LiveStream.streamName s;
     StreamInfo.ingestionAddress := LiveStream.ingestionAddress s;
     StreamInfo.resolution := LiveStream.resolution s;
     StreamInfo.frameRate := LiveStream.frameRate s;
     StreamInfo.ingestionType := LiveStream.ingestionType s |}.

(** [getCompanyOAuthClient]: the company singleton's credentials.  Its
    own [catch] logs and rethrows. *)
Definition getCompanyOAuthClient : Task Tokens :=
  company <- await Company_findOne ;;
  match company with
  | Some c =>
      match Company.youtubeTokens c with
      | Some tokens => Return tokens
      | None => Throw (Error (js "Company not authenticated"))
      end
  | None => Throw (Error (js "Company not authenticated"))
  end.

Definition updateField (isCompanyChannel : bool) : StreamIdField :=
  if isCompanyChannel then companyStreamIdField else academyStreamIdField.

Definition remembered_stream_id (isCompanyChannel : bool) (ground : Ground.t)
  : option jsstring :=
  if isCompanyChannel
  then Ground.companyStreamId ground
  else Ground.academyStreamId ground.

Definition new_stream_body (academy : Academy.t) (ground : Ground.t)
  (isCompanyChannel : bool) : StreamInsert.t :=
  {| StreamInsert.title :=
       if isCompanyChannel
       then Academy.name academy ++ js " - " ++ Ground.title ground
       else Ground.title ground ++ js " - Stream";
     StreamInsert.ingestionType := js "rtmp";
     StreamInsert.resolution := js "1080p";
     StreamInsert.frameRate := js "30fps";
     StreamInsert.streamName :=
       Some (if isCompanyChannel
             then Academy.name academy ++ js ":"
                    ++ strip_spaces (Ground.title ground)
             else Ground.streamKey ground) |}.

(** The guarded fetch of the remembered stream: [Some] is the early
    [return] in the [try]; [None] falls through to creation (no id, an
    empty listing, or an error, which the [catch] only logs). *)
Definition fetch_remembered (oauth2Client : OAuth2Client)
  (streamId : option jsstring) : Task (option StreamInfo.t) :=
  if truthy_opt streamId then
    try_catch
      (streamResponse <- await (liveStreams_list oauth2Client streamId) ;;
       match streamResponse with
       | existingStream :: _ => Return (Some (stream_info existingStream))
       | [] => Return None
       end)
      (fun error => Return None)
  else Return None.

(** [getExistingStream(oauth2Client, academy, groundId, isCompanyChannel)] *)
Definition getExistingStream (oauth2Client : OAuth2Client)
  (academy : Academy.t) (groundId : jsstring) (isCompanyChannel : bool)
  : Task StreamInfo.t :=
  match find_ground groundId academy with
  | None => Throw (Error (js "Ground not found"))
  | Some ground =>
      fetched <- fetch_remembered oauth2Client
                   (remembered_stream_id isCompanyChannel ground) ;;
      match fetched with
      | Some existing => Return existing
      | None =>
          streamResponse <-
            await (liveStreams_insert oauth2Client
                     (new_stream_body academy ground isCompanyChannel)) ;;
          await (Academy_findOneAndUpdate (Academy.academyId academy)
                   groundId (updateField isCompanyChannel)
                   (LiveStream.id streamResponse)) ;;;
          Return (stream_info streamResponse)
      end
  end.

(** The body of [liveBroadcasts.insert] in [createBroadcastAndBind].
    [autoStartStop] is [enableAutoStart]/[enableAutoStop]: [true] in
    final.js, [false] in part_001. *)
Definition new_broadcast_body (autoStartStop : bool)
  (title teamA teamB scheduledStartTime : jsstring)
  (streamId : jsstring) : BroadcastInsert.t :=
  {| BroadcastInsert.title := title;
     BroadcastInsert.description := teamA ++ js " vs " ++ teamB;
     BroadcastInsert.scheduledStartTime := scheduledStartTime;
     BroadcastInsert.privacyStatus := js "public";
     BroadcastInsert.selfDeclaredMadeForKids := false;
     BroadcastInsert.enableAutoStart := autoStartStop;
     BroadcastInsert.enableAutoStop := autoStartStop;
     BroadcastInsert.defaultStreamKey := Some streamId |}.

(** [createBroadcastAndBind(oauth2Client, academy, groundId, title, teamA,
      teamB, isCompanyChannel, startTime)] *)
Definition createBroadcastAndBind (autoStartStop : bool)
  (oauth2Client : OAuth2Client) (academy : Academy.t)
  (groundId title teamA teamB : jsstring) (isCompanyChannel : bool)
  (startTime : option jsstring) : Task Bound.t :=
  streamDetails <-
    getExistingStream oauth2Client academy groundId isCompanyChannel ;;
  scheduledStartTime <- await (Date_toISOString startTime) ;;
  broadcastResponse <-
    await (liveBroadcasts_insert oauth2Client
             (new_broadcast_body autoStartStop title teamA teamB
                scheduledStartTime (StreamInfo.streamId streamDetails))) ;;
  await (liveBroadcasts_bind oauth2Client
           (LiveBroadcast.id broadcastResponse)
           (StreamInfo.streamId streamDetails)) ;;;
  Return {| Bound.academyId := Academy.academyId academy;
            Bound.groundId := groundId;
            Bound.broadcastId := LiveBroadcast.id broadcastResponse;
            Bound.stream := streamDetails |}.

(* ------------------------------------------------------------------ *)
(** *** POST /go-live-now (final.js, part_001) *)

Module GoLive.
Record body := {
  academyId : jsstring;
  groundId : jsstring;
  title : jsstring;
  teamA : jsstring;
  teamB : jsstring;
  startTime : option jsstring }.

Inductive response :=
(* [res.json({ success: true, academyStream, companyStream })] *)
| success (academyStream companyStream : Bound.t)
(* [res.status(code).json({ success: false, message })] *)
| failure (code : Z) (message : jsstring).
End GoLive.

(** The academy run of the handler. *)
Definition academy_subflow (autoStartStop : bool) (academy : Academy.t)
  (b : GoLive.body) : Task Bound.t :=
  createBroadcastAndBind autoStartStop (Academy.youtubeTokens academy)
    academy (GoLive.groundId b) (GoLive.title b) (GoLive.teamA b)
    (GoLive.teamB b) false (GoLive.startTime b).

(** The company run of the handler. *)
Definition company_subflow (autoStartStop : bool) (academy : Academy.t)
  (b : GoLive.body) : Task Bound.t :=
  companyOAuth2Client <- getCompanyOAuthClient ;;
  createBroadcastAndBind autoStartStop (Some companyOAuth2Client)
    academy (GoLive.groundId b) (GoLive.title b) (GoLive.teamA b)
    (GoLive.teamB b) true (GoLive.startTime b).

Definition go_live_now (autoStartStop : bool) (b : GoLive.body)
  : Task GoLive.response :=
  try_catch
    (academy <- await (Academy_findOne (GoLive.academyId b)) ;;
     match academy with
     | None => Return (GoLive.failure 400 (js "Academy not authenticated"))
     | Some academy =>
         match Academy.youtubeTokens academy with
         | None =>
             Return (GoLive.failure 400 (js "Academy not authenticated"))
         | Some _ =>
             academyResult <- academy_subflow autoStartStop academy b ;;
             companyResult <- company_subflow autoStartStop academy b ;;
             Return (GoLive.success academyResult companyResult)
         end
     end)
    (fun error => Return (GoLive.failure 500 (message error))).

(* ------------------------------------------------------------------ *)
(** *** POST /end-stream (final.js and part_001) *)

Module EndStream.
Record body := { academyId : jsstring; title : jsstring }.

Inductive response :=
(* [res.json({ success: true, academyStreamEnded, companyStreamEnded })] *)
| report (academyStreamEnded companyStreamEnded : bool)
(* [res.status(code).json({ error })] *)
| error (code : Z) (message : jsstring).
End EndStream.

(** The title an active broadcast must carry to be ended.
    final.js: [b.snippet.title ===
      (isCompanyChannel ? `${academy.name} - ${title}` : title)];
    part_001: [compareStrings(b.snippet.title, title)]. *)
Inductive revision := final_js | part_001.

Definition title_matches (rev : revision) (academy : Academy.t)
  (title : jsstring) (isCompanyChannel : bool) (b : LiveBroadcast.t)
  : bool :=
  match rev with
  | final_js =>
      jseqb (LiveBroadcast.title b)
        (if isCompanyChannel
         then Academy.name academy ++ js " - " ++ title
         else title)
  | part_001 => compareStrings (LiveBroadcast.title b) title
  end.

(** [endBroadcast(auth, isCompanyChannel)] *)
Definition endBroadcast (rev : revision) (academy : Academy.t)
  (title : jsstring) (auth : OAuth2Client) (isCompanyChannel : bool)
  : Task bool :=
  searchResponse <- await (liveBroadcasts_list_active auth) ;;
  match find (title_matches rev academy title isCompanyChannel)
          searchResponse with
  | Some broadcast =>
      await (liveBroadcasts_transition auth (js "complete")
               (LiveBroadcast.id broadcast)) ;;;
      Return true
  | None => Return false
  end.

(** [arrival] is the order in which the platform's answers to the two
    [endBroadcast] promises reach the handler. *)
Definition end_stream (arrival : list bool) (rev : revision)
  (b : EndStream.body) : Task EndStream.response :=
  try_catch
    (academy <- await (Academy_findOne (EndStream.academyId b)) ;;
     match academy with
     | None => Return (EndStream.error 400 (js "Academy not authenticated"))
     | Some academy =>
         match Academy.youtubeTokens academy with
         | None =>
             Return (EndStream.error 400 (js "Academy not authenticated"))
         | Some academyTokens =>
             companyOAuth2Client <- getCompanyOAuthClient ;;
             ended <-
               Promise_all arrival
                 (endBroadcast rev academy (EndStream.title b)
                    (Some academyTokens) false)
                 (endBroadcast rev academy (EndStream.title b)
                    (Some companyOAuth2Client) true) ;;
             Return (EndStream.report (fst ended) (snd ended))
         end
     end)
    (fun error => Return (EndStream.error 500 (message error))).

(* ================================================================== *)
(** ** GET /check-stream-status (part_001) *)
(* ================================================================== *)

Module CheckStatus.
Record query := {
  academyId : jsstring;
  broadcastId : jsstring;
  isCompanyChannel : option jsstring }.

Record status := {
  broadcastStatus : jsstring;
  streamStatus : jsstring;
  healthStatus : option LiveStream.HealthStatus;
  isReadyToStart : bool }.

Inductive response :=
| ok (s : status)                       (* [res.json({...})] *)
| error (code : Z) (message : jsstring). (* [res.status(code).json({ error })] *)
End CheckStatus.

(** The client of the requested channel, as /check-stream-status and
    /start-stream build it. *)
Definition channel_client (isCompanyChannel : bool) (academy : Academy.t)
  : Task OAuth2Client :=
  if isCompanyChannel
  then (tokens <- getCompanyOAuthClient ;; Return (Some tokens))
  else Return (Academy.youtubeTokens academy).

Definition isReadyToStart (broadcast : LiveBroadcast.t)
  (stream : LiveStream.t) : bool :=
  jseqb (LiveStream.streamStatus stream) (js "active")
  && (jseqb (LiveBroadcast.lifeCycleStatus broadcast) (js "testing")
      || jseqb (LiveBroadcast.lifeCycleStatus broadcast) (js "ready")).

Definition check_stream_status (q : CheckStatus.query)
  : Task CheckStatus.response :=
  try_catch
    (academy <- await (Academy_findOne (CheckStatus.academyId q)) ;;
     match academy with
     | None => Return (CheckStatus.error 404 (js "Academy not found"))
     | Some academy =>
         oauth2Client <-
           channel_client
             (match CheckStatus.isCompanyChannel q with
              | Some s => jseqb s (js "true")
              | None => false
              end) academy ;;
         broadcastResponse <-
           await (liveBroadcasts_list oauth2Client
                    (CheckStatus.broadcastId q)) ;;
         match broadcastResponse with
         | [] => Return (CheckStatus.error 404 (js "Broadcast not found"))
         | broadcast :: _ =>
             streamResponse <-
               await (liveStreams_list oauth2Client
                        (LiveBroadcast.boundStreamId broadcast)) ;;
             match streamResponse with
             | [] => Return (CheckStatus.error 404 (js "Stream not found"))
             | stream :: _ =>
                 Return (CheckStatus.ok
                   {| CheckStatus.broadcastStatus :=
                        LiveBroadcast.lifeCycleStatus broadcast;
                      CheckStatus.streamStatus :=
                        LiveStream.streamStatus stream;
                      CheckStatus.healthStatus :=
                        LiveStream.healthStatus stream;
                      CheckStatus.isReadyToStart :=
                        isReadyToStart broadcast stream |})
             end
         end
     end)
    (fun error => Return (CheckStatus.error 500 (message error))).

(* ================================================================== *)
(** ** POST /start-stream (part_001) *)
(* ================================================================== *)

Definition MAX_RETRIES : Z := 3.
Definition DELAY_BETWEEN_RETRIES : Z := 5000.
(** The pause after the transition to testing. *)
Definition TESTING_SETTLE : Z := 3000.

Module Start.
Record body := {
  academyId : jsstring;
  broadcastId : jsstring;
  isCompanyChannel : bool }.

(** What [checkStreamHealth] returns. *)
Record health := {
  broadcastStatus : jsstring;
  streamStatus : jsstring;
  healthStatus : option jsstring }.

(** What [attemptTransition] returns: [{ success: true, message, status }]. *)
Record result := { message : jsstring; status : jsstring }.

Inductive response :=
| ok (r : result)                                  (* [res.json(result)] *)
| not_found (message : jsstring)                   (* 404 [{ error }] *)
(* 400 [{ error, details, currentStatus, streamStatus, healthStatus }] *)
| failed_with_status (details : jsstring) (final : health)
(* 500 [{ error, details, additionalError }] *)
| failed_without_status (details additionalError : jsstring).
End Start.

(** [checkStreamHealth()]; [healthStatus] is
    [stream.status.healthStatus?.status || null]. *)
Definition checkStreamHealth (oauth2Client : OAuth2Client)
  (broadcastId : jsstring) : Task Start.health :=
  streamResponse <- await (liveBroadcasts_list oauth2Client broadcastId) ;;
  match streamResponse with
  | [] => Throw (Error (js "Broadcast not found"))
  | broadcast :: _ =>
      streamDetailsResponse <-
        await (liveStreams_list oauth2Client
                 (LiveBroadcast.boundStreamId broadcast)) ;;
      match streamDetailsResponse with
      | [] => Throw (Error (js "Stream not found"))
      | stream :: _ =>
          Return
            {| Start.broadcastStatus :=
                 LiveBroadcast.lifeCycleStatus broadcast;
               Start.streamStatus := LiveStream.streamStatus stream;
               Start.healthStatus :=
                 match LiveStream.healthStatus stream with
                 | Some h =>
                     if truthy (LiveStream.status h)
                     then Some (LiveStream.status h) else None
                 | None => None
                 end |}
      end
  end.

(** [`${x}`] of a value that may be [null]. *)
Definition show_opt (o : option jsstring) : jsstring :=
  match o with Some s => s | None => js "null" end.

Definition is_good (h : option jsstring) : bool :=
  match h with Some s => jseqb s (js "good") | None => false end.

(** The [try] block of [attemptTransition]: to testing first unless the
    broadcast is there already, then to live. *)
Definition transition_to_live (oauth2Client : OAuth2Client)
  (broadcastId : jsstring) (health : Start.health) : Task Start.result :=
  (if negb (jseqb (Start.broadcastStatus health) (js "testing"))
   then (await (liveBroadcasts_transition oauth2Client (js "testing")
                  broadcastId) ;;;
         await (setTimeout TESTING_SETTLE))
   else Return tt) ;;;
  result <- await (liveBroadcasts_transition oauth2Client (js "live")
                     broadcastId) ;;
  Return {| Start.message := js "Stream started successfully";
            Start.status := LiveBroadcast.lifeCycleStatus result |}.

(** One activation of [attemptTransition(retryCount)]; [again] is the
    recursive call [attemptTransition(retryCount + 1)]. *)
Definition attemptTransition_body (oauth2Client : OAuth2Client)
  (broadcastId : jsstring) (again : Task Start.result) (retryCount : Z)
  : Task Start.result :=
  health <- checkStreamHealth oauth2Client broadcastId ;;
  if jseqb (Start.broadcastStatus health) (js "live") then
    Return {| Start.message := js "Broadcast is already live";
              Start.status := Start.broadcastStatus health |}
  else if negb (jseqb (Start.streamStatus health) (js "active")) then
    Throw (Error (js "Stream is not active. Current status: "
                    ++ Start.streamStatus health))
  else if negb (is_good (Start.healthStatus health)) then
    Throw (Error (js "Stream health is not good. Current health: "
                    ++ show_opt (Start.healthStatus health)))
  else
    try_catch (transition_to_live oauth2Client broadcastId health)
      (fun error =>
         if (retryCount <? MAX_RETRIES)%Z
         then (await (setTimeout DELAY_BETWEEN_RETRIES) ;;; again)
         else Throw error).

(** The recursion, on the retries that are left: [MAX_RETRIES -
    retryCount].  With none left the guard [retryCount < MAX_RETRIES] is
    false and [again] is not used. *)
Fixpoint attemptTransition_from (retries_left : nat)
  (oauth2Client : OAuth2Client) (broadcastId : jsstring) (retryCount : Z)
  : Task Start.result :=
  attemptTransition_body oauth2Client broadcastId
    (match retries_left with
     | S n => attemptTransition_from n oauth2Client broadcastId
                (retryCount + 1)%Z
     | O => Throw (Error (js "unreachable"))
     end)
    retryCount.

(** [attemptTransition(retryCount = 0)] *)
Definition attemptTransition (oauth2Client : OAuth2Client)
  (broadcastId : jsstring) (retryCount : Z) : Task Start.result :=
  attemptTransition_from (Z.to_nat (MAX_RETRIES - retryCount))
    oauth2Client broadcastId retryCount.

(** [checkStreamHealth] as the handler's [catch] clause sees it.  The
    function is declared with [const] inside the [try] block, so the
    name is not bound in the [catch] clause (nor in the handler or the
    module): evaluating it throws a ReferenceError, which the inner
    [catch (statusError)] receives. *)
Definition checkStreamHealth_in_catch : Task Start.health :=
  Throw (ReferenceError (js "checkStreamHealth is not defined")).

Definition start_stream (b : Start.body) : Task Start.response :=
  try_catch
    (academy <- await (Academy_findOne (Start.academyId b)) ;;
     match academy with
     | None => Return (Start.not_found (js "Academy not found"))
     | Some academy =>
         oauth2Client <- channel_client (Start.isCompanyChannel b) academy ;;
         result <- attemptTransition oauth2Client (Start.broadcastId b) 0 ;;
         Return (Start.ok result)
     end)
    (fun error =>
       try_catch
         (finalHealth <- checkStreamHealth_in_catch ;;
          Return (Start.failed_with_status (message error) finalHealth))
         (fun statusError =>
            Return (Start.failed_without_status (message error)
                      (js "Could not fetch final status")))).

(* ================================================================== *)
(** ** The file-based revision (part_000) *)
(* ================================================================== *)

Module Legacy.

(** An element of [results] in /go-live-now. *)
Record details := {
  channel : jsstring;
  broadcastId : jsstring;
  streamId : jsstring;
  streamKey : jsstring;
  ingestionAddress : jsstring;
  scheduledStartTime : jsstring;
  studioUrl : jsstring;
  resolution : jsstring;
  frameRate : jsstring;
  ingestionType : jsstring }.

Record body := { title : jsstring; teamA : jsstring; teamB : jsstring }.

Inductive response :=
| success (results : list details) (message : jsstring)
| failure (message : jsstring)
| redirect (redirectUrl : jsstring).

(** An element of [CHANNELS]. *)
Record channel_entry := { name : jsstring; tokens : option Tokens }.

(** An element of [results] in /end-stream. *)
Record outcome := {
  channelName : jsstring;
  outcome_title : jsstring;
  status : jsstring;
  outcome_message : jsstring }.

Inductive end_response :=
| end_results (results : list outcome)        (* 200 [{ results }] *)
| end_error (code : Z) (error : jsstring).    (* 400 / 500 *)

(** [validateTokens(oauth2Client, tokens)] *)
Definition validateTokens (tokens : Tokens) : Task bool :=
  try_catch (await (channels_list_mine (Some tokens)) ;;; Return true)
    (fun error => Return false).

(** [createBroadcastAndStream(oauth2Client, channelName)] of
    /go-live-now, lines 104-177. *)
Definition createBroadcastAndStream (b : body) (oauth2Client : OAuth2Client)
  (channelName : jsstring) : Task details :=
  now <- await (Date_toISOString None) ;;
  broadcastResponse <-
    await (liveBroadcasts_insert oauth2Client
      {| BroadcastInsert.title := js_or (title b) (js "Live Stream");
         BroadcastInsert.description :=
           js_or (teamA b) (js "Team A") ++ js " vs "
             ++ js_or (teamB b) (js "Team B")
             ++ js " - Powered by our application";
         BroadcastInsert.scheduledStartTime := now;
         BroadcastInsert.privacyStatus := js "public";
         BroadcastInsert.selfDeclaredMadeForKids := false;
         BroadcastInsert.enableAutoStart := true;
         BroadcastInsert.enableAutoStop := true;
         BroadcastInsert.defaultStreamKey := None |}) ;;
  let broadcastId := LiveBroadcast.id broadcastResponse in
  streamResponse <-
    await (liveStreams_insert oauth2Client
      {| StreamInsert.title := js_or (title b) (js "New Stream")
                                 ++ js " - Stream";
         StreamInsert.ingestionType := js "rtmp";
         StreamInsert.resolution := js "1080p";
         StreamInsert.frameRate := js "30fps";
         StreamInsert.streamName := None |}) ;;
  let streamId := LiveStream.id streamResponse in
  await (liveBroadcasts_bind oauth2Client broadcastId streamId) ;;;
  later <- await (Date_toISOString None) ;;
  Return {| channel := channelName;
            broadcastId := broadcastId;
            streamId := streamId;
            streamKey := LiveStream.streamName streamResponse;
            ingestionAddress := LiveStream.ingestionAddress streamResponse;
            scheduledStartTime := later;
            studioUrl := js "https://studio.youtube.com/video/"
                           ++ broadcastId ++ js "/livestreaming";
            resolution := LiveStream.resolution streamResponse;
            frameRate := LiveStream.frameRate streamResponse;
            ingestionType := LiveStream.ingestionType streamResponse |}.

(** The attempt on ourChannel: its own [try]/[catch] only logs, so it
    contributes one element to [results] or none. *)
Definition our_channel_attempt (b : body) : Task (list details) :=
  ourChannelTokens <- await (loadTokens (js "ourChannel")) ;;
  match ourChannelTokens with
  | Some ourTokens =>
      tokensValid <- validateTokens ourTokens ;;
      if tokensValid then
        try_catch
          (ourStreamDetails <-
             createBroadcastAndStream b (Some ourTokens) (js "ourChannel") ;;
           Return [ourStreamDetails])
          (fun error => Return [])
      else Return []
  | None => Return []
  end.

Section Engine.

(** [oauth2Client.generateAuthUrl({..., state})] *)
Variable generateAuthUrl : jsstring -> jsstring.
(** [String.prototype.toLowerCase] *)
Variable toLowerCase : jsstring -> jsstring.

(** POST /go-live-now, lines 98-259. *)
Definition go_live_now (b : body) (authCompleted : bool) : Task response :=
  if authCompleted then
    customerTokens <- await (loadTokens (js "customerChannel")) ;;
    match customerTokens with
    | None =>
        Return (failure
          (js "Customer channel authentication required. Please try again."))
    | Some customerTokens =>
        try_catch
          (results <- our_channel_attempt b ;;
           customerStreamDetails <-
             createBroadcastAndStream b (Some customerTokens)
               (js "customerChannel") ;;
           let results := results ++ [customerStreamDetails] in
           Return (success results
                     (js "Streams created successfully"
                        ++ (if (1 <? List.length results)%nat
                            then js " on both channels"
                            else js " on customer channel"))))
          (fun error =>
             Return (failure
               (js "Failed to create stream on customer channel. Please try again.")))
    end
  else Return (redirect (generateAuthUrl (js "customerChannel"))).

Definition entry (c : channel_entry) (title status message : jsstring)
  : outcome :=
  {| channelName := name c; outcome_title := title; status := status;
     outcome_message := message |}.

(** One iteration of [for (const channel of CHANNELS)] with tokens: the
    entry it pushes. *)
Definition end_on_channel (title : jsstring) (c : channel_entry)
  (tokens : Tokens) : Task outcome :=
  try_catch
    (tokensValid <- validateTokens tokens ;;
     if negb tokensValid then
       Return (entry c title (js "invalid_tokens")
                 (js "Tokens for " ++ name c
                    ++ js " are invalid. Please reauthenticate."))
     else
       searchResponse <- await (liveBroadcasts_list_active (Some tokens)) ;;
       match find (fun broadcast =>
                     jseqb (toLowerCase (LiveBroadcast.title broadcast))
                       (toLowerCase title)) searchResponse with
       | Some matchingBroadcast =>
           await (liveBroadcasts_transition (Some tokens) (js "complete")
                    (LiveBroadcast.id matchingBroadcast)) ;;;
           Return (entry c title (js "success")
                     (js "Stream " ++ [34] ++ title ++ [34]
                        ++ js " has ended successfully for " ++ name c
                        ++ js "."))
       | None =>
           Return (entry c title (js "not_found")
                     (js "No live stream with title " ++ [34] ++ title
                        ++ [34] ++ js " found for " ++ name c ++ js "."))
       end)
    (fun err =>
       Return (entry c title (js "error")
                 (js "Error ending stream for " ++ name c ++ js ": "
                    ++ message err))).

(** The loop over [CHANNELS]. *)
Fixpoint end_each (title : jsstring) (channels : list channel_entry)
  (results : list outcome) : Task (list outcome) :=
  match channels with
  | [] => Return results
  | c :: rest =>
      match tokens c with
      | None =>
          end_each title rest
            (results ++ [entry c title (js "no_tokens")
                           (js "No tokens found for " ++ name c
                              ++ js ". Please authenticate.")])
      | Some t =>
          r <- end_on_channel title c t ;;
          end_each title rest (results ++ [r])
      end
  end.

(** POST /end-stream, lines 573-667.  [CHANNELS] is the module constant,
    whose tokens were read when the server started. *)
Definition end_stream (CHANNELS : list channel_entry) (title : jsstring)
  : Task end_response :=
  if negb (truthy title) then
    Return (end_error 400 (js "Stream title is required."))
  else
    try_catch
      (results <- end_each title CHANNELS [] ;; Return (end_results results))
      (fun error => Return (end_error 500 (js "An unexpected error occurred."))).

End Engine.
End Legacy.

(* ================================================================== *)
(** ** Observing a run *)
(* ================================================================== *)

(** The operations a run performs, in order. *)
Fixpoint events (P : Platform) A (t : Task A) (w : World) : list Event :=
  match t with
  | Await op k =>
      Ev op :: events P (k (fst (perform P op w))) (snd (perform P op w))
  | _ => []
  end.

Definition result (P : Platform) A (t : Task A) (w : World) : Settled A :=
  fst (run P t w).

Definition final (P : Platform) A (t : Task A) (w : World) : World :=
  snd (run P t w).

(** Only [Academy.findOneAndUpdate] changes the collections. *)
Definition is_write (e : Event) : bool :=
  match e with
  | Ev (Academy_findOneAndUpdate _ _ _ _) => true
  | _ => false
  end.

(** A request to move a broadcast to another lifecycle state. *)
Definition is_transition (e : Event) : bool :=
  match e with
  | Ev (liveBroadcasts_transition _ _ _) => true
  | _ => false
  end.

(** A request that creates a stream on the platform. *)
Definition is_stream_insert (e : Event) : bool :=
  match e with
  | Ev (liveStreams_insert _ _) => true
  | _ => false
  end.

(** [l1 ++ sep ++ l2 ++ sep ++ ... ++ ln] *)
Fixpoint intercalate (A : Type) (sep : list A) (ls : list (list A))
  : list A :=
  match ls with
  | [] => []
  | [l] => l
  | l :: rest => l ++ sep ++ intercalate sep rest
  end.

(** One attempt of /start-stream as the platform sees it: the poll of
    the broadcast and of its bound stream, then one transition request. *)
Definition is_attempt (oauth2Client : OAuth2Client) (broadcastId : jsstring)
  (evs : list Event) : Prop :=
  exists boundStreamId status,
    evs = [Ev (liveBroadcasts_list oauth2Client broadcastId);
           Ev (liveStreams_list oauth2Client boundStreamId);
           Ev (liveBroadcasts_transition oauth2Client status broadcastId)].

(** The three checks of [attemptTransition] let the attempt through. *)
Definition checks_pass (h : Start.health) : Prop :=
  Start.broadcastStatus h <> js "live"
  /\ Start.streamStatus h = js "active"
  /\ Start.healthStatus h = Some (js "good").

(** Every poll of the broadcast finds it not yet live, on an active and
    healthy stream. *)
Definition always_ready (P : Platform) (oauth2Client : OAuth2Client)
  (broadcastId : jsstring) : Prop :=
  forall w, exists h,
    result P (checkStreamHealth oauth2Client broadcastId) w = inr h
    /\ checks_pass h.

(** Every transition request for the broadcast is answered with an
    error. *)
Definition transitions_fail (P : Platform) (oauth2Client : OAuth2Client)
  (broadcastId : jsstring) : Prop :=
  forall history status, exists e,
    P history _ (liveBroadcasts_transition oauth2Client status broadcastId)
    = inl e.

(** The request that ends the first listed broadcast [matches] picks,
    if the listing was fulfilled and has one. *)
Definition ending_request (auth : OAuth2Client)
  (matches : LiveBroadcast.t -> bool)
  (listed : Settled (list LiveBroadcast.t)) : list Event :=
  match listed with
  | inr items =>
      match find matches items with
      | Some broadcast =>
          [Ev (liveBroadcasts_transition auth (js "complete")
                 (LiveBroadcast.id broadcast))]
      | None => []
      end
  | inl _ => []
  end.

(** How one channel of /end-stream went, from what the platform
    answered: [listed] is the answer to the channel's search and
    [history] the requests made before the channel's transition
    request.  A rejected search or transition is the channel's error; a
    listing without a match is [false]. *)
Definition channel_outcome (P : Platform) (auth : OAuth2Client)
  (matches : LiveBroadcast.t -> bool)
  (listed : Settled (list LiveBroadcast.t)) (history : list Event)
  : Settled bool :=
  match listed with
  | inr items =>
      match find matches items with
      | Some broadcast =>
          match P history _
                  (liveBroadcasts_transition auth (js "complete")
                     (LiveBroadcast.id broadcast)) with
          | inr _ => inr true
          | inl e => inl e
          end
      | None => inr false
      end
  | inl e => inl e
  end.

(** The stream id the store remembers for a ground and role: the field
    of the ground as a lookup of the academy by id finds it. *)
Definition remembered_in (db : list Academy.t)
  (academyId groundId : jsstring) (isCompanyChannel : bool)
  : option jsstring :=
  match find (is_academy academyId) db with
  | Some academy =>
      match find_ground groundId academy with
      | Some ground => remembered_stream_id isCompanyChannel ground
      | None => None
      end
  | None => None
  end.




(* ================================================================== *)
(** ** A test platform *)
(* ================================================================== *)

(** A platform for concrete runs.  It lists, as active, the broadcasts
    that were inserted under the same credentials, reports every polled
    broadcast in the given lifecycle state with a stream in the given
    status and health, and accepts or refuses transitions as told. *)
Module Fixture.

Definition tokens_eqb (a b : Tokens) : bool :=
  jseqb (access_token a) (access_token b)
  && jseqb (refresh_token a) (refresh_token b).

Definition auth_eqb (a b : OAuth2Client) : bool :=
  match a, b with
  | Some x, Some y => tokens_eqb x y
  | None, None => true
  | _, _ => false
  end.

Definition stream (id streamName streamStatus health : jsstring)
  : LiveStream.t :=
  {| LiveStream.id := id;
     LiveStream.streamName := streamName;
     LiveStream.ingestionAddress := js "rtmp://a.rtmp.youtube.com/live2";
     LiveStream.resolution := js "1080p";
     LiveStream.frameRate := js "30fps";
     LiveStream.ingestionType := js "rtmp";
     LiveStream.streamStatus := streamStatus;
     LiveStream.healthStatus := Some {| LiveStream.status := health |} |}.

Definition broadcast (id title lifeCycleStatus : jsstring)
  : LiveBroadcast.t :=
  {| LiveBroadcast.id := id;
     LiveBroadcast.title := title;
     LiveBroadcast.lifeCycleStatus := lifeCycleStatus;
     LiveBroadcast.boundStreamId := Some (js "stream-1") |}.

(** The broadcasts inserted so far under [auth]. *)
Fixpoint inserted (auth : OAuth2Client) (history : list Event)
  : list LiveBroadcast.t :=
  match history with
  | [] => []
  | Ev op :: rest =>
      match op with
      | liveBroadcasts_insert a body =>
          if auth_eqb a auth
          then broadcast (js "broadcast:" ++ BroadcastInsert.title body)
                 (BroadcastInsert.title body) (js "live")
               :: inserted auth rest
          else inserted auth rest
      | _ => inserted auth rest
      end
  end.

Record behaviour := {
  lifeCycleStatus : jsstring;
  streamStatus : jsstring;
  health : jsstring;
  (* requests refused with a network error *)
  refuses : Event -> bool }.

Definition network_error : JsError := Error (js "socket hang up").

Definition platform (b : behaviour) : Platform :=
  fun history X op =>
    if refuses b (Ev op) then inl network_error else
    match op in Op X return Settled X with
    | liveStreams_list _ (Some id) =>
        inr [stream id (js "key-of-" ++ id) (streamStatus b) (health b)]
    | liveStreams_list _ None => inr []
    | liveStreams_insert _ body =>
        inr (stream (js "stream:" ++ StreamInsert.title body)
               (match StreamInsert.streamName body with
                | Some n => n
                | None => js "generated-key"
                end)
               (js "inactive") (js "noData"))
    | liveBroadcasts_insert _ body =>
        inr (broadcast (js "broadcast:" ++ BroadcastInsert.title body)
               (BroadcastInsert.title body) (js "created"))
    | liveBroadcasts_bind _ _ _ => inr tt
    | liveBroadcasts_list_active auth => inr (inserted auth history)
    | liveBroadcasts_list _ id =>
        inr [broadcast id (js "U15 vs U17") (lifeCycleStatus b)]
    | liveBroadcasts_transition _ status id =>
        inr (broadcast id (js "U15 vs U17") status)
    | channels_list_mine _ => inr tt
    | Date_toISOString _ => inr (js "2025-01-01T10:00:00.000Z")
    | _ => inl (Error (js "not a remote operation"))
    end.

Definition nothing (e : Event) : bool := false.

(** Ingest running and healthy, broadcast ready, every request served. *)
Definition healthy : behaviour :=
  {| lifeCycleStatus := js "ready"; streamStatus := js "active";
     health := js "good"; refuses := nothing |}.

(** As [healthy], but every transition is refused. *)
Definition busy : behaviour :=
  {| lifeCycleStatus := js "ready"; streamStatus := js "active";
     health := js "good"; refuses := is_transition |}.

(** Nothing is being ingested. *)
Definition idle : behaviour :=
  {| lifeCycleStatus := js "ready"; streamStatus := js "inactive";
     health := js "noData"; refuses := nothing |}.

Definition academyTokens : Tokens :=
  {| access_token := js "ya29.academy"; refresh_token := js "1//academy" |}.

Definition companyTokens : Tokens :=
  {| access_token := js "ya29.company"; refresh_token := js "1//company" |}.

Definition G1 : Ground.t :=
  {| Ground.groundId := js "G1";
     Ground.title := js "Main Ground";
     Ground.streamKey := js "A1-G1-1700000000000";
     Ground.academyStreamId := None;
     Ground.companyStreamId := None |}.

Definition G2 : Ground.t :=
  {| Ground.groundId := js "G2";
     Ground.title := js "Second Ground";
     Ground.streamKey := js "A1-G2-1700000000000";
     Ground.academyStreamId := Some (js "stream-2");
     Ground.companyStreamId := None |}.

Definition A1 : Academy.t :=
  {| Academy.academyId := js "A1";
     Academy.name := js "Rising Stars";
     Academy.youtubeTokens := Some academyTokens;
     Academy.grounds := [G1; G2] |}.

Definition world : World :=
  {| academies := [A1];
     companies := [{| Company.name := js "Company";
                      Company.youtubeTokens := Some companyTokens |}];
     token_files := [(js "ourChannel", companyTokens);
                     (js "customerChannel", academyTokens)];
     trace := [] |}.

(** The world after a broadcast titled [title] went live under [auth]. *)
Definition world_with_broadcast (auth : OAuth2Client) (title : jsstring)
  : World :=
  {| academies := academies world;
     companies := companies world;
     token_files := token_files world;
     trace := [Ev (liveBroadcasts_insert auth
                     (new_broadcast_body false title (js "U15") (js "U17")
                        (js "2025-01-01T10:00:00.000Z") (js "stream-1")))] |}.

End Fixture.

(** The statuses an entry of the file-based /end-stream can carry. *)
Definition legacy_statuses : list jsstring :=
  [js "no_tokens"; js "invalid_tokens"; js "success"; js "not_found";
   js "error"].

(** A go-live request for ground G1 and the end-stream request for the
    same title. *)
Definition go_live_G1 : GoLive.body :=
  {| GoLive.academyId := js "A1";
     GoLive.groundId := js "G1";
     GoLive.title := js "U15 vs U17";
     GoLive.teamA := js "U15";
     GoLive.teamB := js "U17";
     GoLive.startTime := Some (js "2025-01-01T10:00:00Z") |}.

Definition end_U15_U17 : EndStream.body :=
  {| EndStream.academyId := js "A1"; EndStream.title := js "U15 vs U17" |}.


(** The academy channel's creation of a broadcast. *)
Definition is_academy_broadcast_insert (e : Event) : bool :=
  match e with
  | Ev (liveBroadcasts_insert a _) =>
      Fixture.auth_eqb a (Some Fixture.academyTokens)
  | _ => false
  end.

(** The company channel's creation of a broadcast. *)
Definition is_company_broadcast_insert (e : Event) : bool :=
  match e with
  | Ev (liveBroadcasts_insert a _) =>
      Fixture.auth_eqb a (Some Fixture.companyTokens)
  | _ => false
  end.

(** A healthy platform but for the requests [refused]. *)
Definition healthy_but (refused : Event -> bool) : Platform :=
  Fixture.platform
    {| Fixture.lifeCycleStatus := js "ready";
       Fixture.streamStatus := js "active";
       Fixture.health := js "good";
       Fixture.refuses := refused |}.

(** Does the request carry these credentials? *)
Definition made_with (auth : OAuth2Client) (e : Event) : bool :=
  match e with
  | Ev op =>
      match op with
      | liveStreams_list a _ | liveStreams_insert a _
      | liveBroadcasts_insert a _ | liveBroadcasts_bind a _ _
      | liveBroadcasts_list_active a | liveBroadcasts_list a _
      | liveBroadcasts_transition a _ _ | channels_list_mine a =>
          Fixture.auth_eqb a auth
      | _ => false
      end
  end.

(** The world after "U15 vs U17" went live on both channels. *)
Definition world_live_on_both : World :=
  {| academies := academies Fixture.world;
     companies := companies Fixture.world;
     token_files := token_files Fixture.world;
     trace :=
       [Ev (liveBroadcasts_insert (Some Fixture.academyTokens)
              (new_broadcast_body true (js "U15 vs U17") (js "U15")
                 (js "U17") (js "2025-01-01T10:00:00.000Z")
                 (js "stream-1")));
        Ev (liveBroadcasts_insert (Some Fixture.companyTokens)
              (new_broadcast_body true (js "U15 vs U17") (js "U15")
                 (js "U17") (js "2025-01-01T10:00:00.000Z")
                 (js "stream-2")))] |}.


(** A go-live request of the file-based revision. *)
Definition legacy_go_live : Legacy.body :=
  {| Legacy.title := js "U15 vs U17";
     Legacy.teamA := js "U15";
     Legacy.teamB := js "U17" |}.

(** The consent URL of the file-based revision. *)
Definition consent_url (state : jsstring) : jsstring :=
  js "https://accounts.google.com/o/oauth2/v2/auth?state=" ++ state.

(** A request to bring broadcast b1 live on the company channel. *)
Definition start_company_b1 : Start.body :=
  {| Start.academyId := js "A1";
     Start.broadcastId := js "b1";
     Start.isCompanyChannel := true |}.

(** Platforms that refuse every transition and change what they report
    once a transition has been asked for: the stream is then inactive,
    or the broadcast is then live. *)
Definition stalls : Platform :=
  fun history X op =>
    if existsb is_transition history
    then Fixture.platform
           {| Fixture.lifeCycleStatus := js "ready";
              Fixture.streamStatus := js "inactive";
              Fixture.health := js "noData";
              Fixture.refuses := is_transition |} history op
    else Fixture.platform Fixture.busy history op.

Definition started_elsewhere : Platform :=
  fun history X op =>
    if existsb is_transition history
    then Fixture.platform
           {| Fixture.lifeCycleStatus := js "live";
              Fixture.streamStatus := js "active";
              Fixture.health := js "good";
              Fixture.refuses := is_transition |} history op
    else Fixture.platform Fixture.busy history op.

(* ================================================================== *)
(** ** Further observations *)
(* ================================================================== *)

(** A poll of a broadcast's lifecycle state. *)
Definition is_poll (e : Event) : bool :=
  match e with
  | Ev (liveBroadcasts_list _ _) => true
  | _ => false
  end.

(** The pause before a retry of [attemptTransition]. *)
Definition is_retry_delay (e : Event) : bool :=
  match e with
  | Ev (setTimeout ms) => (ms =? DELAY_BETWEEN_RETRIES)%Z
  | _ => false
  end.

(** How many of the operations satisfy [p]. *)
Definition count (p : Event -> bool) (evs : list Event) : nat :=
  List.length (filter p evs).

(** More platforms and worlds for concrete runs. *)
Definition already_live : Fixture.behaviour :=
  {| Fixture.lifeCycleStatus := js "live";
     Fixture.streamStatus := js "active";
     Fixture.health := js "good";
     Fixture.refuses := Fixture.nothing |}.

Definition degraded : Fixture.behaviour :=
  {| Fixture.lifeCycleStatus := js "ready";
     Fixture.streamStatus := js "active";
     Fixture.health := js "bad";
     Fixture.refuses := Fixture.nothing |}.

Definition in_testing : Fixture.behaviour :=
  {| Fixture.lifeCycleStatus := js "testing";
     Fixture.streamStatus := js "active";
     Fixture.health := js "good";
     Fixture.refuses := Fixture.nothing |}.

Definition with_companies (cs : list Company.t) (w : World) : World :=
  {| academies := academies w; companies := cs;
     token_files := token_files w; trace := trace w |}.

(** The academy of the test world before it was authenticated. *)
Definition A1_unauthenticated : Academy.t :=
  {| Academy.academyId := js "A1";
     Academy.name := js "Rising Stars";
     Academy.youtubeTokens := None;
     Academy.grounds := [Fixture.G1; Fixture.G2] |}.

Definition start_academy_b1 : Start.body :=
  {| Start.academyId := js "A1";
     Start.broadcastId := js "b1";
     Start.isCompanyChannel := false |}.

(** A task that, whatever it is answered, performs operations in [q]
    only. *)
Fixpoint only (q : Event -> bool) A (t : Task A) : Prop :=
  match t with
  | Await op k => q (Ev op) = true /\ forall r, only q (k r)
  | _ => True
  end.

(** Reading the collections or a resource by id. *)
Definition is_lookup (e : Event) : bool :=
  match e with
  | Ev (Academy_findOne _) | Ev Company_findOne
  | Ev (liveBroadcasts_list _ _) | Ev (liveStreams_list _ _) => true
  | _ => false
  end.

(** What /start-stream may do for broadcast [id]: look up, move that
    broadcast to "testing" or "live", and wait 3 or 5 seconds. *)
Definition is_start_op (id : jsstring) (e : Event) : bool :=
  match e with
  | Ev (liveBroadcasts_transition _ status id') =>
      jseqb id' id && (jseqb status (js "testing") || jseqb status (js "live"))
  | Ev (setTimeout ms) =>
      (ms =? TESTING_SETTLE)%Z || (ms =? DELAY_BETWEEN_RETRIES)%Z
  | _ => is_lookup e
  end.

(** A platform that fulfils every creation, bind and date conversion. *)
Definition serves_creation (P : Platform) : Prop :=
  (forall h a body, exists s, P h _ (liveStreams_insert a body) = inr s)
  /\ (forall h a body, exists b, P h _ (liveBroadcasts_insert a body) = inr b)
  /\ (forall h a id streamId,
        P h _ (liveBroadcasts_bind a id streamId) = inr tt)
  /\ (forall h d, exists iso, P h _ (Date_toISOString d) = inr iso).

Definition is_broadcast_insert (e : Event) : bool :=
  match e with
  | Ev (liveBroadcasts_insert _ _) => true
  | _ => false
  end.

Definition is_bind (e : Event) : bool :=
  match e with
  | Ev (liveBroadcasts_bind _ _ _) => true
  | _ => false
  end.

Definition is_stream_listing (e : Event) : bool :=
  match e with
  | Ev (liveStreams_list _ _) => true
  | _ => false
  end.

Definition check_company_b1 : CheckStatus.query :=
  {| CheckStatus.academyId := js "A1";
     CheckStatus.broadcastId := js "b1";
     CheckStatus.isCompanyChannel := Some (js "true") |}.

(** A go-live request for a ground the academy does not have. *)
Definition go_live_G9 : GoLive.body :=
  {| GoLive.academyId := js "A1";
     GoLive.groundId := js "G9";
     GoLive.title := js "U15 vs U17";
     GoLive.teamA := js "U15";
     GoLive.teamB := js "U17";
     GoLive.startTime := None |}.

Definition the_company : Company.t :=
  {| Company.name := js "Company";
     Company.youtubeTokens := Some Fixture.companyTokens |}.

(** A code unit that is not white space. *)
Definition is_ink (c : N) : bool := negb (is_space c).

(** The requests of the file-based /end-stream. *)
Definition is_validation (e : Event) : bool :=
  match e with
  | Ev (channels_list_mine _) => true
  | _ => false
  end.

Definition is_active_search (e : Event) : bool :=
  match e with
  | Ev (liveBroadcasts_list_active _) => true
  | _ => false
  end.

Definition is_completion (e : Event) : bool :=
  match e with
  | Ev (liveBroadcasts_transition _ broadcastStatus _) =>
      jseqb broadcastStatus (js "complete")
  | _ => false
  end.

Definition is_ending_op (e : Event) : bool :=
  is_validation e || is_active_search e || is_completion e.

(** [channel.tokens] is truthy. *)
Definition has_tokens (c : Legacy.channel_entry) : bool :=
  match Legacy.tokens c with Some _ => true | None => false end.

(* ------------------------------------------------------------------ *)
(** *** GET /oauth2callback and POST /company (final.js, part_001) *)

(** These two handlers are straight-line: one remote exchange or one
    validation, then one query.  They are written as functions of the
    outcome of that step and of the store. *)

Module Callback.
Inductive response :=
(* [res.send(...)]: the page that posts [{ id: state, success: true }] *)
| page (id : jsstring)
(* [res.status(500).send("Authentication failed.")] *)
| failed.
End Callback.

Definition set_company_tokens (tokens : Tokens) (c : Company.t)
  : Company.t :=
  {| Company.name := Company.name c;
     Company.youtubeTokens := Some tokens |}.

(** [Company.findOneAndUpdate({}, { youtubeTokens: tokens })]: the first
    document. *)
Definition Company_findOneAndUpdate (tokens : Tokens)
  (cs : list Company.t) : list Company.t :=
  match cs with
  | c :: rest => set_company_tokens tokens c :: rest
  | [] => []
  end.

Definition set_academy_tokens (tokens : Tokens) (a : Academy.t)
  : Academy.t :=
  {| Academy.academyId := Academy.academyId a;
     Academy.name := Academy.name a;
     Academy.youtubeTokens := Some tokens;
     Academy.grounds := Academy.grounds a |}.

(** [Academy.findOneAndUpdate({ academyId: state },
      { youtubeTokens: tokens })] *)
Definition Academy_updateTokens (state : jsstring) (tokens : Tokens)
  (db : list Academy.t) : list Academy.t :=
  update_first (is_academy state) (set_academy_tokens tokens) db.

(** GET /oauth2callback, lines 197-230, for a [state] that is a string.
    [exchanged] is what [oauth2Client.getToken(code)] settled to. *)
Definition oauth2callback (exchanged : Settled Tokens) (state : jsstring)
  (w : World) : Callback.response * World :=
  match exchanged with
  | inr tokens =>
      (Callback.page state,
       if jseqb state (js "company")
       then with_companies
              (Company_findOneAndUpdate tokens (companies w)) w
       else with_academies
              (Academy_updateTokens state tokens (academies w)) w)
  | inl error => (Callback.failed, w)
  end.

Module CompanyRoute.
Inductive response :=
(* [res.json(company)] *)
| created (company : Company.t)
(* [res.status(code).json({ error })] *)
| error (code : Z) (error : jsstring).
End CompanyRoute.

Section Validation.

(** What [company.save()] makes of the request's [name] under the
    schema: the string it stores, or the error it rejects with. *)
Variable validate : option jsstring -> Settled jsstring.

(** POST /company, lines 85-98. *)
Definition post_company (name : option jsstring) (w : World)
  : CompanyRoute.response * World :=
  match hd_error (companies w) with
  | Some existingCompany =>
      (CompanyRoute.error 400 (js "Company already exists"), w)
  | None =>
      match validate name with
      | inr stored =>
          let company := {| Company.name := stored;
                            Company.youtubeTokens := None |} in
          (CompanyRoute.created company,
           with_companies (companies w ++ [company]) w)
      | inl error => (CompanyRoute.error 500 (message error), w)
      end
  end.

End Validation.

(** A validation that requires a non-empty name. *)
Definition required_name (name : option jsstring) : Settled jsstring :=
  match name with
  | Some (c :: s) => inr (c :: s)
  | _ => inl (Error (js "Company validation failed: name: Path `name` is required."))
  end.

Definition fresh_tokens : Tokens :=
  {| access_token := js "ya29.fresh"; refresh_token := js "1//fresh" |}.

(* ================================================================== *)
(** ** Strings *)
(* ================================================================== *)

Lemma jseqb_eq (a b : jsstring) : jseqb a b = true <-> a = b.
Proof.
  revert b; induction a as [|x a IH]; intros [|y b]; simpl;
    try (split; [discriminate | discriminate]); try tauto.
  rewrite andb_true_iff, N.eqb_eq, IH.
  split; [intros [-> ->]; reflexivity | intros H; inversion H; auto].
Qed.

Lemma jseqb_refl (a : jsstring) : jseqb a a = true.
Proof. apply jseqb_eq; reflexivity. Qed.

Lemma jseqb_neq (a b : jsstring) : jseqb a b = false <-> a <> b.
Proof.
  rewrite <- jseqb_eq. destruct (jseqb a b); split; congruence.
Qed.

Lemma compareStrings_spec (s1 s2 : jsstring) :
  compareStrings s1 s2 = true <-> normalize s1 = normalize s2.
Proof. apply jseqb_eq. Qed.

Example normalize_team :
  normalize (js "  Team A  vs   Team B ") = js "Team A vs Team B".
Proof. reflexivity. Qed.

Example compareStrings_case_sensitive :
  compareStrings (js "team a vs team b") (js "Team A vs Team B") = false.
Proof. reflexivity. Qed.

(** *** Normalization keeps the words and nothing else *)

Lemma split_words_space_end (s : jsstring) (c : N) :
  is_space c = true ->
  forall w, split_words (s ++ [c]) w = split_words s w.
Proof.
  intros Hc. induction s as [|x s IH]; intros w; simpl.
  - rewrite Hc. destruct w; reflexivity.
  - destruct (is_space x); [destruct w|]; rewrite IH; reflexivity.
Qed.

Lemma trimEnd_snoc (s : jsstring) (c : N) :
  trimEnd (s ++ [c]) = if is_space c then trimEnd s else s ++ [c].
Proof.
  unfold trimEnd. rewrite rev_app_distr. simpl.
  destruct (is_space c); [reflexivity|].
  simpl. rewrite rev_involutive. reflexivity.
Qed.

Lemma words_trimEnd (s : jsstring) : words (trimEnd s) = words s.
Proof.
  unfold words. induction s as [|c s IH] using rev_ind; [reflexivity|].
  rewrite trimEnd_snoc. destruct (is_space c) eqn:Hc; [|reflexivity].
  rewrite IH, split_words_space_end by exact Hc. reflexivity.
Qed.

Lemma words_trimStart (s : jsstring) : words (trimStart s) = words s.
Proof.
  unfold words. induction s as [|c s IH]; simpl; [reflexivity|].
  destruct (is_space c) eqn:Hc; [exact IH|].
  simpl. rewrite Hc. reflexivity.
Qed.

Lemma words_trim (s : jsstring) : words (trim s) = words s.
Proof. unfold trim. rewrite words_trimEnd. apply words_trimStart. Qed.

Lemma starts_clean_trimStart (s : jsstring) :
  starts_clean (trimStart s) = true.
Proof.
  induction s as [|c s IH]; simpl; [reflexivity|].
  destruct (is_space c) eqn:Hc; [exact IH|]. simpl. rewrite Hc. reflexivity.
Qed.

Lemma ends_clean_snoc (s : jsstring) (c : N) :
  ends_clean (s ++ [c]) = negb (is_space c).
Proof.
  induction s as [|x s IH]; [reflexivity|].
  simpl. rewrite IH. destruct (s ++ [c]) eqn:Hs; [|reflexivity].
  destruct s; discriminate.
Qed.

Lemma trimEnd_clean (s : jsstring) :
  ends_clean (trimEnd s) = true
  /\ (starts_clean s = true -> starts_clean (trimEnd s) = true).
Proof.
  induction s as [|c s [IH1 IH2]] using rev_ind; [auto|].
  rewrite trimEnd_snoc. destruct (is_space c) eqn:Hc.
  - split; [exact IH1|]. intros H. destruct s as [|x s]; [reflexivity|].
    apply IH2. exact H.
  - rewrite ends_clean_snoc, Hc. auto.
Qed.

Lemma trim_clean (s : jsstring) :
  starts_clean (trim s) = true /\ ends_clean (trim s) = true.
Proof.
  unfold trim. destruct (trimEnd_clean (trimStart s)) as [He Hs].
  split; [apply Hs, starts_clean_trimStart | exact He].
Qed.

Lemma split_words_nonempty (s : jsstring) :
  ends_clean s = true ->
  forall w, s <> [] \/ w <> [] -> split_words s w <> [].
Proof.
  induction s as [|c s IH]; intros Hs w Hw; simpl.
  - destruct Hw as [Hw|Hw]; [congruence|]. destruct w; congruence.
  - destruct s as [|x s].
    + simpl in Hs. apply negb_true_iff in Hs. rewrite Hs. simpl.
      destruct (w ++ [c]) eqn:Hwc; [|congruence].
      destruct w; discriminate.
    + assert (Hs' : ends_clean (x :: s) = true) by exact Hs.
      destruct (is_space c); [destruct w|];
        try congruence; apply IH; auto; left; congruence.
Qed.

Lemma unwords_cons (w : jsstring) (rest : list jsstring) :
  rest <> [] -> unwords (w :: rest) = w ++ SPACE :: unwords rest.
Proof. destruct rest; [congruence|reflexivity]. Qed.

(** Replacing the runs of white space of a string that does not end in
    white space joins its words by single spaces. *)
Lemma replace_space_runs_unwords (s : jsstring) :
  ends_clean s = true ->
  (forall w, w <> [] ->
     w ++ replace_space_runs [SPACE] false s = unwords (split_words s w))
  /\ (s <> [] ->
      replace_space_runs [SPACE] true s = unwords (split_words s [])).
Proof.
  induction s as [|c s IH]; intros Hs.
  - split; [|congruence]. intros w Hw. simpl. rewrite app_nil_r.
    destruct w; [congruence|reflexivity].
  - assert (Hs' : s <> [] -> ends_clean s = true).
    { destruct s; [congruence|]. intros _. exact Hs. }
    destruct (is_space c) eqn:Hc.
    + assert (Hne : s <> []).
      { intros ->. simpl in Hs. rewrite Hc in Hs. discriminate. }
      destruct (IH (Hs' Hne)) as [_ IHrun]. specialize (IHrun Hne).
      split.
      * intros w Hw. simpl. rewrite Hc, IHrun.
        destruct w as [|x w]; [congruence|].
        rewrite unwords_cons; [reflexivity|].
        apply split_words_nonempty; auto.
      * intros _. simpl. rewrite Hc. exact IHrun.
    + assert (IHw : forall w, w <> [] ->
                w ++ replace_space_runs [SPACE] false s
                = unwords (split_words s w)).
      { destruct s as [|x s].
        - intros w Hw. simpl. rewrite app_nil_r.
          destruct w; [congruence|reflexivity].
        - apply IH. exact Hs. }
      split.
      * intros w Hw. simpl. rewrite Hc.
        rewrite <- IHw by (destruct w; discriminate).
        rewrite <- app_assoc. reflexivity.
      * intros _. simpl. rewrite Hc. apply (IHw [c]). discriminate.
Qed.

(** [normalize] is: the words, joined by single spaces. *)
Lemma normalize_unwords (s : jsstring) : normalize s = unwords (words s).
Proof.
  unfold normalize. rewrite <- (words_trim s).
  destruct (trim_clean s) as [Hstart Hend].
  destruct (trim s) as [|c t] eqn:Ht; [reflexivity|].
  simpl in Hstart. apply negb_true_iff in Hstart.
  unfold words. simpl. rewrite Hstart.
  assert (Ht' : t = [] \/ ends_clean t = true).
  { destruct t; [left; reflexivity|right; exact Hend]. }
  destruct Ht' as [->|Ht']; [reflexivity|].
  destruct (replace_space_runs_unwords t Ht') as [H _].
  apply (H [c]). discriminate.
Qed.

Lemma split_words_replace (s : jsstring) :
  forall (in_run : bool) (w : jsstring),
    (in_run = true -> w = []) ->
    split_words (replace_space_runs [SPACE] in_run s) w = split_words s w.
Proof.
  induction s as [|c s IH]; intros in_run w Hw; simpl; [reflexivity|].
  destruct (is_space c) eqn:Hc.
  - destruct in_run.
    + rewrite (Hw eq_refl). simpl. apply IH. auto.
    + simpl. change (is_space SPACE) with true. cbv iota.
      rewrite IH by auto. reflexivity.
  - simpl. rewrite Hc. apply IH. discriminate.
Qed.

Lemma words_normalize (s : jsstring) : words (normalize s) = words s.
Proof.
  unfold normalize, words. rewrite split_words_replace by discriminate.
  apply words_trim.
Qed.

(** Two strings compare equal exactly when they have the same words. *)
Lemma compareStrings_words (s1 s2 : jsstring) :
  compareStrings s1 s2 = true <-> words s1 = words s2.
Proof.
  rewrite compareStrings_spec. split; intros H.
  - rewrite <- (words_normalize s1), <- (words_normalize s2), H.
    reflexivity.
  - rewrite !normalize_unwords, H. reflexivity.
Qed.

(* ================================================================== *)
(** ** Running tasks: equations *)
(* ================================================================== *)

Lemma run_bind (P : Platform) A B (t : Task A) (f : A -> Task B) w :
  run P (bind t f) w =
  match run P t w with
  | (inr a, w') => run P (f a) w'
  | (inl e, w') => (inl e, w')
  end.
Proof.
  revert w; induction t as [a|e|X op k IH]; intros w; simpl; try reflexivity.
  destruct (perform P op w) as [r w']. apply IH.
Qed.

Lemma run_try_catch (P : Platform) A (t : Task A) (h : JsError -> Task A) w :
  run P (try_catch t h) w =
  match run P t w with
  | (inr a, w') => (inr a, w')
  | (inl e, w') => run P (h e) w'
  end.
Proof.
  revert w; induction t as [a|e|X op k IH]; intros w; simpl; try reflexivity.
  destruct (perform P op w) as [r w']. apply IH.
Qed.

Lemma run_await (P : Platform) X (op : Op X) w :
  run P (await op) w = perform P op w.
Proof.
  unfold await; simpl. destruct (perform P op w) as [[e|x] w']; reflexivity.
Qed.

Lemma run_settle (P : Platform) A (t : Task A) w :
  run P (settle t) w = (inr (result P t w), final P t w).
Proof.
  unfold settle, result, final. rewrite run_try_catch, run_bind.
  destruct (run P t w) as [[e|a] w']; reflexivity.
Qed.

Lemma events_bind (P : Platform) A B (t : Task A) (f : A -> Task B) w :
  events P (bind t f) w =
  events P t w ++
  match run P t w with
  | (inr a, w') => events P (f a) w'
  | (inl _, _) => []
  end.
Proof.
  revert w; induction t as [a|e|X op k IH]; intros w; simpl; try reflexivity.
  destruct (perform P op w) as [r w']; simpl. f_equal. apply IH.
Qed.

Lemma events_try_catch (P : Platform) A (t : Task A) h w :
  events P (try_catch t h) w =
  events P t w ++
  match run P t w with
  | (inr _, _) => []
  | (inl e, w') => events P (h e) w'
  end.
Proof.
  revert w; induction t as [a|e|X op k IH]; intros w; simpl; try reflexivity.
  destruct (perform P op w) as [r w']; simpl. f_equal. apply IH.
Qed.

Lemma events_await (P : Platform) X (op : Op X) w :
  events P (await op) w = [Ev op].
Proof.
  unfold await; simpl. destruct (fst (perform P op w)); reflexivity.
Qed.

Lemma perform_trace (P : Platform) X (op : Op X) w :
  trace (snd (perform P op w)) = trace w ++ [Ev op].
Proof. destruct op; reflexivity. Qed.

(** The trace of the final world is the initial trace followed by the
    operations of the run. *)
Lemma run_trace (P : Platform) A (t : Task A) w :
  trace (final P t w) = trace w ++ events P t w.
Proof.
  unfold final.
  revert w; induction t as [a|e|X op k IH]; intros w; simpl;
    try (rewrite app_nil_r; reflexivity).
  pose proof (perform_trace P op w) as Hp.
  destruct (perform P op w) as [r w']; simpl in *.
  rewrite IH, Hp, <- app_assoc. reflexivity.
Qed.

Lemma perform_frame (P : Platform) X (op : Op X) w :
  is_write (Ev op) = false ->
  academies (snd (perform P op w)) = academies w.
Proof. destruct op; simpl; intros H; try reflexivity; discriminate. Qed.



(** A run that performs no write leaves the academies as they were. *)
Lemma run_frame (P : Platform) A (t : Task A) w :
  existsb is_write (events P t w) = false ->
  academies (final P t w) = academies w.
Proof.
  unfold final.
  revert w; induction t as [a|e|X op k IH]; intros w; simpl; auto.
  intros H. apply orb_false_iff in H as [H1 H2].
  pose proof (perform_frame P op w H1) as Hp.
  destruct (perform P op w) as [r w']; simpl in *.
  rewrite IH by exact H2. exact Hp.
Qed.

(* ================================================================== *)
(** ** /check-stream-status *)
(* ================================================================== *)

Lemma isReadyToStart_iff (broadcast : LiveBroadcast.t) (stream : LiveStream.t) :
  isReadyToStart broadcast stream = true <->
  LiveStream.streamStatus stream = js "active"
  /\ (LiveBroadcast.lifeCycleStatus broadcast = js "testing"
      \/ LiveBroadcast.lifeCycleStatus broadcast = js "ready").
Proof.
  unfold isReadyToStart.
  rewrite andb_true_iff, orb_true_iff, !jseqb_eq. tauto.
Qed.

(** The handler once the academy is found and the client chosen, when
    the platform lists the broadcast and its bound stream: the report
    is built from the first of each. *)
Lemma check_stream_status_report (P : Platform) (w w1 : World)
  (q : CheckStatus.query) (academy : Academy.t) (client : OAuth2Client)
  (broadcast : LiveBroadcast.t) (others : list LiveBroadcast.t)
  (stream : LiveStream.t) (others' : list LiveStream.t) :
  let loaded := Ev (Academy_findOne (CheckStatus.academyId q)) in
  let company :=
    match CheckStatus.isCompanyChannel q with
    | Some s => jseqb s (js "true")
    | None => false
    end in
  let askB := liveBroadcasts_list client (CheckStatus.broadcastId q) in
  let askS := liveStreams_list client
                (LiveBroadcast.boundStreamId broadcast) in
  find (is_academy (CheckStatus.academyId q)) (academies w) = Some academy ->
  run P (channel_client company academy) (record_event loaded w)
  = (inr client, w1) ->
  P (trace w1) _ askB = inr (broadcast :: others) ->
  P (trace w1 ++ [Ev askB]) _ askS = inr (stream :: others') ->
  result P (check_stream_status q) w
  = inr (CheckStatus.ok
      {| CheckStatus.broadcastStatus :=
           LiveBroadcast.lifeCycleStatus broadcast;
         CheckStatus.streamStatus := LiveStream.streamStatus stream;
         CheckStatus.healthStatus := LiveStream.healthStatus stream;
         CheckStatus.isReadyToStart := isReadyToStart broadcast stream |}).
Proof.
  intros loaded company askB askS Hdb Hclient HB HS.
  subst loaded company askB askS.
  unfold result, check_stream_status.
  rewrite run_try_catch, run_bind, run_await.
  cbn [perform fst snd]. rewrite Hdb.
  rewrite run_bind, Hclient.
  rewrite run_bind, run_await. cbn [perform fst snd]. rewrite HB.
  rewrite run_bind, run_await. cbn [perform fst snd record_event trace].
  rewrite HS. reflexivity.
Qed.

(** C10.  When /check-stream-status resolves the broadcast and its
    bound stream, that is, when the platform lists a broadcast under
    the requested id and a stream under that broadcast's bound stream
    id, the response is the report of that broadcast's lifecycle status
    and that stream's status, and its [isReadyToStart] is true exactly
    when the stream status is "active" and the lifecycle status is
    "testing" or "ready"; it is false for a broadcast that is "live". *)
Theorem check_stream_status_ready (P : Platform) (w w1 : World)
  (q : CheckStatus.query) (academy : Academy.t) (client : OAuth2Client)
  (broadcast : LiveBroadcast.t) (others : list LiveBroadcast.t)
  (stream : LiveStream.t) (others' : list LiveStream.t) :
  let loaded := Ev (Academy_findOne (CheckStatus.academyId q)) in
  let company :=
    match CheckStatus.isCompanyChannel q with
    | Some s => jseqb s (js "true")
    | None => false
    end in
  let askB := liveBroadcasts_list client (CheckStatus.broadcastId q) in
  let askS := liveStreams_list client
                (LiveBroadcast.boundStreamId broadcast) in
  find (is_academy (CheckStatus.academyId q)) (academies w) = Some academy ->
  run P (channel_client company academy) (record_event loaded w)
  = (inr client, w1) ->
  P (trace w1) _ askB = inr (broadcast :: others) ->
  P (trace w1 ++ [Ev askB]) _ askS = inr (stream :: others') ->
  exists ready,
    result P (check_stream_status q) w
    = inr (CheckStatus.ok
        {| CheckStatus.broadcastStatus :=
             LiveBroadcast.lifeCycleStatus broadcast;
           CheckStatus.streamStatus := LiveStream.streamStatus stream;
           CheckStatus.healthStatus := LiveStream.healthStatus stream;
           CheckStatus.isReadyToStart := ready |})
    /\ (ready = true <->
        LiveStream.streamStatus stream = js "active"
        /\ (LiveBroadcast.lifeCycleStatus broadcast = js "testing"
            \/ LiveBroadcast.lifeCycleStatus broadcast = js "ready"))
    /\ (LiveBroadcast.lifeCycleStatus broadcast = js "live" ->
        ready = false).
Proof.
  intros loaded company askB askS Hdb Hclient HB HS.
  exists (isReadyToStart broadcast stream).
  split; [|split].
  - exact (@check_stream_status_report P w w1 q academy client broadcast
             others stream others' Hdb Hclient HB HS).
  - apply isReadyToStart_iff.
  - intros Hlive. unfold isReadyToStart. rewrite Hlive.
    simpl. apply andb_false_r.
Qed.

Example check_stream_status_run :
  result (Fixture.platform Fixture.healthy)
    (check_stream_status
       {| CheckStatus.academyId := js "A1";
          CheckStatus.broadcastId := js "b1";
          CheckStatus.isCompanyChannel := Some (js "true") |})
    Fixture.world
  = inr (CheckStatus.ok
      {| CheckStatus.broadcastStatus := js "ready";
         CheckStatus.streamStatus := js "active";
         CheckStatus.healthStatus := Some {| LiveStream.status := js "good" |};
         CheckStatus.isReadyToStart := true |}).
Proof. reflexivity. Qed.

(** A ready broadcast on an active stream is ready to start; a live one
    is not. *)
Lemma check_stream_status_ready_witness :
  let q := {| CheckStatus.academyId := js "A1";
              CheckStatus.broadcastId := js "b1";
              CheckStatus.isCompanyChannel := Some (js "true") |} in
  (exists ready,
      result (Fixture.platform Fixture.healthy) (check_stream_status q)
        Fixture.world
      = inr (CheckStatus.ok
          {| CheckStatus.broadcastStatus := js "ready";
             CheckStatus.streamStatus := js "active";
             CheckStatus.healthStatus :=
               Some {| LiveStream.status := js "good" |};
             CheckStatus.isReadyToStart := ready |})
      /\ ready = true)
  /\ (exists ready,
        result (Fixture.platform
                  {| Fixture.lifeCycleStatus := js "live";
                     Fixture.streamStatus := js "active";
                     Fixture.health := js "good";
                     Fixture.refuses := Fixture.nothing |})
          (check_stream_status q) Fixture.world
        = inr (CheckStatus.ok
            {| CheckStatus.broadcastStatus := js "live";
               CheckStatus.streamStatus := js "active";
               CheckStatus.healthStatus :=
                 Some {| LiveStream.status := js "good" |};
               CheckStatus.isReadyToStart := ready |})
        /\ ready = false).
Proof.
  intros q.
  pose (w1 := record_event (Ev Company_findOne)
                (record_event (Ev (Academy_findOne (js "A1")))
                   Fixture.world)).
  split.
  - destruct (@check_stream_status_ready
                (Fixture.platform Fixture.healthy) Fixture.world w1 q
                Fixture.A1 (Some Fixture.companyTokens)
                (Fixture.broadcast (js "b1") (js "U15 vs U17") (js "ready"))
                []
                (Fixture.stream (js "stream-1") (js "key-of-stream-1")
                   (js "active") (js "good"))
                [] eq_refl eq_refl eq_refl eq_refl)
      as (ready & Hres & Hiff & _).
    exists ready. split; [exact Hres|].
    apply Hiff. split; [reflexivity | right; reflexivity].
  - destruct (@check_stream_status_ready
                (Fixture.platform
                   {| Fixture.lifeCycleStatus := js "live";
                      Fixture.streamStatus := js "active";
                      Fixture.health := js "good";
                      Fixture.refuses := Fixture.nothing |})
                Fixture.world w1 q
                Fixture.A1 (Some Fixture.companyTokens)
                (Fixture.broadcast (js "b1") (js "U15 vs U17") (js "live"))
                []
                (Fixture.stream (js "stream-1") (js "key-of-stream-1")
                   (js "active") (js "good"))
                [] eq_refl eq_refl eq_refl eq_refl)
      as (ready & Hres & _ & Hlive).
    exists ready. split; [exact Hres|].
    apply Hlive. reflexivity.
Defined.

(* ================================================================== *)
(** ** Title matching of the terminator *)
(* ================================================================== *)

Lemma title_matches_part_001 (academy : Academy.t) (title : jsstring)
  (isCompanyChannel : bool) (b : LiveBroadcast.t) :
  title_matches part_001 academy title isCompanyChannel b = true <->
  normalize (LiveBroadcast.title b) = normalize title.
Proof. apply compareStrings_spec. Qed.

(** final.js compares with [===]: on the academy channel a broadcast
    matches exactly when its title is the target. *)
Lemma title_matches_final_js (academy : Academy.t) (title : jsstring)
  (b : LiveBroadcast.t) :
  title_matches final_js academy title false b = true <->
  LiveBroadcast.title b = title.
Proof. apply jseqb_eq. Qed.

(** C5, as the code has it.  In /end-stream of part_001 the titles
    "Team A  vs   Team B" and "Team A vs Team B" are equal for
    [compareStrings]; on either channel a broadcast matches a target
    title exactly when the two have the same words, that is, when they
    are equal after trimming and collapsing the runs of white space;
    and [endBroadcast] for the target "Team A vs Team B" picks an active
    broadcast titled "Team A  vs   Team B" and asks for its transition
    to complete.  In /end-stream of final.js the titles are compared
    with [===], without normalization: there a broadcast titled
    "Team A  vs   Team B" does not match the target "Team A vs Team B"
    on either channel, and [endBroadcast] for that target asks for no
    transition when it is the only active broadcast. *)
Theorem terminator_title_normalization (P : Platform) (w : World)
  (academy : Academy.t) (auth : OAuth2Client) (isCompanyChannel : bool)
  (b : LiveBroadcast.t) (others : list LiveBroadcast.t) :
  P (trace w) _ (liveBroadcasts_list_active auth) = inr (b :: others) ->
  LiveBroadcast.title b = js "Team A  vs   Team B" ->
  (compareStrings (js "Team A  vs   Team B") (js "Team A vs Team B") = true
   /\ title_matches part_001 academy (js "Team A vs Team B")
        isCompanyChannel b = true
   /\ (forall target,
         title_matches part_001 academy target isCompanyChannel b = true
         <-> words (LiveBroadcast.title b) = words target)
   /\ events P (endBroadcast part_001 academy (js "Team A vs Team B") auth
                  isCompanyChannel) w
      = [Ev (liveBroadcasts_list_active auth);
         Ev (liveBroadcasts_transition auth (js "complete")
               (LiveBroadcast.id b))])
  /\ (title_matches final_js academy (js "Team A vs Team B")
        isCompanyChannel b = false
      /\ (others = [] ->
          result P (endBroadcast final_js academy (js "Team A vs Team B")
                      auth isCompanyChannel) w = inr false
          /\ events P (endBroadcast final_js academy (js "Team A vs Team B")
                         auth isCompanyChannel) w
             = [Ev (liveBroadcasts_list_active auth)])).
Proof.
  intros Hlist Htitle.
  assert (Hm : title_matches part_001 academy (js "Team A vs Team B")
                 isCompanyChannel b = true).
  { unfold title_matches. rewrite Htitle. reflexivity. }
  assert (Hf : title_matches final_js academy (js "Team A vs Team B")
                 isCompanyChannel b = false).
  { unfold title_matches. rewrite Htitle. apply jseqb_neq.
    destruct isCompanyChannel;
      [|intros H; vm_compute in H; discriminate H].
    destruct (Academy.name academy) as [|c name];
      [intros H; vm_compute in H; discriminate H|].
    intros H. apply (f_equal (@List.length N)) in H.
    cbn [List.length app] in H. rewrite !length_app in H.
    change (List.length (js "Team A  vs   Team B")) with 19%nat in H.
    change (List.length (js " - ")) with 3%nat in H.
    change (List.length (js "Team A vs Team B")) with 16%nat in H.
    lia. }
  split.
  - split; [reflexivity | split; [exact Hm |]].
    split; [intros target; apply compareStrings_words |].
    unfold endBroadcast.
    rewrite events_bind, events_await, run_await.
    cbn [perform]. rewrite Hlist. cbn [find]. rewrite Hm.
    rewrite events_bind, events_await, run_await.
    destruct (perform P (liveBroadcasts_transition auth _ _) _)
      as [[e|x] w']; reflexivity.
  - split; [exact Hf|].
    intros ->. unfold result, endBroadcast.
    rewrite run_bind, events_bind, events_await, run_await.
    cbn [perform]. rewrite Hlist. cbn [find]. rewrite Hf.
    split; reflexivity.
Qed.

(** final.js compares the titles as they are: an active broadcast
    titled "Team A  vs   Team B" is not found under the target
    "Team A vs Team B", on the academy channel as on the company
    channel, and is left running. *)
Lemma final_js_exact_titles :
  let b := Fixture.broadcast (js "broadcast:Team A  vs   Team B")
             (js "Team A  vs   Team B") (js "live") in
  let a := Some Fixture.academyTokens in
  let w := Fixture.world_with_broadcast a (js "Team A  vs   Team B") in
  title_matches final_js Fixture.A1 (js "Team A vs Team B") false b = false
  /\ title_matches final_js Fixture.A1 (js "Team A vs Team B") true b
     = false
  /\ run (Fixture.platform Fixture.healthy)
       (endBroadcast final_js Fixture.A1 (js "Team A vs Team B") a false) w
     = (inr false, record_event (Ev (liveBroadcasts_list_active a)) w).
Proof. repeat split. Qed.

Lemma terminator_title_normalization_witness :
  (compareStrings (js "Team A  vs   Team B") (js "Team A vs Team B") = true
   /\ events (Fixture.platform Fixture.healthy)
        (endBroadcast part_001 Fixture.A1 (js "Team A vs Team B")
           (Some Fixture.companyTokens) true)
        (Fixture.world_with_broadcast (Some Fixture.companyTokens)
           (js "Team A  vs   Team B"))
      = [Ev (liveBroadcasts_list_active (Some Fixture.companyTokens));
         Ev (liveBroadcasts_transition (Some Fixture.companyTokens)
               (js "complete") (js "broadcast:Team A  vs   Team B"))])
  /\ events (Fixture.platform Fixture.healthy)
       (endBroadcast final_js Fixture.A1 (js "Team A vs Team B")
          (Some Fixture.companyTokens) true)
       (Fixture.world_with_broadcast (Some Fixture.companyTokens)
          (js "Team A  vs   Team B"))
     = [Ev (liveBroadcasts_list_active (Some Fixture.companyTokens))].
Proof.
  destruct (terminator_title_normalization
              (Fixture.platform Fixture.healthy)
              (Fixture.world_with_broadcast (Some Fixture.companyTokens)
                 (js "Team A  vs   Team B"))
              Fixture.A1 (Some Fixture.companyTokens) true
              (b := Fixture.broadcast (js "broadcast:Team A  vs   Team B")
                      (js "Team A  vs   Team B") (js "live"))
              (others := [])
              eq_refl eq_refl) as ((H1 & _ & _ & H4) & _ & H5).
  split; [split; [exact H1 | exact H4]|].
  exact (proj2 (H5 eq_refl)).
Defined.

(* ================================================================== *)
(** ** /start-stream *)
(* ================================================================== *)

(** A successful poll is two listings and nothing else. *)
Lemma checkStreamHealth_events (P : Platform) (auth : OAuth2Client)
  (broadcastId : jsstring) (w : World) (h : Start.health) :
  result P (checkStreamHealth auth broadcastId) w = inr h ->
  exists boundStreamId,
    events P (checkStreamHealth auth broadcastId) w
    = [Ev (liveBroadcasts_list auth broadcastId);
       Ev (liveStreams_list auth boundStreamId)].
Proof.
  unfold result, checkStreamHealth.
  rewrite events_bind, events_await, run_bind, run_await.
  destruct (perform P (liveBroadcasts_list auth broadcastId) w)
    as [[e|[|broadcast bs]] w1]; cbn [fst snd]; try discriminate.
  rewrite events_bind, events_await, run_bind, run_await.
  destruct (perform P (liveStreams_list auth _) w1)
    as [[e|[|stream ss]] w2]; cbn [fst snd]; try discriminate.
  intros _. exists (LiveBroadcast.boundStreamId broadcast). reflexivity.
Qed.

(** A poll never asks for a transition, whatever its outcome. *)
Lemma checkStreamHealth_no_transition (P : Platform) (auth : OAuth2Client)
  (broadcastId : jsstring) (w : World) :
  existsb is_transition (events P (checkStreamHealth auth broadcastId) w)
  = false.
Proof.
  unfold checkStreamHealth.
  rewrite events_bind, events_await, run_await.
  destruct (perform P (liveBroadcasts_list auth broadcastId) w)
    as [[e|[|broadcast bs]] w1]; try reflexivity.
  rewrite events_bind, events_await, run_await.
  destruct (perform P (liveStreams_list auth _) w1)
    as [[e|[|stream ss]] w2]; reflexivity.
Qed.

(** Choosing the client never asks for a transition. *)
Lemma channel_client_no_transition (P : Platform) (c : bool)
  (academy : Academy.t) (w : World) :
  existsb is_transition (events P (channel_client c academy) w) = false.
Proof.
  destruct c; [|reflexivity].
  unfold channel_client, getCompanyOAuthClient; simpl.
  destruct (hd_error (companies w)) as [[n [t|]]|]; reflexivity.
Qed.

(** The recursion equation of the source:
    [attemptTransition(retryCount)] is its body with
    [attemptTransition(retryCount + 1)] as the recursive call. *)
Lemma attemptTransition_unfold (auth : OAuth2Client) (broadcastId : jsstring)
  (retryCount : Z) :
  attemptTransition auth broadcastId retryCount
  = attemptTransition_body auth broadcastId
      (attemptTransition auth broadcastId (retryCount + 1)) retryCount.
Proof.
  unfold attemptTransition.
  destruct (Z.ltb_spec retryCount MAX_RETRIES) as [Hlt|Hge].
  - replace (Z.to_nat (MAX_RETRIES - retryCount))
      with (S (Z.to_nat (MAX_RETRIES - (retryCount + 1)))) by lia.
    reflexivity.
  - replace (Z.to_nat (MAX_RETRIES - retryCount)) with O by lia.
    replace (Z.to_nat (MAX_RETRIES - (retryCount + 1))) with O by lia.
    cbn [attemptTransition_from]. unfold attemptTransition_body.
    assert (Hb : (retryCount <? MAX_RETRIES)%Z = false)
      by (apply Z.ltb_ge; exact Hge).
    rewrite Hb. reflexivity.
Qed.

Lemma perform_transition (P : Platform) (auth : OAuth2Client)
  (status id : jsstring) (w : World) :
  perform P (liveBroadcasts_transition auth status id) w
  = (P (trace w) _ (liveBroadcasts_transition auth status id),
     record_event (Ev (liveBroadcasts_transition auth status id)) w).
Proof. reflexivity. Qed.

(** The [try] block when the platform refuses transitions: exactly one
    transition request is made, and its error is thrown. *)
Lemma transition_to_live_refused (P : Platform) (auth : OAuth2Client)
  (broadcastId : jsstring) (h : Start.health) (w : World) :
  transitions_fail P auth broadcastId ->
  exists e status,
    P (trace w) _ (liveBroadcasts_transition auth status broadcastId) = inl e
    /\ run P (transition_to_live auth broadcastId h) w
       = (inl e,
          record_event
            (Ev (liveBroadcasts_transition auth status broadcastId)) w)
    /\ events P (transition_to_live auth broadcastId h) w
       = [Ev (liveBroadcasts_transition auth status broadcastId)].
Proof.
  intros Hfail. unfold transition_to_live.
  destruct (negb (jseqb (Start.broadcastStatus h) (js "testing"))).
  - destruct (Hfail (trace w) (js "testing")) as [e He].
    exists e, (js "testing"). split; [exact He|].
    rewrite run_bind, events_bind, run_bind, events_bind,
      run_await, events_await, perform_transition, He.
    split; reflexivity.
  - destruct (Hfail (trace w) (js "live")) as [e He].
    exists e, (js "live"). split; [exact He|].
    rewrite run_bind, events_bind. cbn [run events app].
    rewrite run_bind, events_bind, run_await, events_await,
      perform_transition, He.
    split; reflexivity.
Qed.

Lemma is_good_iff (h : option jsstring) :
  is_good h = true <-> h = Some (js "good").
Proof.
  destruct h as [s|]; simpl.
  - rewrite jseqb_eq. split; congruence.
  - split; discriminate.
Qed.

(** One activation of [attemptTransition] whose poll passes the checks
    and whose transition is refused: it is one attempt, after which the
    [catch] clause decides on [retryCount]. *)
Lemma attemptTransition_body_refused (P : Platform) (auth : OAuth2Client)
  (broadcastId : jsstring) (again : Task Start.result) (retryCount : Z)
  (w : World) :
  always_ready P auth broadcastId ->
  transitions_fail P auth broadcastId ->
  exists e w' attempt,
    is_attempt auth broadcastId attempt
    /\ run P (attemptTransition_body auth broadcastId again retryCount) w
       = (if (retryCount <? MAX_RETRIES)%Z
          then run P again
                 (record_event (Ev (setTimeout DELAY_BETWEEN_RETRIES)) w')
          else (inl e, w'))
    /\ events P (attemptTransition_body auth broadcastId again retryCount) w
       = attempt ++
         (if (retryCount <? MAX_RETRIES)%Z
          then Ev (setTimeout DELAY_BETWEEN_RETRIES)
               :: events P again
                    (record_event (Ev (setTimeout DELAY_BETWEEN_RETRIES)) w')
          else []).
Proof.
  intros Hready Hfail.
  destruct (Hready w) as (h & Hh & Hlive & Hactive & Hgood).
  destruct (checkStreamHealth_events _ _ _ _ Hh) as [bound Hev].
  unfold result in Hh.
  destruct (run P (checkStreamHealth auth broadcastId) w) as [r w1] eqn:Hrun.
  cbn [fst] in Hh. subst r.
  destruct (transition_to_live_refused h w1 Hfail)
    as (e & status & _ & Hrun2 & Hev2).
  exists e,
    (record_event
       (Ev (liveBroadcasts_transition auth status broadcastId)) w1),
    [Ev (liveBroadcasts_list auth broadcastId);
     Ev (liveStreams_list auth bound);
     Ev (liveBroadcasts_transition auth status broadcastId)].
  split; [exists bound, status; reflexivity|].
  unfold attemptTransition_body.
  rewrite run_bind, events_bind, Hrun, Hev.
  apply jseqb_neq in Hlive. rewrite Hlive.
  rewrite Hactive, jseqb_refl. cbn [negb].
  apply is_good_iff in Hgood. rewrite Hgood. cbn [negb].
  rewrite run_try_catch, events_try_catch, Hrun2, Hev2.
  destruct (retryCount <? MAX_RETRIES)%Z.
  - rewrite run_bind, events_bind, run_await, events_await.
    split; reflexivity.
  - split; reflexivity.
Qed.

(** With every transition refused, [attemptTransition] started with
    [n] retries left makes [n + 1] attempts, pausing
    [DELAY_BETWEEN_RETRIES] between two attempts, and then throws. *)
Lemma attemptTransition_from_exhausts (P : Platform) (auth : OAuth2Client)
  (broadcastId : jsstring) :
  always_ready P auth broadcastId ->
  transitions_fail P auth broadcastId ->
  forall (n : nat) (retryCount : Z) (w : World),
    (retryCount + Z.of_nat n = MAX_RETRIES)%Z ->
    exists e attempts,
      result P (attemptTransition_from n auth broadcastId retryCount) w
      = inl e
      /\ List.length attempts = S n
      /\ Forall (is_attempt auth broadcastId) attempts
      /\ events P (attemptTransition_from n auth broadcastId retryCount) w
         = intercalate [Ev (setTimeout DELAY_BETWEEN_RETRIES)] attempts.
Proof.
  intros Hready Hfail.
  induction n as [|n IH]; intros retryCount w Hn; cbn [attemptTransition_from].
  - destruct (attemptTransition_body_refused
                (Throw (Error (js "unreachable"))) retryCount w Hready Hfail)
      as (e & w' & attempt & Hatt & Hrun & Hev).
    assert (Hb : (retryCount <? MAX_RETRIES)%Z = false)
      by (apply Z.ltb_ge; lia).
    rewrite Hb in Hrun, Hev.
    exists e, [attempt]. unfold result. rewrite Hrun, Hev, app_nil_r.
    repeat split; auto.
  - destruct (attemptTransition_body_refused
                (attemptTransition_from n auth broadcastId (retryCount + 1))
                retryCount w Hready Hfail)
      as (e & w' & attempt & Hatt & Hrun & Hev).
    assert (Hb : (retryCount <? MAX_RETRIES)%Z = true)
      by (apply Z.ltb_lt; lia).
    rewrite Hb in Hrun, Hev.
    destruct (IH (retryCount + 1)%Z
                (record_event (Ev (setTimeout DELAY_BETWEEN_RETRIES)) w'))
      as (e' & attempts & Hres & Hlen & Hall & Hevs); [lia|].
    exists e', (attempt :: attempts).
    unfold result in *. rewrite Hrun, Hev, Hevs.
    repeat split; auto.
    + cbn [List.length]. congruence.
    + destruct attempts as [|a rest]; [discriminate|]. reflexivity.
Qed.

(** The handler once the academy is loaded and the client chosen: it
    answers from the outcome of [attemptTransition()], and a thrown
    error is reported without a status snapshot. *)
Lemma start_stream_run (P : Platform) (w w1 : World) (b : Start.body)
  (academy : Academy.t) (client : OAuth2Client) :
  find (is_academy (Start.academyId b)) (academies w) = Some academy ->
  run P (channel_client (Start.isCompanyChannel b) academy)
    (final P (await (Academy_findOne (Start.academyId b))) w)
  = (inr client, w1) ->
  result P (start_stream b) w
  = inr (match result P (attemptTransition client (Start.broadcastId b) 0) w1
         with
         | inr r => Start.ok r
         | inl e => Start.failed_without_status (message e)
                      (js "Could not fetch final status")
         end)
  /\ events P (start_stream b) w
     = Ev (Academy_findOne (Start.academyId b))
       :: events P (channel_client (Start.isCompanyChannel b) academy)
            (final P (await (Academy_findOne (Start.academyId b))) w)
       ++ events P (attemptTransition client (Start.broadcastId b) 0) w1.
Proof.
  intros Hfind Hclient. unfold result, final in *.
  rewrite run_await in Hclient. cbn [perform snd] in Hclient.
  unfold start_stream.
  rewrite run_try_catch, events_try_catch, run_bind, events_bind,
    run_await, events_await.
  cbn [perform snd]. rewrite Hfind.
  rewrite run_bind, events_bind, Hclient.
  rewrite run_bind, events_bind.
  destruct (run P (attemptTransition client (Start.broadcastId b) 0) w1)
    as [[e|r] w2]; unfold checkStreamHealth_in_catch;
    cbn [bind try_catch fst snd run events app];
    rewrite ?app_nil_r; split; reflexivity.
Qed.

Ltac in_catch :=
  unfold checkStreamHealth_in_catch; cbn [bind try_catch run fst snd].

Ltac answered := in_catch; eexists; split; [reflexivity | exact I].

(** No response of /start-stream carries a status snapshot: the only
    place that builds one calls [checkStreamHealth] where the name is
    not bound. *)
Lemma start_stream_response (P : Platform) (w : World) (b : Start.body) :
  exists r, result P (start_stream b) w = inr r
    /\ match r with
       | Start.failed_with_status _ _ => False
       | _ => True
       end.
Proof.
  unfold result, start_stream. rewrite run_try_catch, run_bind, run_await.
  destruct (perform P (Academy_findOne (Start.academyId b)) w)
    as [[e|[academy|]] w0]; cbn [fst snd];
    [answered | | answered].
  rewrite run_bind.
  destruct (run P (channel_client _ academy) w0) as [[e|client] w1];
    cbn [fst snd]; [answered|].
  rewrite run_bind.
  destruct (run P (attemptTransition client _ 0) w1) as [[e|r] w2];
    answered.
Qed.

(** A poll that finds the stream not active, on a broadcast that is not
    live, ends [attemptTransition] there. *)
Lemma attemptTransition_inactive (P : Platform) (auth : OAuth2Client)
  (broadcastId : jsstring) (retryCount : Z) (w w' : World)
  (h : Start.health) :
  run P (checkStreamHealth auth broadcastId) w = (inr h, w') ->
  Start.broadcastStatus h <> js "live" ->
  Start.streamStatus h <> js "active" ->
  run P (attemptTransition auth broadcastId retryCount) w
  = (inl (Error (js "Stream is not active. Current status: "
                   ++ Start.streamStatus h)), w')
  /\ events P (attemptTransition auth broadcastId retryCount) w
     = events P (checkStreamHealth auth broadcastId) w.
Proof.
  intros Hrun Hlive Hactive.
  rewrite attemptTransition_unfold. unfold attemptTransition_body.
  rewrite run_bind, events_bind, Hrun.
  apply jseqb_neq in Hlive, Hactive. rewrite Hlive, Hactive.
  cbn [negb run events]. rewrite app_nil_r. split; reflexivity.
Qed.

(** C4.  When the poll of /start-stream finds the stream not active and
    the broadcast not live, the response is a failure that names the
    stream status, and no transition request is made. *)
Theorem start_stream_fast_fail (P : Platform) (w w1 w2 : World)
  (b : Start.body) (academy : Academy.t) (client : OAuth2Client)
  (h : Start.health) :
  find (is_academy (Start.academyId b)) (academies w) = Some academy ->
  run P (channel_client (Start.isCompanyChannel b) academy)
    (final P (await (Academy_findOne (Start.academyId b))) w)
  = (inr client, w1) ->
  run P (checkStreamHealth client (Start.broadcastId b)) w1 = (inr h, w2) ->
  Start.broadcastStatus h <> js "live" ->
  Start.streamStatus h <> js "active" ->
  result P (start_stream b) w
  = inr (Start.failed_without_status
           (js "Stream is not active. Current status: "
              ++ Start.streamStatus h)
           (js "Could not fetch final status"))
  /\ existsb is_transition (events P (start_stream b) w) = false.
Proof.
  intros Hfind Hclient Hpoll Hlive Hactive.
  destruct (@start_stream_run P w w1 b academy client Hfind Hclient)
    as [Hres Hev].
  destruct (@attemptTransition_inactive P client (Start.broadcastId b) 0
              w1 w2 h Hpoll Hlive Hactive) as [Hrun Hev'].
  rewrite Hres, Hev. unfold result. rewrite Hrun, Hev'. cbn [fst message].
  split; [reflexivity|].
  cbn [existsb is_transition]. rewrite existsb_app.
  rewrite channel_client_no_transition, checkStreamHealth_no_transition.
  reflexivity.
Qed.

(** C2, as the code has it.  When every poll finds the broadcast not
    yet live on an active stream of good health and every transition
    is refused, /start-stream makes exactly [MAX_RETRIES + 1] attempts,
    each one a poll followed by one transition request, with a pause of
    [DELAY_BETWEEN_RETRIES] between two attempts and no other operation,
    and then answers with the failure. *)
Theorem start_stream_retry_bound (P : Platform) (w w1 : World)
  (b : Start.body) (academy : Academy.t) (client : OAuth2Client) :
  find (is_academy (Start.academyId b)) (academies w) = Some academy ->
  run P (channel_client (Start.isCompanyChannel b) academy)
    (final P (await (Academy_findOne (Start.academyId b))) w)
  = (inr client, w1) ->
  always_ready P client (Start.broadcastId b) ->
  transitions_fail P client (Start.broadcastId b) ->
  exists details attempts,
    result P (start_stream b) w
    = inr (Start.failed_without_status details
             (js "Could not fetch final status"))
    /\ List.length attempts = Z.to_nat (MAX_RETRIES + 1)
    /\ Forall (is_attempt client (Start.broadcastId b)) attempts
    /\ events P (start_stream b) w
       = Ev (Academy_findOne (Start.academyId b))
         :: events P (channel_client (Start.isCompanyChannel b) academy)
              (final P (await (Academy_findOne (Start.academyId b))) w)
         ++ intercalate [Ev (setTimeout DELAY_BETWEEN_RETRIES)] attempts.
Proof.
  intros Hfind Hclient Hready Hfail.
  destruct (@start_stream_run P w w1 b academy client Hfind Hclient)
    as [Hres Hev].
  destruct (@attemptTransition_from_exhausts P client (Start.broadcastId b)
              Hready Hfail (Z.to_nat (MAX_RETRIES - 0)) 0%Z w1)
    as (e & attempts & Hthrow & Hlen & Hall & Hevs); [reflexivity|].
  fold (attemptTransition client (Start.broadcastId b) 0) in Hthrow, Hevs.
  exists (message e), attempts.
  rewrite Hres, Hev, Hthrow, Hevs. repeat split; auto.
Qed.

(** C3, as the code has it.  Whenever [attemptTransition] throws, by
    exhausting its retries or at a check or poll, the response of
    /start-stream is the one without a snapshot: [currentStatus],
    [streamStatus] and [healthStatus] are never sent. *)
Theorem start_stream_failure_lacks_status (P : Platform) (w : World)
  (b : Start.body) (details : jsstring) (snapshot : Start.health) :
  result P (start_stream b) w
  <> inr (Start.failed_with_status details snapshot).
Proof.
  destruct (start_stream_response P w b) as (r & Hr & Hshape).
  rewrite Hr. intros H. injection H as ->. exact Hshape.
Qed.

(** Four attempts against a platform that refuses every transition. *)
Example start_stream_busy_run :
  run (Fixture.platform Fixture.busy) (start_stream start_company_b1)
    Fixture.world
  = (inr (Start.failed_without_status (js "socket hang up")
            (js "Could not fetch final status")),
     let c := Some Fixture.companyTokens in
     let attempt :=
       [Ev (liveBroadcasts_list c (js "b1"));
        Ev (liveStreams_list c (Some (js "stream-1")));
        Ev (liveBroadcasts_transition c (js "testing") (js "b1"))] in
     let pause := [Ev (setTimeout 5000)] in
     {| academies := academies Fixture.world;
        companies := companies Fixture.world;
        token_files := token_files Fixture.world;
        trace := [Ev (Academy_findOne (js "A1")); Ev Company_findOne]
                 ++ attempt ++ pause ++ attempt ++ pause
                 ++ attempt ++ pause ++ attempt |}).
Proof. reflexivity. Qed.

(** Every transition refused is not enough for [MAX_RETRIES + 1]
    attempts: the checks of a retry are made again.  When after the
    first refused transition the stream is reported inactive, the second
    poll ends the retries with the failure, after one transition request
    in all; when the broadcast is then reported live, the second poll
    ends them with the answer that it is already live. *)
Lemma start_stream_stops_early :
  let c := Some Fixture.companyTokens in
  let w0 := [Ev (Academy_findOne (js "A1")); Ev Company_findOne] in
  let poll := [Ev (liveBroadcasts_list c (js "b1"));
               Ev (liveStreams_list c (Some (js "stream-1")))] in
  let attempt :=
    poll ++ [Ev (liveBroadcasts_transition c (js "testing") (js "b1"))] in
  let pause := [Ev (setTimeout DELAY_BETWEEN_RETRIES)] in
  let transitions P :=
    List.length
      (filter is_transition
         (events P (start_stream start_company_b1) Fixture.world)) in
  (transitions_fail stalls c (js "b1")
   /\ result stalls (start_stream start_company_b1) Fixture.world
      = inr (Start.failed_without_status
               (js "Stream is not active. Current status: inactive")
               (js "Could not fetch final status"))
   /\ events stalls (start_stream start_company_b1) Fixture.world
      = w0 ++ attempt ++ pause ++ poll
   /\ (transitions stalls < Z.to_nat (MAX_RETRIES + 1))%nat)
  /\ (transitions_fail started_elsewhere c (js "b1")
      /\ result started_elsewhere (start_stream start_company_b1)
           Fixture.world
         = inr (Start.ok {| Start.message := js "Broadcast is already live";
                            Start.status := js "live" |})
      /\ events started_elsewhere (start_stream start_company_b1)
           Fixture.world
         = w0 ++ attempt ++ pause ++ poll
      /\ (transitions started_elsewhere < Z.to_nat (MAX_RETRIES + 1))%nat).
Proof.
  split; (split; [|split; [reflexivity|split; [reflexivity|]]]).
  - intros history status; exists Fixture.network_error.
    unfold stalls. destruct (existsb is_transition history); reflexivity.
  - vm_compute. lia.
  - intros history status; exists Fixture.network_error.
    unfold started_elsewhere.
    destruct (existsb is_transition history); reflexivity.
  - vm_compute. lia.
Qed.

Lemma start_stream_retry_bound_witness :
  exists details attempts,
    result (Fixture.platform Fixture.busy) (start_stream start_company_b1)
      Fixture.world
    = inr (Start.failed_without_status details
             (js "Could not fetch final status"))
    /\ List.length attempts = 4%nat
    /\ Forall (is_attempt (Some Fixture.companyTokens) (js "b1")) attempts
    /\ events (Fixture.platform Fixture.busy) (start_stream start_company_b1)
         Fixture.world
       = [Ev (Academy_findOne (js "A1")); Ev Company_findOne]
         ++ intercalate [Ev (setTimeout 5000)] attempts.
Proof.
  apply (@start_stream_retry_bound (Fixture.platform Fixture.busy)
           Fixture.world
           (record_event (Ev Company_findOne)
              (record_event (Ev (Academy_findOne (js "A1"))) Fixture.world))
           start_company_b1 Fixture.A1 (Some Fixture.companyTokens)).
  - reflexivity.
  - reflexivity.
  - intros w. eexists. split; [reflexivity|].
    split; [discriminate | split; reflexivity].
  - intros history status. eexists. reflexivity.
Defined.

(** Nothing is ingested: the handler answers at the first poll. *)
Example start_stream_idle_run :
  run (Fixture.platform Fixture.idle) (start_stream start_company_b1)
    Fixture.world
  = (inr (Start.failed_without_status
            (js "Stream is not active. Current status: inactive")
            (js "Could not fetch final status")),
     let c := Some Fixture.companyTokens in
     {| academies := academies Fixture.world;
        companies := companies Fixture.world;
        token_files := token_files Fixture.world;
        trace := [Ev (Academy_findOne (js "A1")); Ev Company_findOne;
                  Ev (liveBroadcasts_list c (js "b1"));
                  Ev (liveStreams_list c (Some (js "stream-1")))] |}).
Proof. reflexivity. Qed.

Lemma start_stream_fast_fail_witness :
  result (Fixture.platform Fixture.idle) (start_stream start_company_b1)
    Fixture.world
  = inr (Start.failed_without_status
           (js "Stream is not active. Current status: inactive")
           (js "Could not fetch final status"))
  /\ existsb is_transition
       (events (Fixture.platform Fixture.idle)
          (start_stream start_company_b1) Fixture.world) = false.
Proof.
  apply (@start_stream_fast_fail (Fixture.platform Fixture.idle)
           Fixture.world
           (record_event (Ev Company_findOne)
              (record_event (Ev (Academy_findOne (js "A1"))) Fixture.world))
           (final (Fixture.platform Fixture.idle) (start_stream start_company_b1)
              Fixture.world)
           start_company_b1 Fixture.A1 (Some Fixture.companyTokens)
           {| Start.broadcastStatus := js "ready";
              Start.streamStatus := js "inactive";
              Start.healthStatus := Some (js "noData") |}).
  - reflexivity.
  - reflexivity.
  - reflexivity.
  - discriminate.
  - discriminate.
Defined.

(* ================================================================== *)
(** ** Stream resolver *)
(* ================================================================== *)

Lemma perform_remote_list (P : Platform) (auth : OAuth2Client)
  (id : option jsstring) (w : World) :
  perform P (liveStreams_list auth id) w
  = (P (trace w) _ (liveStreams_list auth id),
     record_event (Ev (liveStreams_list auth id)) w).
Proof. reflexivity. Qed.

Lemma perform_remote_insert (P : Platform) (auth : OAuth2Client)
  (body : StreamInsert.t) (w : World) :
  perform P (liveStreams_insert auth body) w
  = (P (trace w) _ (liveStreams_insert auth body),
     record_event (Ev (liveStreams_insert auth body)) w).
Proof. reflexivity. Qed.

(** The guarded fetch either returns the first listed stream, after
    the one listing, or gives up without writing or creating. *)
Lemma fetch_remembered_outcome (P : Platform) (auth : OAuth2Client)
  (streamId : option jsstring) (w : World) :
  (exists id s others,
      streamId = Some id /\ truthy id = true
      /\ P (trace w) _ (liveStreams_list auth (Some id)) = inr (s :: others)
      /\ run P (fetch_remembered auth streamId) w
         = (inr (Some (stream_info s)),
            record_event (Ev (liveStreams_list auth (Some id))) w)
      /\ events P (fetch_remembered auth streamId) w
         = [Ev (liveStreams_list auth (Some id))])
  \/ (exists w1,
        run P (fetch_remembered auth streamId) w = (inr None, w1)
        /\ academies w1 = academies w
        /\ existsb is_write (events P (fetch_remembered auth streamId) w)
           = false
        /\ existsb is_stream_insert
             (events P (fetch_remembered auth streamId) w) = false).
Proof.
  unfold fetch_remembered.
  destruct streamId as [id|]; cbn [truthy_opt];
    [destruct (truthy id) eqn:Hid|];
    try (right; eexists; repeat split; reflexivity).
  rewrite run_try_catch, events_try_catch, run_bind, events_bind,
    run_await, events_await, perform_remote_list.
  destruct (P (trace w) _ (liveStreams_list auth (Some id)))
    as [e|[|s others]] eqn:Hlist.
  - right; eexists; repeat split; reflexivity.
  - right; eexists; repeat split; reflexivity.
  - left. exists id, s, others. repeat split; try reflexivity; assumption.
Qed.

(** Every way [getExistingStream] can go. *)
Lemma getExistingStream_outcome (P : Platform) (w : World)
  (auth : OAuth2Client) (academy : Academy.t) (groundId : jsstring)
  (c : bool) :
  let t := getExistingStream auth academy groundId c in
  (find_ground groundId academy = None
   /\ run P t w = (inl (Error (js "Ground not found")), w)
   /\ events P t w = [])
  \/ (exists ground,
        find_ground groundId academy = Some ground
        /\ ((exists id s others,
               remembered_stream_id c ground = Some id /\ truthy id = true
               /\ P (trace w) _ (liveStreams_list auth (Some id))
                  = inr (s :: others)
               /\ run P t w
                  = (inr (stream_info s),
                     record_event (Ev (liveStreams_list auth (Some id))) w)
               /\ events P t w = [Ev (liveStreams_list auth (Some id))])
            \/ (exists pre w1,
                  let ins := liveStreams_insert auth
                               (new_stream_body academy ground c) in
                  academies w1 = academies w
                  /\ existsb is_write pre = false
                  /\ existsb is_stream_insert pre = false
                  /\ ((exists e,
                         run P t w = (inl e, record_event (Ev ins) w1)
                         /\ events P t w = pre ++ [Ev ins])
                      \/ (exists s,
                            let upd := Academy_findOneAndUpdate
                                         (Academy.academyId academy) groundId
                                         (updateField c) (LiveStream.id s) in
                            run P t w
                            = (inr (stream_info s),
                               with_academies
                                 (findOneAndUpdate
                                    (Academy.academyId academy) groundId
                                    (updateField c) (LiveStream.id s)
                                    (academies w1))
                                 (record_event (Ev upd)
                                    (record_event (Ev ins) w1)))
                            /\ events P t w = pre ++ [Ev ins; Ev upd]))))).
Proof.
  intros t; subst t. unfold getExistingStream.
  destruct (find_ground groundId academy) as [ground|] eqn:Hg;
    [right; exists ground; split; [reflexivity|] | left; auto].
  rewrite run_bind, events_bind.
  destruct (fetch_remembered_outcome P auth
              (remembered_stream_id c ground) w)
    as [(id & s & others & Hid & Htruthy & Hlist & Hrun & Hev)
       |(w1 & Hrun & Hdb & Hw & Hi)].
  - left. exists id, s, others. rewrite Hrun, Hev.
    repeat split; auto.
  - right. exists (events P (fetch_remembered auth
                               (remembered_stream_id c ground)) w), w1.
    cbv zeta. rewrite Hrun.
    repeat split; auto.
    rewrite run_bind, events_bind, run_await, events_await,
      perform_remote_insert.
    destruct (P (trace w1) _ (liveStreams_insert auth
                                (new_stream_body academy ground c)))
      as [e|s] eqn:Hins.
    + left. exists e. split; reflexivity.
    + right. exists s. split; reflexivity.
Qed.








Lemma filter_none (A : Type) (p : A -> bool) (l : list A) :
  existsb p l = false -> filter p l = [].
Proof.
  induction l as [|x l IH]; simpl; [reflexivity|].
  destruct (p x); simpl; [discriminate | exact IH].
Qed.


Lemma find_update_first (A : Type) (p q : A -> bool) (f : A -> A)
  (l : list A) (a : A) :
  (forall x, q x = true -> p x = true) ->
  (forall x, p (f x) = p x) ->
  find p l = Some a -> q a = true ->
  find p (update_first q f l) = Some (f a).
Proof.
  intros Hqp Hpf. induction l as [|x l IH]; simpl; [discriminate|].
  destruct (p x) eqn:Hp.
  - intros Hx Hq. injection Hx as ->. rewrite Hq. simpl.
    rewrite Hpf, Hp. reflexivity.
  - intros Hfind Hq. destruct (q x) eqn:Hqx.
    + apply Hqp in Hqx. congruence.
    + simpl. rewrite Hp. auto.
Qed.

Lemma find_existsb (A : Type) (p : A -> bool) (l : list A) (a : A) :
  find p l = Some a -> existsb p l = true.
Proof.
  intros H. apply find_some in H as [Hin Hp].
  apply existsb_exists. exists a. auto.
Qed.

Lemma is_ground_set_stream_id (groundId : jsstring) (field : StreamIdField)
  (v : jsstring) (g : Ground.t) :
  is_ground groundId (set_stream_id field v g) = is_ground groundId g.
Proof. destruct field; reflexivity. Qed.

Lemma remembered_set_stream_id (c : bool) (v : jsstring) (g : Ground.t) :
  remembered_stream_id c (set_stream_id (updateField c) v g) = Some v.
Proof. destruct c; reflexivity. Qed.

(** Reloading the academy after the resolver's write shows the new id
    on the ground the resolver had found. *)
Lemma reload_after_update (db : list Academy.t) (academy : Academy.t)
  (groundId v : jsstring) (ground : Ground.t) (c : bool) :
  find (is_academy (Academy.academyId academy)) db = Some academy ->
  find_ground groundId academy = Some ground ->
  exists academy2 ground2,
    find (is_academy (Academy.academyId academy))
      (findOneAndUpdate (Academy.academyId academy) groundId
         (updateField c) v db) = Some academy2
    /\ find_ground groundId academy2 = Some ground2
    /\ remembered_stream_id c ground2 = Some v.
Proof.
  intros Hdb Hg. unfold find_ground in Hg.
  exists (with_grounds
            (update_first (is_ground groundId)
               (set_stream_id (updateField c) v) (Academy.grounds academy))
            academy),
    (set_stream_id (updateField c) v ground).
  split; [|split].
  - unfold findOneAndUpdate.
    apply (find_update_first (is_academy (Academy.academyId academy))
             (is_academy_with_ground (Academy.academyId academy) groundId)
             (fun a => with_grounds
                         (update_first (is_ground groundId)
                            (set_stream_id (updateField c) v)
                            (Academy.grounds a)) a)).
    + intros x Hx. apply andb_true_iff in Hx. tauto.
    + intros x. reflexivity.
    + exact Hdb.
    + unfold is_academy_with_ground, is_academy.
      rewrite jseqb_refl, (find_existsb _ _ Hg). reflexivity.
  - unfold find_ground. cbn [with_grounds Academy.grounds].
    apply (find_update_first (is_ground groundId) (is_ground groundId)).
    + auto.
    + intros x. apply is_ground_set_stream_id.
    + exact Hg.
    + apply find_some in Hg. tauto.
  - apply remembered_set_stream_id.
Qed.

(** When the remembered id is listed, the resolver returns the listed
    stream after that one request. *)
Lemma getExistingStream_fetch (P : Platform) (w : World)
  (auth : OAuth2Client) (academy : Academy.t) (groundId : jsstring)
  (c : bool) (ground : Ground.t) (id : jsstring) (s : LiveStream.t)
  (others : list LiveStream.t) :
  find_ground groundId academy = Some ground ->
  remembered_stream_id c ground = Some id ->
  truthy id = true ->
  P (trace w) _ (liveStreams_list auth (Some id)) = inr (s :: others) ->
  result P (getExistingStream auth academy groundId c) w
  = inr (stream_info s)
  /\ events P (getExistingStream auth academy groundId c) w
     = [Ev (liveStreams_list auth (Some id))].
Proof.
  intros Hg Hid Htruthy Hlist.
  unfold result, getExistingStream, fetch_remembered.
  rewrite Hg, Hid. cbn [truthy_opt]. rewrite Htruthy.
  rewrite run_bind, events_bind, run_try_catch, events_try_catch,
    run_bind, events_bind, run_await, events_await, perform_remote_list,
    Hlist.
  split; reflexivity.
Qed.

(** After a write of the resolver the store remembers the written id
    for the ground and role, when the stored academy has the ground. *)
Lemma remembered_after_update (db : list Academy.t) (stored : Academy.t)
  (academyId groundId v : jsstring) (c : bool) :
  find (is_academy academyId) db = Some stored ->
  find_ground groundId stored <> None ->
  remembered_in
    (findOneAndUpdate academyId groundId (updateField c) v db)
    academyId groundId c = Some v.
Proof.
  intros Hdb Hg.
  assert (Hid : Academy.academyId stored = academyId).
  { apply find_some in Hdb as [_ Hid]. apply jseqb_eq. exact Hid. }
  destruct (find_ground groundId stored) as [ground|] eqn:Hground;
    [clear Hg | congruence].
  rewrite <- Hid in Hdb.
  destruct (@reload_after_update db stored groundId v ground c Hdb Hground)
    as (academy2 & ground2 & Hdb2 & Hg2 & Hid2).
  rewrite Hid in Hdb2. unfold remembered_in. rewrite Hdb2, Hg2.
  exact Hid2.
Qed.

(** C7.  A first resolution for a ground and role runs on a document
    of an academy whose stored version has the ground and remembers for
    the pair what the document shows.  If it succeeded, then a second
    resolution for the same pair, on the academy as reloaded at any
    later time at which the store still remembers for the pair what it
    did after the first resolution and the platform still lists the
    stream under its id, returns the same stream id with a single
    listing request: no stream is created and nothing is written.  The
    document may be out of date and the store may have changed in
    between, in other fields, grounds and academies. *)
Theorem getExistingStream_idempotent (P : Platform) (w w1 w2 : World)
  (auth : OAuth2Client) (academy stored : Academy.t) (groundId : jsstring)
  (isCompanyChannel : bool) (d1 : StreamInfo.t) (s : LiveStream.t)
  (others : list LiveStream.t) :
  let academyId := Academy.academyId academy in
  find (is_academy academyId) (academies w) = Some stored ->
  find_ground groundId stored <> None ->
  (forall ground,
      find_ground groundId academy = Some ground ->
      remembered_stream_id isCompanyChannel ground
      = remembered_in (academies w) academyId groundId isCompanyChannel) ->
  run P (getExistingStream auth academy groundId isCompanyChannel) w
  = (inr d1, w1) ->
  truthy (StreamInfo.streamId d1) = true ->
  (forall history id s' others',
      P history _ (liveStreams_list auth (Some id)) = inr (s' :: others') ->
      LiveStream.id s' = id) ->
  remembered_in (academies w2) academyId groundId isCompanyChannel
  = remembered_in (academies w1) academyId groundId isCompanyChannel ->
  P (trace w2) _ (liveStreams_list auth (Some (StreamInfo.streamId d1)))
  = inr (s :: others) ->
  exists academy2 d2,
    find (is_academy academyId) (academies w2) = Some academy2
    /\ result P (getExistingStream auth academy2 groundId isCompanyChannel)
         w2 = inr d2
    /\ StreamInfo.streamId d2 = StreamInfo.streamId d1
    /\ events P (getExistingStream auth academy2 groundId isCompanyChannel)
         w2
       = [Ev (liveStreams_list auth (Some (StreamInfo.streamId d1)))].
Proof.
  intros academyId Hdb Hground Hdoc Hrun Htruthy Hfilter Hsame Hlist.
  pose proof (Hfilter _ _ _ _ Hlist) as Hsid.
  assert (Hremembered :
            remembered_in (academies w1) academyId groundId isCompanyChannel
            = Some (StreamInfo.streamId d1)).
  { destruct (getExistingStream_outcome P w auth academy groundId
                isCompanyChannel)
      as [(_ & Hrun' & _)
         |(ground & Hg &
           [(id & s0 & others0 & Hid & Hidt & Hlist0 & Hrun' & _)
           |(pre & w' & Hdb' & _ & _ &
             [(e & Hrun' & _)|(s0 & Hrun' & _)])])];
      cbv zeta in Hrun'; rewrite Hrun in Hrun'; try discriminate;
      injection Hrun' as Hd Hw1; subst d1 w1.
    - (* the first resolution fetched the remembered stream *)
      apply Hfilter in Hlist0. cbn [stream_info StreamInfo.streamId].
      cbn [academies record_event].
      rewrite <- (Hdoc ground Hg), Hid, Hlist0. reflexivity.
    - (* the first resolution created the stream and wrote its id *)
      cbn [stream_info StreamInfo.streamId academies with_academies].
      rewrite Hdb'.
      exact (@remembered_after_update (academies w) stored academyId
               groundId (LiveStream.id s0) isCompanyChannel Hdb Hground). }
  rewrite Hremembered in Hsame. unfold remembered_in in Hsame.
  destruct (find (is_academy academyId) (academies w2)) as [academy2|];
    [|discriminate Hsame].
  destruct (find_ground groundId academy2) as [ground2|] eqn:Hg2;
    [|discriminate Hsame].
  destruct (getExistingStream_fetch P w2 auth academy2 groundId
              isCompanyChannel Hg2 Hsame Htruthy Hlist) as [Hres Hev].
  exists academy2, (stream_info s). repeat split; auto.
Qed.

(** The company stream of ground G1 is created and remembered. *)
Example getExistingStream_create_run :
  run (Fixture.platform Fixture.healthy)
    (getExistingStream (Some Fixture.companyTokens) Fixture.A1 (js "G1") true)
    Fixture.world
  = (inr (stream_info
            (Fixture.stream (js "stream:Rising Stars - Main Ground")
               (js "Rising Stars:MainGround") (js "inactive") (js "noData"))),
     let c := Some Fixture.companyTokens in
     {| academies :=
          [with_grounds
             [set_stream_id companyStreamIdField
                (js "stream:Rising Stars - Main Ground") Fixture.G1;
              Fixture.G2] Fixture.A1];
        companies := companies Fixture.world;
        token_files := token_files Fixture.world;
        trace :=
          [Ev (liveStreams_insert c
                 (new_stream_body Fixture.A1 Fixture.G1 true));
           Ev (Academy_findOneAndUpdate (js "A1") (js "G1")
                 companyStreamIdField
                 (js "stream:Rising Stars - Main Ground"))] |}).
Proof. reflexivity. Qed.


(** The two resolutions of each role in two runs of /go-live-now on
    the fresh ground G1.  The company's first resolution runs on the
    document loaded before the academy's write, and the company's write
    lies between the academy's two resolutions. *)
Lemma getExistingStream_idempotent_witness :
  let P := Fixture.platform Fixture.healthy in
  let a := Some Fixture.academyTokens in
  let c := Some Fixture.companyTokens in
  let loaded := Ev (Academy_findOne (js "A1")) in
  (* the first run: the academy's resolution, then the company's *)
  let wA := record_event loaded Fixture.world in
  let wC := record_event (Ev Company_findOne)
              (final P (academy_subflow true Fixture.A1 go_live_G1) wA) in
  (* the second run *)
  let w2A := record_event loaded
               (final P (go_live_now true go_live_G1) Fixture.world) in
  let reloaded :=
    match find (is_academy (js "A1")) (academies w2A) with
    | Some academy => academy
    | None => Fixture.A1
    end in
  let w2C := record_event (Ev Company_findOne)
               (final P (academy_subflow true reloaded go_live_G1) w2A) in
  (exists academy2 d2,
      find (is_academy (js "A1")) (academies w2A) = Some academy2
      /\ result P (getExistingStream a academy2 (js "G1") false) w2A
         = inr d2
      /\ StreamInfo.streamId d2 = js "stream:Main Ground - Stream"
      /\ events P (getExistingStream a academy2 (js "G1") false) w2A
         = [Ev (liveStreams_list a
                  (Some (js "stream:Main Ground - Stream")))])
  /\ (exists academy2 d2,
        find (is_academy (js "A1")) (academies w2C) = Some academy2
        /\ result P (getExistingStream c academy2 (js "G1") true) w2C
           = inr d2
        /\ StreamInfo.streamId d2 = js "stream:Rising Stars - Main Ground"
        /\ events P (getExistingStream c academy2 (js "G1") true) w2C
           = [Ev (liveStreams_list c
                    (Some (js "stream:Rising Stars - Main Ground")))]).
Proof.
  intros P a c loaded wA wC w2A reloaded w2C.
  assert (Hfilter : forall auth history id s' others',
             P history _ (liveStreams_list auth (Some id))
             = inr (s' :: others') -> LiveStream.id s' = id).
  { intros auth history id s' others' H.
    unfold P, Fixture.platform in H. cbn in H.
    injection H as <- _. reflexivity. }
  split.
  - apply (@getExistingStream_idempotent P wA
             (final P (getExistingStream a Fixture.A1 (js "G1") false) wA)
             w2A a Fixture.A1 Fixture.A1 (js "G1") false
             (stream_info
                (Fixture.stream (js "stream:Main Ground - Stream")
                   (js "A1-G1-1700000000000") (js "inactive")
                   (js "noData")))
             (Fixture.stream (js "stream:Main Ground - Stream")
                (js "key-of-stream:Main Ground - Stream")
                (js "active") (js "good"))
             []).
    + reflexivity.
    + discriminate.
    + intros ground Hg. injection Hg as <-. reflexivity.
    + reflexivity.
    + reflexivity.
    + apply Hfilter.
    + reflexivity.
    + reflexivity.
  - apply (@getExistingStream_idempotent P wC
             (final P (getExistingStream c Fixture.A1 (js "G1") true) wC)
             w2C c Fixture.A1
             (with_grounds
                [set_stream_id academyStreamIdField
                   (js "stream:Main Ground - Stream") Fixture.G1;
                 Fixture.G2] Fixture.A1)
             (js "G1") true
             (stream_info
                (Fixture.stream (js "stream:Rising Stars - Main Ground")
                   (js "Rising Stars:MainGround") (js "inactive")
                   (js "noData")))
             (Fixture.stream (js "stream:Rising Stars - Main Ground")
                (js "key-of-stream:Rising Stars - Main Ground")
                (js "active") (js "good"))
             []).
    + reflexivity.
    + discriminate.
    + intros ground Hg. injection Hg as <-. reflexivity.
    + reflexivity.
    + reflexivity.
    + apply Hfilter.
    + reflexivity.
    + reflexivity.
Defined.

(* ================================================================== *)
(** ** /end-stream *)
(* ================================================================== *)

Lemma getCompanyOAuthClient_run (P : Platform) (w : World)
  (company : Company.t) (tokens : Tokens) :
  hd_error (companies w) = Some company ->
  Company.youtubeTokens company = Some tokens ->
  run P getCompanyOAuthClient w
  = (inr tokens, record_event (Ev Company_findOne) w)
  /\ events P getCompanyOAuthClient w = [Ev Company_findOne].
Proof.
  intros Hc Ht. unfold getCompanyOAuthClient.
  rewrite run_bind, events_bind, run_await, events_await.
  cbn [perform]. rewrite Hc, Ht. split; reflexivity.
Qed.

(** The handler once the academy and the company are loaded: it answers
    from the outcome of the [Promise.all]. *)
Lemma end_stream_run (P : Platform) (w : World) (arrival : list bool)
  (rev : revision) (b : EndStream.body) (academy : Academy.t)
  (company : Company.t) (tokensA tokensC : Tokens) :
  find (is_academy (EndStream.academyId b)) (academies w) = Some academy ->
  Academy.youtubeTokens academy = Some tokensA ->
  hd_error (companies w) = Some company ->
  Company.youtubeTokens company = Some tokensC ->
  let w1 := record_event (Ev Company_findOne)
              (record_event (Ev (Academy_findOne (EndStream.academyId b)))
                 w) in
  let all := Promise_all arrival
               (endBroadcast rev academy (EndStream.title b)
                  (Some tokensA) false)
               (endBroadcast rev academy (EndStream.title b)
                  (Some tokensC) true) in
  result P (end_stream arrival rev b) w
  = inr (match result P all w1 with
         | inr ended => EndStream.report (fst ended) (snd ended)
         | inl e => EndStream.error 500 (message e)
         end)
  /\ events P (end_stream arrival rev b) w
     = [Ev (Academy_findOne (EndStream.academyId b)); Ev Company_findOne]
       ++ events P all w1.
Proof.
  intros Hdb Ha Hc Htc w1 all. subst w1 all.
  unfold result, end_stream.
  rewrite run_try_catch, events_try_catch, run_bind, events_bind,
    run_await, events_await.
  cbn [perform fst snd]. rewrite Hdb, Ha.
  rewrite run_bind, events_bind.
  destruct (@getCompanyOAuthClient_run P
              (record_event (Ev (Academy_findOne (EndStream.academyId b))) w)
              company tokensC Hc Htc) as [Hrun Hev].
  rewrite Hrun, Hev.
  rewrite run_bind, events_bind.
  destruct (run P (Promise_all _ _ _) _) as [[e|[x y]] w2];
    cbn [fst snd run events app]; rewrite ?app_nil_r; split; reflexivity.
Qed.

Ltac crank :=
  cbn [bind both race done run events perform settle try_catch fst snd app
       record_event trace].

Lemma settle_done A (r : Settled A) : settle (done r) = Return r.
Proof. destruct r; reflexivity. Qed.

(** When the first of two waiting promises has in fact settled, the
    second runs as it would alone, in whatever order the answers
    arrive. *)
Lemma race_left_done (P : Platform) A B (r1 : Settled A)
  (arrival : list bool) :
  forall (p2 : Task B) (w : World),
    events P (race arrival (done r1) p2) w = events P p2 w
    /\ exists flag,
         run P (race arrival (done r1) p2) w
         = (inr (r1, result P p2 w, flag), final P p2 w).
Proof.
  induction arrival as [|[|] rest IH]; intros p2 w.
  - cbn [race]. rewrite settle_done. cbn [bind].
    rewrite run_bind, events_bind, run_settle.
    split; [|exists true; reflexivity].
    unfold settle. rewrite events_try_catch, events_bind, run_bind.
    destruct (run P p2 w) as [[e|x] w']; cbn [events run app];
      rewrite ?app_nil_r; reflexivity.
  - destruct r1 as [e|a]; cbn [race done];
      rewrite run_bind, events_bind, run_settle;
      (split; [|exists true; reflexivity]);
      unfold settle; rewrite events_try_catch, events_bind, run_bind;
      destruct (run P p2 w) as [[e'|x] w']; cbn [events run app];
      rewrite ?app_nil_r; reflexivity.
  - destruct p2 as [b|e|X op k]; cbn [race].
    + rewrite settle_done. split; [reflexivity|exists false; reflexivity].
    + rewrite settle_done. split; [reflexivity|exists false; reflexivity].
    + unfold result, final. cbn [run events].
      destruct (perform P op w) as [r w'].
      destruct (IH (k r) w') as [Hev [flag Hrun]].
      split; [f_equal; exact Hev | exists flag; exact Hrun].
Qed.

Lemma race_right_done (P : Platform) A B (r2 : Settled B)
  (arrival : list bool) :
  forall (p1 : Task A) (w : World),
    events P (race arrival p1 (done r2)) w = events P p1 w
    /\ exists flag,
         run P (race arrival p1 (done r2)) w
         = (inr (result P p1 w, r2, flag), final P p1 w).
Proof.
  induction arrival as [|[|] rest IH]; intros p1 w.
  - cbn [race]. rewrite settle_done.
    rewrite run_bind, events_bind, run_settle. cbn [bind run events].
    rewrite app_nil_r.
    split; [|exists true; reflexivity].
    unfold settle. rewrite events_try_catch, events_bind, run_bind.
    destruct (run P p1 w) as [[e|x] w']; cbn [events run app];
      rewrite ?app_nil_r; reflexivity.
  - destruct p1 as [a|e|X op k]; cbn [race].
    + rewrite settle_done. split; [reflexivity|exists true; reflexivity].
    + rewrite settle_done. split; [reflexivity|exists true; reflexivity].
    + unfold result, final. cbn [run events].
      destruct (perform P op w) as [r w'].
      destruct (IH (k r) w') as [Hev [flag Hrun]].
      split; [f_equal; exact Hev | exists flag; exact Hrun].
  - destruct r2 as [e|b]; cbn [race done];
      rewrite run_bind, events_bind, run_settle;
      (split; [|exists false; reflexivity]);
      unfold settle; rewrite events_try_catch, events_bind, run_bind;
      destruct (run P p1 w) as [[e'|x] w']; cbn [events run app];
      rewrite ?app_nil_r; reflexivity.
Qed.

Lemma run_done (P : Platform) A (r : Settled A) (w : World) :
  run P (done r) w = (r, w).
Proof. destruct r; reflexivity. Qed.

Lemma events_done (P : Platform) A (r : Settled A) (w : World) :
  events P (done r) w = [].
Proof. destruct r; reflexivity. Qed.

Lemma events_settle (P : Platform) A (t : Task A) (w : World) :
  events P (settle t) w = events P t w.
Proof.
  unfold settle. rewrite events_try_catch, events_bind, run_bind.
  destruct (run P t w) as [[e|x] w']; cbn [events run app];
    rewrite ?app_nil_r; reflexivity.
Qed.

(** Two waiting promises that each settle with their next answer: the
    promise whose answer arrives first sends its request first. *)
Lemma race_one_request (P : Platform) A B X Y (op1 : Op X) (op2 : Op Y)
  (k1 : Settled X -> Task A) (k2 : Settled Y -> Task B)
  (f1 : Settled X -> Settled A) (f2 : Settled Y -> Settled B)
  (arrival : list bool) (w : World) :
  (forall r, k1 r = done (f1 r)) ->
  (forall r, k2 r = done (f2 r)) ->
  let t := race arrival (Await op1 k1) (Await op2 k2) in
  exists flag,
    if hd true arrival
    then events P t w = [Ev op1; Ev op2]
         /\ run P t w
            = (inr (f1 (fst (perform P op1 w)),
                    f2 (fst (perform P op2 (snd (perform P op1 w)))),
                    flag),
               snd (perform P op2 (snd (perform P op1 w))))
    else events P t w = [Ev op2; Ev op1]
         /\ run P t w
            = (inr (f1 (fst (perform P op1 (snd (perform P op2 w)))),
                    f2 (fst (perform P op2 w)),
                    flag),
               snd (perform P op1 (snd (perform P op2 w)))).
Proof.
  intros Hk1 Hk2 t. subst t.
  destruct arrival as [|[|] rest]; cbn [hd race].
  - exists true.
    rewrite run_bind, events_bind, run_settle, events_settle.
    rewrite run_bind, events_bind, run_settle, events_settle.
    unfold result, final. cbn [run events fst snd app].
    destruct (perform P op1 w) as [x w1]. cbn [fst snd].
    rewrite !Hk1, !run_done, !events_done. cbn [fst snd app].
    destruct (perform P op2 w1) as [y w2]. cbn [fst snd].
    rewrite !Hk2, !run_done, !events_done. split; reflexivity.
  - cbn [run events].
    destruct (perform P op1 w) as [x w1]. cbn [fst snd]. rewrite !Hk1.
    destruct (@race_left_done P _ _ (f1 x) rest (Await op2 k2) w1)
      as [Hev [flag Hrun]].
    exists flag. rewrite Hev, Hrun. unfold result, final.
    cbn [run events fst snd].
    destruct (perform P op2 w1) as [y w2]. cbn [fst snd].
    rewrite !Hk2, !run_done, !events_done. split; reflexivity.
  - cbn [run events].
    destruct (perform P op2 w) as [y w1]. cbn [fst snd]. rewrite !Hk2.
    destruct (@race_right_done P _ _ (f2 y) rest (Await op1 k1) w1)
      as [Hev [flag Hrun]].
    exists flag. rewrite Hev, Hrun. unfold result, final.
    cbn [run events fst snd].
    destruct (perform P op1 w1) as [x w2]. cbn [fst snd].
    rewrite !Hk1, !run_done, !events_done. split; reflexivity.
Qed.

Ltac use_race H :=
  let Hev := fresh "Hev" in
  let Hrun := fresh "Hrun" in
  let flag := fresh "flag" in
  destruct H as [Hev [flag Hrun]]; rewrite Hev, Hrun; clear Hev Hrun.

Ltac left_done :=
  match goal with
  | |- context [run ?P0 (race ?ar (Throw ?e) ?p2) ?w0] =>
      change (race ar (Throw e) p2) with (race ar (@done bool (inl e)) p2);
      use_race (@race_left_done P0 _ _ (@inl JsError bool e) ar p2 w0)
  | |- context [run ?P0 (race ?ar (Return ?v) ?p2) ?w0] =>
      change (race ar (Return v) p2) with (race ar (@done bool (inr v)) p2);
      use_race (@race_left_done P0 _ _ (@inr JsError bool v) ar p2 w0)
  end.

Ltac right_done :=
  match goal with
  | |- context [run ?P0 (race ?ar ?p1 (Throw ?e)) ?w0] =>
      change (race ar p1 (Throw e)) with (race ar p1 (@done bool (inl e)));
      use_race (@race_right_done P0 _ _ (@inl JsError bool e) ar p1 w0)
  | |- context [run ?P0 (race ?ar ?p1 (Return ?v)) ?w0] =>
      change (race ar p1 (Return v)) with (race ar p1 (@done bool (inr v)));
      use_race (@race_right_done P0 _ _ (@inr JsError bool v) ar p1 w0)
  end.

Ltac both_waiting :=
  match goal with
  | |- context [run ?P0 (race ?ar (Await ?op1 ?k1) (Await ?op2 ?k2)) ?w0] =>
      let f := constr:(fun r : Settled LiveBroadcast.t =>
                         match r with
                         | inl e => @inl JsError bool e
                         | inr _ => inr true
                         end) in
      let Hk1 := fresh "Hk" in
      let Hk2 := fresh "Hk" in
      let Hrace := fresh "Hrace" in
      let Hev := fresh "Hev" in
      let Hrun := fresh "Hrun" in
      let flag := fresh "flag" in
      assert (Hk1 : forall r, k1 r = done (f r))
        by (intros [?|?]; reflexivity);
      assert (Hk2 : forall r, k2 r = done (f r))
        by (intros [?|?]; reflexivity);
      destruct (@race_one_request P0 _ _ _ _ op1 op2 k1 k2 f f ar w0
                  Hk1 Hk2) as [flag Hrace];
      clear Hk1 Hk2;
      destruct (hd true ar); destruct Hrace as [Hev Hrun];
      rewrite Hev, Hrun; clear Hev Hrun
  end.

(** The two channels of /end-stream, as the platform answers them and
    in whatever order its answers arrive: both searches are sent, the
    academy's first; each channel whose search lists a match then sends
    its transition, the academy first when its listing arrives first;
    and the outcome is fulfilled with the two reports or rejected with
    one of the rejections. *)
Lemma end_both_channels (P : Platform) (w : World) (arrival : list bool)
  (rev : revision) (academy : Academy.t) (title : jsstring)
  (a c : OAuth2Client) :
  let searchA := liveBroadcasts_list_active a in
  let searchC := liveBroadcasts_list_active c in
  let h := trace w in
  let listedA := P h _ searchA in
  let listedC := P (h ++ [Ev searchA]) _ searchC in
  let matchesA := title_matches rev academy title false in
  let matchesC := title_matches rev academy title true in
  let endA := ending_request a matchesA listedA in
  let endC := ending_request c matchesC listedC in
  let h2 := h ++ [Ev searchA; Ev searchC] in
  let academy_first := hd true arrival in
  let outcomeA := channel_outcome P a matchesA listedA
                    (if academy_first then h2 else h2 ++ endC) in
  let outcomeC := channel_outcome P c matchesC listedC
                    (if academy_first then h2 ++ endA else h2) in
  let all := Promise_all arrival (endBroadcast rev academy title a false)
               (endBroadcast rev academy title c true) in
  events P all w
  = [Ev searchA; Ev searchC]
    ++ (if academy_first then endA ++ endC else endC ++ endA)
  /\ match outcomeA, outcomeC with
     | inr x, inr y => result P all w = inr (x, y)
     | inl e, inr _ => result P all w = inl e
     | inr _, inl e => result P all w = inl e
     | inl e1, inl e2 => result P all w = inl e1 \/ result P all w = inl e2
     end.
Proof.
  intros searchA searchC h listedA listedC matchesA matchesC endA endC h2
    academy_first outcomeA outcomeC all.
  subst searchA searchC h listedA listedC matchesA matchesC endA endC h2
    academy_first outcomeA outcomeC all.
  unfold result, Promise_all, endBroadcast, ending_request, channel_outcome.
  rewrite run_bind, events_bind. unfold await.
  cbn [bind both run events perform fst snd app record_event trace].
  destruct (P (trace w) _ (liveBroadcasts_list_active a))
    as [ea|itemsA] eqn:Hla;
  destruct (P (trace w ++ [Ev (liveBroadcasts_list_active a)]) _
              (liveBroadcasts_list_active c)) as [ec|itemsC] eqn:Hlc.
  all: cbn [bind].
  all: try (destruct (find (title_matches rev academy title false) itemsA)
              as [ba|] eqn:Hfa).
  all: try (destruct (find (title_matches rev academy title true) itemsC)
              as [bc|] eqn:Hfc).
  all: cbn [bind].
  all: first [left_done | right_done | both_waiting].
  all: unfold result, final;
       cbn [run events perform fst snd app record_event trace bind].
  all: try destruct (hd true arrival).
  all: rewrite <- ?app_assoc; cbn [app]; rewrite ?app_nil_r.
  all: repeat match goal with
       | |- context [?f ?h LiveBroadcast.t
                       (liveBroadcasts_transition ?x ?y ?z)] =>
           destruct (f h LiveBroadcast.t (liveBroadcasts_transition x y z))
       end.
  all: cbn [run events perform fst snd app record_event trace bind].
  all: try match goal with flag : bool |- _ => destruct flag end.
  all: cbn [run events fst snd app].
  all: try (split; [reflexivity|]).
  all: first [reflexivity | left; reflexivity | right; reflexivity | idtac].
Qed.

(** [validateTokens] never throws. *)
Lemma validateTokens_total (P : Platform) (tokens : Tokens) (w : World) :
  exists valid, result P (Legacy.validateTokens tokens) w = inr valid.
Proof.
  unfold result, Legacy.validateTokens.
  rewrite run_try_catch, run_bind, run_await.
  destruct (perform P (channels_list_mine (Some tokens)) w) as [[e|x] w1];
    cbn [fst snd run]; eauto.
Qed.

(** One iteration of the file-based /end-stream always pushes an entry
    for its channel: an error on the channel becomes the entry's
    status. *)
Lemma end_on_channel_total (P : Platform)
  (toLowerCase : jsstring -> jsstring) (title : jsstring)
  (c : Legacy.channel_entry) (tokens : Tokens) (w : World) :
  exists o,
    result P (Legacy.end_on_channel toLowerCase title c tokens) w = inr o
    /\ Legacy.channelName o = Legacy.name c
    /\ In (Legacy.status o) legacy_statuses.
Proof.
  unfold result, Legacy.end_on_channel, legacy_statuses.
  rewrite run_try_catch, run_bind.
  destruct (validateTokens_total P tokens w) as [valid Hv].
  unfold result in Hv.
  destruct (run P (Legacy.validateTokens tokens) w) as [r w1].
  cbn [fst] in Hv. subst r.
  destruct valid; cbn [negb run fst snd];
    [|eexists; split; [reflexivity|split; [reflexivity|simpl; tauto]]].
  rewrite run_bind, run_await.
  destruct (perform P (liveBroadcasts_list_active (Some tokens)) w1)
    as [[e|items] w2]; cbn [fst snd run];
    [eexists; split; [reflexivity|split; [reflexivity|simpl; tauto]]|].
  destruct (find _ items) as [m|]; cbn [fst snd run];
    [|eexists; split; [reflexivity|split; [reflexivity|simpl; tauto]]].
  rewrite run_bind, run_await.
  destruct (perform P (liveBroadcasts_transition (Some tokens) _ _) w2)
    as [[e|x] w3]; cbn [fst snd run];
    eexists; (split; [reflexivity|split; [reflexivity|simpl; tauto]]).
Qed.

(** A channel without a matching active broadcast gets the entry
    "not_found". *)
Lemma end_on_channel_not_found (P : Platform)
  (toLowerCase : jsstring -> jsstring) (title : jsstring)
  (c : Legacy.channel_entry) (tokens : Tokens) (w : World)
  (items : list LiveBroadcast.t) :
  P (trace w) _ (channels_list_mine (Some tokens)) = inr tt ->
  P (trace w ++ [Ev (channels_list_mine (Some tokens))]) _
    (liveBroadcasts_list_active (Some tokens)) = inr items ->
  find (fun broadcast =>
          jseqb (toLowerCase (LiveBroadcast.title broadcast))
            (toLowerCase title)) items = None ->
  exists o,
    result P (Legacy.end_on_channel toLowerCase title c tokens) w = inr o
    /\ Legacy.status o = js "not_found".
Proof.
  intros Hvalid Hlist Hfind.
  unfold result, Legacy.end_on_channel, Legacy.validateTokens.
  rewrite run_try_catch, run_bind, run_try_catch, run_bind, run_await.
  cbn [perform]. rewrite Hvalid. cbn [run negb].
  rewrite run_bind, run_await. cbn [perform record_event trace].
  rewrite Hlist, Hfind. cbn [run fst snd].
  eexists; split; reflexivity.
Qed.

(** The loop answers for every channel of [CHANNELS], in order, whatever
    happened on the channels before. *)
Lemma end_each_total (P : Platform) (toLowerCase : jsstring -> jsstring)
  (title : jsstring) (channels : list Legacy.channel_entry) :
  forall (results : list Legacy.outcome) (w : World),
  exists pushed,
    result P (Legacy.end_each toLowerCase title channels results) w
    = inr (results ++ pushed)
    /\ List.map Legacy.channelName pushed = List.map Legacy.name channels
    /\ Forall (fun o => In (Legacy.status o) legacy_statuses) pushed.
Proof.
  induction channels as [|c rest IH]; intros results w;
    cbn [Legacy.end_each].
  - exists []. rewrite app_nil_r. repeat split; constructor.
  - destruct (Legacy.tokens c) as [t|].
    + destruct (end_on_channel_total P toLowerCase title c t w)
        as (o & Ho & Hname & Hstatus).
      unfold result in *. rewrite run_bind.
      destruct (run P (Legacy.end_on_channel toLowerCase title c t) w)
        as [r w1].
      cbn [fst] in Ho. subst r.
      destruct (IH (results ++ [o]) w1) as (pushed & Hp & Hnames & Hall).
      exists (o :: pushed). rewrite Hp, <- app_assoc.
      repeat split; cbn [List.map app]; [congruence|].
      constructor; assumption.
    + destruct (IH (results ++
                      [Legacy.entry c title (js "no_tokens")
                         (js "No tokens found for " ++ Legacy.name c
                            ++ js ". Please authenticate.")]) w)
        as (pushed & Hp & Hnames & Hall).
      eexists (_ :: pushed). unfold result in *.
      rewrite Hp, <- app_assoc.
      repeat split; cbn [List.map app]; [f_equal; exact Hnames|].
      constructor; [simpl; tauto | assumption].
Qed.




(* ================================================================== *)
(** ** Go live, then end the stream *)
(* ================================================================== *)

(** In final.js the company's broadcast is created under the request's
    title but searched under the academy's name and the title: a
    broadcast that carries the title is never the one found. *)
Lemma final_js_company_title_mismatch (academy : Academy.t)
  (title : jsstring) (b : LiveBroadcast.t) :
  LiveBroadcast.title b = title ->
  title_matches final_js academy title true b = false.
Proof.
  intros Ht. unfold title_matches. rewrite Ht.
  apply jseqb_neq. intros H.
  apply (f_equal (@List.length N)) in H.
  rewrite !length_app in H.
  change (List.length (js " - ")) with 3%nat in H. lia.
Qed.

(** Both runs of go-live create their broadcast under the request's
    title. *)
Lemma new_broadcast_title (autoStartStop : bool)
  (title teamA teamB start streamId : jsstring) :
  BroadcastInsert.title
    (new_broadcast_body autoStartStop title teamA teamB start streamId)
  = title.
Proof. reflexivity. Qed.

(** C6, as the code has it.  On a platform that serves every request,
    go-live for "U15 vs U17" on ground G1 succeeds on both channels;
    the later end-stream of final.js for the same title ends the
    academy's broadcast only and reports the company's as not ended,
    where the handler of part_001 ends both, in whatever order the
    platform's answers arrive. *)
Theorem go_live_then_end_stream (arrival : list bool) :
  let P := Fixture.platform Fixture.healthy in
  let w1 := final P (go_live_now true go_live_G1) Fixture.world in
  let c := Some Fixture.companyTokens in
  let a := Some Fixture.academyTokens in
  (exists academyStream companyStream,
      result P (go_live_now true go_live_G1) Fixture.world
      = inr (GoLive.success academyStream companyStream))
  /\ P (trace w1) _ (liveBroadcasts_list_active c)
     = inr [Fixture.broadcast (js "broadcast:U15 vs U17") (js "U15 vs U17")
              (js "live")]
  /\ result P (end_stream arrival final_js end_U15_U17) w1
     = inr (EndStream.report true false)
  /\ existsb (fun e => made_with c e && is_transition e)
       (events P (end_stream arrival final_js end_U15_U17) w1) = false
  /\ result P (end_stream arrival part_001 end_U15_U17) w1
     = inr (EndStream.report true true).
Proof.
  intros P w1 c a.
  split; [eexists; eexists; reflexivity|].
  split; [reflexivity|].
  destruct arrival as [|[|] [|[|] [|[|] arrival]]];
    repeat split; reflexivity.
Qed.

(* ================================================================== *)
(** ** /go-live-now *)
(* ================================================================== *)

(** The handler of final.js and part_001 once the academy is loaded:
    the academy run, then, only if it returned, the company run. *)
Lemma go_live_now_run (P : Platform) (w : World) (flag : bool)
  (b : GoLive.body) (academy : Academy.t) (tokens : Tokens) :
  find (is_academy (GoLive.academyId b)) (academies w) = Some academy ->
  Academy.youtubeTokens academy = Some tokens ->
  let w0 := record_event (Ev (Academy_findOne (GoLive.academyId b))) w in
  run P (go_live_now flag b) w
  = (let (ra, w1) := run P (academy_subflow flag academy b) w0 in
     match ra with
     | inl e => (inr (GoLive.failure 500 (message e)), w1)
     | inr academyResult =>
         let (rc, w2) := run P (company_subflow flag academy b) w1 in
         match rc with
         | inl e => (inr (GoLive.failure 500 (message e)), w2)
         | inr companyResult =>
             (inr (GoLive.success academyResult companyResult), w2)
         end
     end)
  /\ events P (go_live_now flag b) w
     = Ev (Academy_findOne (GoLive.academyId b))
       :: events P (academy_subflow flag academy b) w0
       ++ (let (ra, w1) := run P (academy_subflow flag academy b) w0 in
           match ra with
           | inl _ => []
           | inr _ => events P (company_subflow flag academy b) w1
           end).
Proof.
  intros Hdb Ht w0. subst w0. unfold go_live_now.
  rewrite run_try_catch, events_try_catch, run_bind, events_bind,
    run_await, events_await.
  cbn [perform fst snd]. rewrite Hdb, Ht.
  rewrite run_bind, events_bind.
  destruct (run P (academy_subflow flag academy b) _) as [[e|ra] w1];
    cbn [run events app]; rewrite ?app_nil_r; [split; reflexivity|].
  rewrite run_bind, events_bind.
  destruct (run P (company_subflow flag academy b) w1) as [[e|rc] w2];
    cbn [run events app]; rewrite ?app_nil_r; split; reflexivity.
Qed.

(** The attempt on ourChannel never throws and yields at most one
    result. *)
Lemma our_channel_attempt_total (P : Platform) (b : Legacy.body)
  (w : World) :
  exists mine,
    result P (Legacy.our_channel_attempt b) w = inr mine
    /\ (List.length mine <= 1)%nat.
Proof.
  unfold result, Legacy.our_channel_attempt.
  rewrite run_bind, run_await.
  destruct (perform P (loadTokens (js "ourChannel")) w)
    as [[e|[t|]] w0] eqn:Hload; cbn [fst snd run].
  - cbn [perform] in Hload. discriminate.
  - rewrite run_bind.
    destruct (validateTokens_total P t w0) as [valid Hv].
    unfold result in Hv.
    destruct (run P (Legacy.validateTokens t) w0) as [r w1].
    cbn [fst] in Hv. subst r.
    destruct valid; cbn [run fst]; [|exists []; auto].
    rewrite run_try_catch, run_bind.
    destruct (run P (Legacy.createBroadcastAndStream b (Some t) _) w1)
      as [[e|d] w2]; cbn [run fst]; eexists; split;
      try reflexivity; simpl; lia.
  - exists []. auto.
Qed.

(** C1, as the code has it.  In /go-live-now of final.js and part_001 the academy
    run comes first and the company run is started only after the
    academy run returned; when either run fails the response is the
    total failure, with status 500 and the error's message, and two
    results are reported only when both runs return.  In /go-live-now
    of part_000 a failure on ourChannel is swallowed: the customer
    channel is always attempted next; if it succeeds the response is a
    success listing the results that exist, and if it fails the
    response is the failure. *)
Theorem go_live_partial_failure (P : Platform) (w : World) (flag : bool)
  (b : GoLive.body) (academy : Academy.t) (tokens : Tokens)
  (generateAuthUrl : jsstring -> jsstring) (lb : Legacy.body)
  (customerTokens : Tokens) :
  (find (is_academy (GoLive.academyId b)) (academies w) = Some academy ->
   Academy.youtubeTokens academy = Some tokens ->
   let loaded := Ev (Academy_findOne (GoLive.academyId b)) in
   let w0 := record_event loaded w in
   let academyRun := academy_subflow flag academy b in
   let companyRun := company_subflow flag academy b in
   let w1 := final P academyRun w0 in
   (forall e,
       result P academyRun w0 = inl e ->
       result P (go_live_now flag b) w
       = inr (GoLive.failure 500 (message e))
       /\ events P (go_live_now flag b) w
          = loaded :: events P academyRun w0)
   /\ (forall academyResult,
         result P academyRun w0 = inr academyResult ->
         events P (go_live_now flag b) w
         = loaded :: events P academyRun w0 ++ events P companyRun w1
         /\ (forall e,
               result P companyRun w1 = inl e ->
               result P (go_live_now flag b) w
               = inr (GoLive.failure 500 (message e)))
         /\ (forall companyResult,
               result P companyRun w1 = inr companyResult ->
               result P (go_live_now flag b) w
               = inr (GoLive.success academyResult companyResult))))
  /\ (lookup_tokens (js "customerChannel") (token_files w)
      = Some customerTokens ->
      let loaded := Ev (loadTokens (js "customerChannel")) in
      let w0 := record_event loaded w in
      let ours := Legacy.our_channel_attempt lb in
      let customer := Legacy.createBroadcastAndStream lb
                        (Some customerTokens) (js "customerChannel") in
      let w1 := final P ours w0 in
      let response :=
        result P (Legacy.go_live_now generateAuthUrl lb true) w in
      exists mine,
        result P ours w0 = inr mine
        /\ (List.length mine <= 1)%nat
        /\ events P (Legacy.go_live_now generateAuthUrl lb true) w
           = loaded :: events P ours w0 ++ events P customer w1
        /\ (forall d,
              result P customer w1 = inr d ->
              exists text, response = inr (Legacy.success (mine ++ [d]) text))
        /\ (forall e,
              result P customer w1 = inl e ->
              response
              = inr (Legacy.failure
                  (js "Failed to create stream on customer channel. Please try again.")))).
Proof.
  split.
  - intros Hdb Ht loaded w0 academyRun companyRun w1.
    destruct (@go_live_now_run P w flag b academy tokens Hdb Ht)
      as [Hrun Hev].
    cbv zeta in Hrun, Hev. fold loaded w0 academyRun companyRun in Hrun, Hev.
    unfold result, final in *. subst w1. unfold final.
    rewrite Hrun, Hev.
    destruct (run P academyRun w0) as [[e|ra] w1]; cbn [fst snd].
    + split; [|intros ? H; discriminate H].
      intros e' H. injection H as <-. rewrite app_nil_r.
      split; reflexivity.
    + split; [intros ? H; discriminate H|].
      intros ra' H. injection H as <-.
      split; [reflexivity|].
      destruct (run P companyRun w1) as [[e|rc] w2]; cbn [fst snd];
        split; intros ? H; try discriminate H; injection H as <-;
        reflexivity.
  - intros Hfile loaded w0 ours customer w1 response.
    subst response w1 customer ours w0 loaded.
    destruct (our_channel_attempt_total P lb
                (record_event (Ev (loadTokens (js "customerChannel"))) w))
      as (mine & Hmine & Hlen).
    exists mine. split; [exact Hmine|]. split; [exact Hlen|].
    unfold result, final in *.
    unfold Legacy.go_live_now.
    rewrite run_bind, events_bind, run_await, events_await.
    cbn [perform fst snd]. rewrite Hfile.
    rewrite run_try_catch, events_try_catch, run_bind, events_bind.
    destruct (run P (Legacy.our_channel_attempt lb) _) as [r w1].
    cbn [fst] in Hmine. subst r.
    cbn [snd]. rewrite run_bind, events_bind.
    destruct (run P (Legacy.createBroadcastAndStream lb _ _) w1)
      as [[e|d] w2];
      cbn [run events app fst snd]; rewrite ?app_nil_r.
    + split; [reflexivity|].
      split; intros ? H; try discriminate H. reflexivity.
    + split; [reflexivity|].
      split; intros ? H; try discriminate H.
      injection H as <-. eexists. reflexivity.
Qed.

(** The academy's broadcast cannot be created while the company's
    could: the response is the total failure and the company channel is
    never contacted.  And when it is the company's broadcast that
    cannot be created, after the academy's was, the response is the
    total failure as well. *)
Lemma go_live_one_channel_fails :
  let w0 := record_event (Ev (Academy_findOne (js "A1"))) Fixture.world in
  let c := Some Fixture.companyTokens in
  (let P := healthy_but is_academy_broadcast_insert in
   result P (academy_subflow true Fixture.A1 go_live_G1) w0
   = inl Fixture.network_error
   /\ (exists companyStream,
         result P (company_subflow true Fixture.A1 go_live_G1) w0
         = inr companyStream)
   /\ result P (go_live_now true go_live_G1) Fixture.world
      = inr (GoLive.failure 500 (js "socket hang up"))
   /\ existsb (made_with c)
        (events P (go_live_now true go_live_G1) Fixture.world) = false)
  /\ (let P := healthy_but is_company_broadcast_insert in
      (exists academyStream,
          result P (academy_subflow true Fixture.A1 go_live_G1) w0
          = inr academyStream)
      /\ result P (go_live_now true go_live_G1) Fixture.world
         = inr (GoLive.failure 500 (js "socket hang up"))).
Proof.
  repeat split; try reflexivity; eexists; reflexivity.
Qed.

Lemma go_live_partial_failure_witness :
  result (healthy_but is_academy_broadcast_insert)
    (go_live_now true go_live_G1) Fixture.world
  = inr (GoLive.failure 500 (js "socket hang up"))
  /\ exists d text,
       result (healthy_but is_company_broadcast_insert)
         (Legacy.go_live_now consent_url legacy_go_live true) Fixture.world
       = inr (Legacy.success [d] text).
Proof.
  split.
  - destruct (@go_live_partial_failure
                (healthy_but is_academy_broadcast_insert) Fixture.world
                true go_live_G1 Fixture.A1 Fixture.academyTokens
                consent_url legacy_go_live Fixture.academyTokens)
      as [Hfinal _].
    destruct (Hfinal eq_refl eq_refl) as [Hfail _].
    exact (proj1 (Hfail Fixture.network_error eq_refl)).
  - destruct (@go_live_partial_failure
                (healthy_but is_company_broadcast_insert) Fixture.world
                true go_live_G1 Fixture.A1 Fixture.academyTokens
                consent_url legacy_go_live Fixture.academyTokens)
      as [_ Hlegacy].
    destruct (Hlegacy eq_refl) as (mine & Hmine & _ & _ & Hok & _).
    injection Hmine as <-.
    eexists. exact (Hok _ eq_refl).
Defined.

(* ================================================================== *)
(** ** /start-stream: every platform *)
(* ================================================================== *)

Lemma count_app (p : Event -> bool) (l1 l2 : list Event) :
  count p (l1 ++ l2) = (count p l1 + count p l2)%nat.
Proof. unfold count. rewrite filter_app, length_app. reflexivity. Qed.

Lemma count_cons (p : Event -> bool) (e : Event) (l : list Event) :
  count p (e :: l) = ((if p e then 1 else 0) + count p l)%nat.
Proof. unfold count. simpl. destruct (p e); reflexivity. Qed.

(** A poll is one lifecycle listing, whatever its outcome. *)
Lemma checkStreamHealth_counts (P : Platform) (auth : OAuth2Client)
  (broadcastId : jsstring) (w : World) :
  let evs := events P (checkStreamHealth auth broadcastId) w in
  count is_poll evs = 1%nat
  /\ count is_transition evs = 0%nat
  /\ count is_retry_delay evs = 0%nat.
Proof.
  unfold checkStreamHealth.
  rewrite events_bind, events_await, run_await.
  destruct (perform P (liveBroadcasts_list auth broadcastId) w)
    as [[e|[|broadcast bs]] w1]; try (repeat split; reflexivity).
  rewrite events_bind, events_await, run_await.
  destruct (perform P (liveStreams_list auth _) w1)
    as [[e|[|stream ss]] w2]; repeat split; reflexivity.
Qed.

(** The [try] block asks for at most two transitions and never polls. *)
Lemma transition_to_live_counts (P : Platform) (auth : OAuth2Client)
  (broadcastId : jsstring) (h : Start.health) (w : World) :
  let evs := events P (transition_to_live auth broadcastId h) w in
  count is_poll evs = 0%nat
  /\ (count is_transition evs <= 2)%nat
  /\ count is_retry_delay evs = 0%nat.
Proof.
  unfold transition_to_live, await.
  destruct (negb (jseqb (Start.broadcastStatus h) (js "testing")));
    cbn [bind events perform fst snd].
  - destruct (P (trace w) _ (liveBroadcasts_transition auth (js "testing")
                               broadcastId)) as [e|x];
      cbn [bind events perform fst snd]; [repeat split; auto|].
    destruct (P _ _ (liveBroadcasts_transition auth (js "live")
                       broadcastId)) as [e|y];
      cbn [bind events perform fst snd]; repeat split; auto.
  - destruct (P (trace w) _ (liveBroadcasts_transition auth (js "live")
                               broadcastId)) as [e|y];
      cbn [bind events perform fst snd]; repeat split; auto.
Qed.

(** One activation of [attemptTransition] on any platform: one poll, at
    most two transition requests, and then either nothing more or the
    retry delay followed by the recursive call. *)
Lemma attemptTransition_body_shape (P : Platform) (auth : OAuth2Client)
  (broadcastId : jsstring) (again : Task Start.result) (retryCount : Z)
  (w : World) :
  exists pre,
    count is_poll pre = 1%nat
    /\ (count is_transition pre <= 2)%nat
    /\ count is_retry_delay pre = 0%nat
    /\ (events P (attemptTransition_body auth broadcastId again retryCount) w
        = pre
        \/ ((retryCount <? MAX_RETRIES)%Z = true
            /\ exists w',
                 events P
                   (attemptTransition_body auth broadcastId again retryCount)
                   w
                 = pre ++ Ev (setTimeout DELAY_BETWEEN_RETRIES)
                          :: events P again w')).
Proof.
  unfold attemptTransition_body. rewrite events_bind.
  destruct (checkStreamHealth_counts P auth broadcastId w)
    as (Hp & Ht & Hd).
  destruct (run P (checkStreamHealth auth broadcastId) w) as [[e|h] w1].
  { eexists; repeat split; eauto; try lia. left. apply app_nil_r. }
  destruct (jseqb (Start.broadcastStatus h) (js "live")).
  { eexists; repeat split; eauto; try lia. left. apply app_nil_r. }
  destruct (negb (jseqb (Start.streamStatus h) (js "active"))).
  { eexists; repeat split; eauto; try lia. left. apply app_nil_r. }
  destruct (negb (is_good (Start.healthStatus h))).
  { eexists; repeat split; eauto; try lia. left. apply app_nil_r. }
  rewrite events_try_catch.
  destruct (transition_to_live_counts P auth broadcastId h w1)
    as (Hp' & Ht' & Hd').
  exists (events P (checkStreamHealth auth broadcastId) w
          ++ events P (transition_to_live auth broadcastId h) w1).
  rewrite !count_app.
  split; [lia|]. split; [lia|]. split; [lia|].
  destruct (run P (transition_to_live auth broadcastId h) w1)
    as [[e|r] w2].
  - destruct (retryCount <? MAX_RETRIES)%Z.
    + right. split; [reflexivity|].
      rewrite events_bind, events_await, run_await. cbn [perform].
      eexists. rewrite <- app_assoc. reflexivity.
    + left. cbn [events]. rewrite app_nil_r. reflexivity.
  - left. rewrite app_nil_r. reflexivity.
Qed.

Lemma attemptTransition_from_bounded (P : Platform) (auth : OAuth2Client)
  (broadcastId : jsstring) :
  forall (n : nat) (retryCount : Z) (w : World),
    (retryCount + Z.of_nat n = MAX_RETRIES)%Z ->
    let evs := events P (attemptTransition_from n auth broadcastId
                           retryCount) w in
    (count is_poll evs <= S n)%nat
    /\ (count is_transition evs <= 2 * S n)%nat
    /\ (count is_retry_delay evs <= n)%nat.
Proof.
  induction n as [|n IH]; intros retryCount w Hn; cbn zeta;
    cbn [attemptTransition_from].
  - destruct (attemptTransition_body_shape P auth broadcastId
                (Throw (Error (js "unreachable"))) retryCount w)
      as (pre & Hp & Ht & Hd & [Hev|[Hlt _]]).
    + rewrite Hev. lia.
    + apply Z.ltb_lt in Hlt. lia.
  - destruct (attemptTransition_body_shape P auth broadcastId
                (attemptTransition_from n auth broadcastId (retryCount + 1))
                retryCount w)
      as (pre & Hp & Ht & Hd & [Hev|[_ [w' Hev]]]); rewrite Hev.
    + lia.
    + rewrite !count_app, !count_cons.
      destruct (IH (retryCount + 1)%Z w') as (IHp & IHt & IHd); [lia|].
      cbn zeta in IHp, IHt, IHd.
      change (is_poll (Ev (setTimeout DELAY_BETWEEN_RETRIES))) with false.
      change (is_transition (Ev (setTimeout DELAY_BETWEEN_RETRIES)))
        with false.
      change (is_retry_delay (Ev (setTimeout DELAY_BETWEEN_RETRIES)))
        with true.
      cbv iota. lia.
Qed.

(** The operations of /start-stream are the loading of the academy and
    of the client, then at most those of [attemptTransition()]. *)
Lemma start_stream_events_shape (P : Platform) (w : World)
  (b : Start.body) :
  exists pre,
    count is_poll pre = 0%nat /\ count is_transition pre = 0%nat
    /\ count is_retry_delay pre = 0%nat
    /\ (events P (start_stream b) w = pre
        \/ exists client w1,
             events P (start_stream b) w
             = pre ++ events P (attemptTransition client
                                  (Start.broadcastId b) 0) w1).
Proof.
  unfold start_stream.
  rewrite events_try_catch, events_bind, events_await, run_bind, run_await.
  cbn [perform fst snd].
  destruct (find (is_academy (Start.academyId b)) (academies w))
    as [academy|]; cbn [run events app].
  2: { exists [Ev (Academy_findOne (Start.academyId b))].
       repeat split. left. reflexivity. }
  rewrite events_bind, run_bind.
  assert (Hc : exists pre,
             events P (channel_client (Start.isCompanyChannel b) academy)
               (record_event (Ev (Academy_findOne (Start.academyId b))) w)
             = pre
             /\ count is_poll pre = 0%nat /\ count is_transition pre = 0%nat
             /\ count is_retry_delay pre = 0%nat).
  { eexists. split; [reflexivity|].
    destruct (Start.isCompanyChannel b); [|repeat split; reflexivity].
    unfold channel_client, getCompanyOAuthClient; simpl.
    destruct (hd_error (companies w)) as [[n [t|]]|];
      repeat split; reflexivity. }
  destruct Hc as (pre & Hpre & Hp & Ht & Hd). rewrite Hpre.
  destruct (run P (channel_client _ academy) _) as [[e|client] w1];
    cbn [fst snd].
  - exists (Ev (Academy_findOne (Start.academyId b)) :: pre).
    rewrite !count_cons. cbn [is_poll is_transition is_retry_delay].
    repeat split; try lia. left.
    unfold checkStreamHealth_in_catch. cbn [bind try_catch run events].
    rewrite !app_nil_r. reflexivity.
  - exists (Ev (Academy_findOne (Start.academyId b)) :: pre).
    rewrite !count_cons. cbn [is_poll is_transition is_retry_delay].
    repeat split; try lia. right. exists client, w1.
    rewrite events_bind, run_bind.
    destruct (run P (attemptTransition client _ 0) w1) as [[e|r] w2];
      unfold checkStreamHealth_in_catch;
      cbn [bind try_catch run events fst snd];
      rewrite ?app_nil_r, <- ?app_assoc; reflexivity.
Qed.

(** X1.  Whatever the platform answers, /start-stream polls at most
    [MAX_RETRIES + 1] times, asks for at most two transitions per poll,
    and pauses at most [MAX_RETRIES] times before a retry. *)
Theorem start_stream_bounded (P : Platform) (w : World) (b : Start.body) :
  let evs := events P (start_stream b) w in
  (count is_poll evs <= Z.to_nat (MAX_RETRIES + 1))%nat
  /\ (count is_transition evs <= 2 * Z.to_nat (MAX_RETRIES + 1))%nat
  /\ (count is_retry_delay evs <= Z.to_nat MAX_RETRIES)%nat.
Proof.
  cbn zeta.
  destruct (start_stream_events_shape P w b)
    as (pre & Hp & Ht & Hd & [Hev|(client & w1 & Hev)]); rewrite Hev.
  - rewrite Hp, Ht, Hd. lia.
  - rewrite !count_app, Hp, Ht, Hd.
    destruct (attemptTransition_from_bounded P client (Start.broadcastId b)
                (Z.to_nat (MAX_RETRIES - 0)) 0%Z w1)
      as (Hp' & Ht' & Hd'); [reflexivity|].
    cbn zeta in Hp', Ht', Hd'.
    fold (attemptTransition client (Start.broadcastId b) 0) in Hp', Ht', Hd'.
    change (Z.to_nat (MAX_RETRIES - 0)) with 3%nat in Hp', Ht', Hd'.
    change (Z.to_nat (MAX_RETRIES + 1)) with 4%nat.
    change (Z.to_nat MAX_RETRIES) with 3%nat.
    lia.
Qed.

(** The first poll decides [attemptTransition] when the broadcast is
    live already or the stream is active but not healthy. *)
Lemma attemptTransition_first_poll (P : Platform) (auth : OAuth2Client)
  (broadcastId : jsstring) (retryCount : Z) (w w' : World)
  (h : Start.health) :
  run P (checkStreamHealth auth broadcastId) w = (inr h, w') ->
  events P (attemptTransition auth broadcastId retryCount) w
  = events P (checkStreamHealth auth broadcastId) w
    ++ (if jseqb (Start.broadcastStatus h) (js "live") then []
        else if negb (jseqb (Start.streamStatus h) (js "active")) then []
        else if negb (is_good (Start.healthStatus h)) then []
        else events P
               (try_catch (transition_to_live auth broadcastId h)
                  (fun error =>
                     if (retryCount <? MAX_RETRIES)%Z
                     then (await (setTimeout DELAY_BETWEEN_RETRIES) ;;;
                           attemptTransition auth broadcastId
                             (retryCount + 1))
                     else Throw error)) w')
  /\ run P (attemptTransition auth broadcastId retryCount) w
     = (if jseqb (Start.broadcastStatus h) (js "live") then
          (inr {| Start.message := js "Broadcast is already live";
                  Start.status := Start.broadcastStatus h |}, w')
        else if negb (jseqb (Start.streamStatus h) (js "active")) then
          (inl (Error (js "Stream is not active. Current status: "
                         ++ Start.streamStatus h)), w')
        else if negb (is_good (Start.healthStatus h)) then
          (inl (Error (js "Stream health is not good. Current health: "
                         ++ show_opt (Start.healthStatus h))), w')
        else run P
               (try_catch (transition_to_live auth broadcastId h)
                  (fun error =>
                     if (retryCount <? MAX_RETRIES)%Z
                     then (await (setTimeout DELAY_BETWEEN_RETRIES) ;;;
                           attemptTransition auth broadcastId
                             (retryCount + 1))
                     else Throw error)) w').
Proof.
  intros Hrun. rewrite attemptTransition_unfold.
  unfold attemptTransition_body. rewrite run_bind, events_bind, Hrun.
  destruct (jseqb (Start.broadcastStatus h) (js "live"));
    [split; reflexivity|].
  destruct (negb (jseqb (Start.streamStatus h) (js "active")));
    [split; reflexivity|].
  destruct (negb (is_good (Start.healthStatus h))); split; reflexivity.
Qed.

(** X2.  A broadcast that the poll finds live is left alone: /start-stream
    answers that it is already live, having asked for no transition and
    waited for nothing. *)
Theorem start_stream_already_live (P : Platform) (w w1 w2 : World)
  (b : Start.body) (academy : Academy.t) (client : OAuth2Client)
  (h : Start.health) :
  find (is_academy (Start.academyId b)) (academies w) = Some academy ->
  run P (channel_client (Start.isCompanyChannel b) academy)
    (final P (await (Academy_findOne (Start.academyId b))) w)
  = (inr client, w1) ->
  run P (checkStreamHealth client (Start.broadcastId b)) w1 = (inr h, w2) ->
  Start.broadcastStatus h = js "live" ->
  result P (start_stream b) w
  = inr (Start.ok {| Start.message := js "Broadcast is already live";
                     Start.status := js "live" |})
  /\ events P (start_stream b) w
     = Ev (Academy_findOne (Start.academyId b))
       :: events P (channel_client (Start.isCompanyChannel b) academy)
            (final P (await (Academy_findOne (Start.academyId b))) w)
       ++ events P (checkStreamHealth client (Start.broadcastId b)) w1
  /\ existsb is_transition (events P (start_stream b) w) = false.
Proof.
  intros Hfind Hclient Hpoll Hlive.
  destruct (@start_stream_run P w w1 b academy client Hfind Hclient)
    as [Hres Hev].
  destruct (@attemptTransition_first_poll P client (Start.broadcastId b) 0
              w1 w2 h Hpoll) as [Hev' Hrun].
  rewrite Hlive in Hev', Hrun. rewrite jseqb_refl in Hev', Hrun.
  rewrite app_nil_r in Hev'.
  rewrite Hres, Hev. unfold result. rewrite Hrun, Hev'. cbn [fst].
  split; [reflexivity|]. split; [reflexivity|].
  cbn [existsb is_transition]. rewrite existsb_app.
  rewrite channel_client_no_transition, checkStreamHealth_no_transition.
  reflexivity.
Qed.

(** X3.  An active stream whose health is not "good" is not promoted:
    /start-stream answers with the failure that names the health, and
    asks for no transition. *)
Theorem start_stream_unhealthy (P : Platform) (w w1 w2 : World)
  (b : Start.body) (academy : Academy.t) (client : OAuth2Client)
  (h : Start.health) :
  find (is_academy (Start.academyId b)) (academies w) = Some academy ->
  run P (channel_client (Start.isCompanyChannel b) academy)
    (final P (await (Academy_findOne (Start.academyId b))) w)
  = (inr client, w1) ->
  run P (checkStreamHealth client (Start.broadcastId b)) w1 = (inr h, w2) ->
  Start.broadcastStatus h <> js "live" ->
  Start.streamStatus h = js "active" ->
  Start.healthStatus h <> Some (js "good") ->
  result P (start_stream b) w
  = inr (Start.failed_without_status
           (js "Stream health is not good. Current health: "
              ++ show_opt (Start.healthStatus h))
           (js "Could not fetch final status"))
  /\ existsb is_transition (events P (start_stream b) w) = false.
Proof.
  intros Hfind Hclient Hpoll Hlive Hactive Hgood.
  destruct (@start_stream_run P w w1 b academy client Hfind Hclient)
    as [Hres Hev].
  destruct (@attemptTransition_first_poll P client (Start.broadcastId b) 0
              w1 w2 h Hpoll) as [Hev' Hrun].
  apply jseqb_neq in Hlive. rewrite Hlive, Hactive, jseqb_refl in Hev', Hrun.
  assert (Hg : is_good (Start.healthStatus h) = false).
  { destruct (is_good (Start.healthStatus h)) eqn:Hg; [|reflexivity].
    apply is_good_iff in Hg. contradiction. }
  rewrite Hg in Hev', Hrun. cbn [negb] in Hev', Hrun.
  rewrite app_nil_r in Hev'.
  rewrite Hres, Hev. unfold result. rewrite Hrun, Hev'. cbn [fst message].
  split; [reflexivity|].
  cbn [existsb is_transition]. rewrite existsb_app.
  rewrite channel_client_no_transition, checkStreamHealth_no_transition.
  reflexivity.
Qed.

(** X4.  The way to live: from "testing" one transition request; from any
    other state the transition to "testing", the pause, then the
    transition to "live".  The response carries the lifecycle state the
    platform returned for the last request. *)
Theorem start_stream_goes_live (P : Platform) (w w1 w2 : World)
  (b : Start.body) (academy : Academy.t) (client : OAuth2Client)
  (h : Start.health) (r : LiveBroadcast.t) :
  let id := Start.broadcastId b in
  let testing := liveBroadcasts_transition client (js "testing") id in
  let live := liveBroadcasts_transition client (js "live") id in
  let before :=
    Ev (Academy_findOne (Start.academyId b))
    :: events P (channel_client (Start.isCompanyChannel b) academy)
         (final P (await (Academy_findOne (Start.academyId b))) w)
    ++ events P (checkStreamHealth client id) w1 in
  let started :=
    inr (Start.ok {| Start.message := js "Stream started successfully";
                     Start.status := LiveBroadcast.lifeCycleStatus r |}) in
  find (is_academy (Start.academyId b)) (academies w) = Some academy ->
  run P (channel_client (Start.isCompanyChannel b) academy)
    (final P (await (Academy_findOne (Start.academyId b))) w)
  = (inr client, w1) ->
  run P (checkStreamHealth client id) w1 = (inr h, w2) ->
  checks_pass h ->
  (Start.broadcastStatus h = js "testing" ->
   P (trace w2) _ live = inr r ->
   result P (start_stream b) w = started
   /\ events P (start_stream b) w = before ++ [Ev live])
  /\ (Start.broadcastStatus h <> js "testing" ->
      forall x,
        P (trace w2) _ testing = inr x ->
        P (trace w2 ++ [Ev testing; Ev (setTimeout TESTING_SETTLE)]) _ live
        = inr r ->
        result P (start_stream b) w = started
        /\ events P (start_stream b) w
           = before ++ [Ev testing; Ev (setTimeout TESTING_SETTLE); Ev live]).
Proof.
  intros id testing live before started Hfind Hclient Hpoll
    (Hlive & Hactive & Hgood).
  subst id testing live before started.
  destruct (@start_stream_run P w w1 b academy client Hfind Hclient)
    as [Hres Hev].
  destruct (@attemptTransition_first_poll P client (Start.broadcastId b) 0
              w1 w2 h Hpoll) as [Hev' Hrun].
  apply jseqb_neq in Hlive. apply is_good_iff in Hgood.
  rewrite Hlive, Hactive, jseqb_refl, Hgood in Hev', Hrun.
  cbn [negb] in Hev', Hrun.
  rewrite Hres, Hev. unfold result. rewrite Hrun, Hev'. clear Hrun Hev'.
  unfold transition_to_live, await.
  split.
  - intros Htesting Hok. rewrite Htesting, jseqb_refl.
    cbn [negb bind try_catch run events perform fst snd].
    rewrite Hok. cbn [bind try_catch run events fst snd app].
    rewrite ?app_nil_r, <- ?app_assoc. split; reflexivity.
  - intros Htesting x Hx Hok. apply jseqb_neq in Htesting.
    rewrite Htesting.
    cbn [negb bind try_catch run events perform fst snd record_event trace].
    rewrite Hx.
    cbn [negb bind try_catch run events perform fst snd record_event trace].
    rewrite <- (app_assoc (trace w2)). cbn [app]. rewrite Hok.
    cbn [bind try_catch run events fst snd app].
    rewrite ?app_nil_r, <- ?app_assoc. split; reflexivity.
Qed.

(** X5.  /start-stream reaches the platform only with an academy and a
    client: an unknown academy is answered 404 and a company without
    credentials with the failure, both without a remote request.  The
    academy's own credentials are not looked at: without them the poll
    is made unauthenticated. *)
Theorem start_stream_credentials (P : Platform) (w : World)
  (b : Start.body) :
  (find (is_academy (Start.academyId b)) (academies w) = None ->
   result P (start_stream b) w
   = inr (Start.not_found (js "Academy not found"))
   /\ events P (start_stream b) w
      = [Ev (Academy_findOne (Start.academyId b))])
  /\ (forall academy,
        find (is_academy (Start.academyId b)) (academies w) = Some academy ->
        Start.isCompanyChannel b = true ->
        (forall company tokens,
            hd_error (companies w) = Some company ->
            Company.youtubeTokens company <> Some tokens) ->
        result P (start_stream b) w
        = inr (Start.failed_without_status (js "Company not authenticated")
                 (js "Could not fetch final status"))
        /\ events P (start_stream b) w
           = [Ev (Academy_findOne (Start.academyId b)); Ev Company_findOne])
  /\ (forall academy,
        find (is_academy (Start.academyId b)) (academies w) = Some academy ->
        Start.isCompanyChannel b = false ->
        Academy.youtubeTokens academy = None ->
        exists rest,
          events P (start_stream b) w
          = [Ev (Academy_findOne (Start.academyId b));
             Ev (liveBroadcasts_list None (Start.broadcastId b))] ++ rest).
Proof.
  unfold result, start_stream.
  rewrite run_try_catch, events_try_catch, run_bind, events_bind,
    run_await, events_await.
  cbn [perform fst snd].
  split; [|split].
  - intros ->. split; reflexivity.
  - intros academy -> Hc Hno.
    rewrite run_bind, events_bind. rewrite Hc.
    unfold channel_client, getCompanyOAuthClient, await.
    cbn [bind run events perform fst snd companies record_event].
    destruct (hd_error (companies w)) as [[n [t|]]|] eqn:Hcompany;
      [exfalso; apply (Hno _ t eq_refl); reflexivity | |];
      unfold checkStreamHealth_in_catch;
      cbn [bind try_catch run events fst snd app]; split; reflexivity.
  - intros academy -> Hc Hno.
    rewrite run_bind, events_bind. rewrite Hc.
    unfold channel_client. rewrite Hno. cbn [run events app].
    rewrite events_bind, run_bind.
    rewrite attemptTransition_unfold. unfold attemptTransition_body.
    rewrite events_bind. unfold checkStreamHealth at 1.
    rewrite events_bind, events_await.
    eexists. cbn [app]. rewrite <- !app_assoc. cbn [app]. reflexivity.
Qed.

Lemma start_stream_already_live_witness :
  let P := Fixture.platform already_live in
  result P (start_stream start_company_b1) Fixture.world
  = inr (Start.ok {| Start.message := js "Broadcast is already live";
                     Start.status := js "live" |})
  /\ existsb is_transition
       (events P (start_stream start_company_b1) Fixture.world) = false.
Proof.
  intros P.
  destruct (@start_stream_already_live P Fixture.world
              (record_event (Ev Company_findOne)
                 (record_event (Ev (Academy_findOne (js "A1")))
                    Fixture.world))
              (final P (start_stream start_company_b1) Fixture.world)
              start_company_b1 Fixture.A1 (Some Fixture.companyTokens)
              {| Start.broadcastStatus := js "live";
                 Start.streamStatus := js "active";
                 Start.healthStatus := Some (js "good") |}
              eq_refl eq_refl eq_refl eq_refl) as (H1 & _ & H3).
  split; [exact H1 | exact H3].
Defined.

Lemma start_stream_unhealthy_witness :
  let P := Fixture.platform degraded in
  result P (start_stream start_company_b1) Fixture.world
  = inr (Start.failed_without_status
           (js "Stream health is not good. Current health: bad")
           (js "Could not fetch final status"))
  /\ existsb is_transition
       (events P (start_stream start_company_b1) Fixture.world) = false.
Proof.
  intros P.
  apply (@start_stream_unhealthy P Fixture.world
           (record_event (Ev Company_findOne)
              (record_event (Ev (Academy_findOne (js "A1"))) Fixture.world))
           (final P (start_stream start_company_b1) Fixture.world)
           start_company_b1 Fixture.A1 (Some Fixture.companyTokens)
           {| Start.broadcastStatus := js "ready";
              Start.streamStatus := js "active";
              Start.healthStatus := Some (js "bad") |}).
  - reflexivity.
  - reflexivity.
  - reflexivity.
  - discriminate.
  - reflexivity.
  - discriminate.
Defined.

Lemma start_stream_goes_live_witness :
  let c := Some Fixture.companyTokens in
  let polled :=
    [Ev (Academy_findOne (js "A1")); Ev Company_findOne;
     Ev (liveBroadcasts_list c (js "b1"));
     Ev (liveStreams_list c (Some (js "stream-1")))] in
  let started :=
    inr (Start.ok {| Start.message := js "Stream started successfully";
                     Start.status := js "live" |}) in
  (result (Fixture.platform in_testing) (start_stream start_company_b1)
     Fixture.world = started
   /\ events (Fixture.platform in_testing) (start_stream start_company_b1)
        Fixture.world
      = polled ++ [Ev (liveBroadcasts_transition c (js "live") (js "b1"))])
  /\ (result (Fixture.platform Fixture.healthy)
        (start_stream start_company_b1) Fixture.world = started
      /\ events (Fixture.platform Fixture.healthy)
           (start_stream start_company_b1) Fixture.world
         = polled
           ++ [Ev (liveBroadcasts_transition c (js "testing") (js "b1"));
               Ev (setTimeout 3000);
               Ev (liveBroadcasts_transition c (js "live") (js "b1"))]).
Proof.
  intros c polled started.
  assert (Ht : checks_pass {| Start.broadcastStatus := js "testing";
                              Start.streamStatus := js "active";
                              Start.healthStatus := Some (js "good") |})
    by (split; [discriminate | split; reflexivity]).
  assert (Hr : checks_pass {| Start.broadcastStatus := js "ready";
                              Start.streamStatus := js "active";
                              Start.healthStatus := Some (js "good") |})
    by (split; [discriminate | split; reflexivity]).
  split.
  - destruct (@start_stream_goes_live (Fixture.platform in_testing)
                Fixture.world
                (record_event (Ev Company_findOne)
                   (record_event (Ev (Academy_findOne (js "A1")))
                      Fixture.world))
                (record_event (Ev (liveStreams_list c (Some (js "stream-1"))))
                   (record_event (Ev (liveBroadcasts_list c (js "b1")))
                      (record_event (Ev Company_findOne)
                         (record_event (Ev (Academy_findOne (js "A1")))
                            Fixture.world))))
                start_company_b1 Fixture.A1 c
                {| Start.broadcastStatus := js "testing";
                   Start.streamStatus := js "active";
                   Start.healthStatus := Some (js "good") |}
                (Fixture.broadcast (js "b1") (js "U15 vs U17") (js "live"))
                eq_refl eq_refl eq_refl Ht) as [Htesting _].
    exact (Htesting eq_refl eq_refl).
  - destruct (@start_stream_goes_live (Fixture.platform Fixture.healthy)
                Fixture.world
                (record_event (Ev Company_findOne)
                   (record_event (Ev (Academy_findOne (js "A1")))
                      Fixture.world))
                (record_event (Ev (liveStreams_list c (Some (js "stream-1"))))
                   (record_event (Ev (liveBroadcasts_list c (js "b1")))
                      (record_event (Ev Company_findOne)
                         (record_event (Ev (Academy_findOne (js "A1")))
                            Fixture.world))))
                start_company_b1 Fixture.A1 c
                {| Start.broadcastStatus := js "ready";
                   Start.streamStatus := js "active";
                   Start.healthStatus := Some (js "good") |}
                (Fixture.broadcast (js "b1") (js "U15 vs U17") (js "live"))
                eq_refl eq_refl eq_refl Hr) as [_ Hother].
    eapply Hother; [discriminate | reflexivity | reflexivity].
Defined.

Lemma start_stream_credentials_witness :
  let P := Fixture.platform Fixture.healthy in
  (result P (start_stream start_company_b1)
     (with_academies [] Fixture.world)
   = inr (Start.not_found (js "Academy not found")))
  /\ (result P (start_stream start_company_b1)
        (with_companies [] Fixture.world)
      = inr (Start.failed_without_status (js "Company not authenticated")
               (js "Could not fetch final status"))
      /\ events P (start_stream start_company_b1)
           (with_companies [] Fixture.world)
         = [Ev (Academy_findOne (js "A1")); Ev Company_findOne])
  /\ exists rest,
       events P (start_stream start_academy_b1)
         (with_academies [A1_unauthenticated] Fixture.world)
       = [Ev (Academy_findOne (js "A1"));
          Ev (liveBroadcasts_list None (js "b1"))] ++ rest.
Proof.
  intros P. split; [|split].
  - destruct (start_stream_credentials P (with_academies [] Fixture.world)
                start_company_b1) as (H & _).
    exact (proj1 (H eq_refl)).
  - destruct (start_stream_credentials P (with_companies [] Fixture.world)
                start_company_b1) as (_ & H & _).
    apply (H Fixture.A1 eq_refl eq_refl).
    intros company tokens Hc. discriminate Hc.
  - destruct (start_stream_credentials P
                (with_academies [A1_unauthenticated] Fixture.world)
                start_academy_b1) as (_ & _ & H).
    exact (H A1_unauthenticated eq_refl eq_refl eq_refl).
Defined.

(* ================================================================== *)
(** ** What a handler may do *)
(* ================================================================== *)

Lemma only_events (q : Event -> bool) (P : Platform) A (t : Task A) :
  only q t -> forall w, forallb q (events P t w) = true.
Proof.
  induction t as [a|e|X op k IH]; intros Ht w; simpl; try reflexivity.
  destruct Ht as [Hq Hk]. rewrite Hq. simpl. apply IH, Hk.
Qed.

Lemma only_bind (q : Event -> bool) A B (t : Task A) (f : A -> Task B) :
  only q t -> (forall a, only q (f a)) -> only q (bind t f).
Proof.
  intros Ht Hf. induction t as [a|e|X op k IH]; simpl; auto.
  destruct Ht as [Hq Hk]. split; auto.
Qed.

Lemma only_try_catch (q : Event -> bool) A (t : Task A)
  (h : JsError -> Task A) :
  only q t -> (forall e, only q (h e)) -> only q (try_catch t h).
Proof.
  intros Ht Hh. induction t as [a|e|X op k IH]; simpl; auto.
  destruct Ht as [Hq Hk]. split; auto.
Qed.

Lemma only_await (q : Event -> bool) X (op : Op X) :
  q (Ev op) = true -> only q (await op).
Proof. intros Hq. split; [exact Hq|]. intros [e|x]; exact I. Qed.

Lemma only_weaken (q q' : Event -> bool) A (t : Task A) :
  (forall e, q e = true -> q' e = true) -> only q t -> only q' t.
Proof.
  intros Hqq. induction t as [a|e|X op k IH]; simpl; auto.
  intros [Hq Hk]. split; auto.
Qed.

Lemma forallb_no_write (evs : list Event) (q : Event -> bool) :
  (forall e, q e = true -> is_write e = false) ->
  forallb q evs = true -> existsb is_write evs = false.
Proof.
  intros Hq. induction evs as [|e evs IH]; simpl; [reflexivity|].
  intros H. apply andb_true_iff in H as [He Hevs].
  rewrite (Hq e He), IH by exact Hevs. reflexivity.
Qed.

Lemma is_lookup_no_write (e : Event) :
  is_lookup e = true -> is_write e = false.
Proof. destruct e as [X op]; destruct op; simpl; congruence. Qed.

Lemma is_start_op_no_write (id : jsstring) (e : Event) :
  is_start_op id e = true -> is_write e = false.
Proof. destruct e as [X op]; destruct op; simpl; congruence. Qed.

Lemma only_getCompanyOAuthClient (q : Event -> bool) :
  q (Ev Company_findOne) = true -> only q getCompanyOAuthClient.
Proof.
  intros Hq. unfold getCompanyOAuthClient.
  apply only_bind; [apply only_await, Hq|].
  intros [[n [t|]]|]; exact I.
Qed.

Lemma only_channel_client (q : Event -> bool) (c : bool)
  (academy : Academy.t) :
  q (Ev Company_findOne) = true -> only q (channel_client c academy).
Proof.
  intros Hq. unfold channel_client. destruct c; [|exact I].
  apply only_bind; [apply only_getCompanyOAuthClient, Hq|].
  intros t; exact I.
Qed.

Lemma only_checkStreamHealth (q : Event -> bool) (auth : OAuth2Client)
  (id : jsstring) :
  (forall e, is_lookup e = true -> q e = true) ->
  only q (checkStreamHealth auth id).
Proof.
  intros Hq. unfold checkStreamHealth.
  apply only_bind; [apply only_await, Hq; reflexivity|].
  intros [|broadcast bs]; [exact I|].
  apply only_bind; [apply only_await, Hq; reflexivity|].
  intros [|stream ss]; exact I.
Qed.

(** X6.  /check-stream-status only reads: the academy, the company, the
    broadcast and its stream.  It changes nothing, here or there. *)
Theorem check_stream_status_reads_only (P : Platform) (w : World)
  (q : CheckStatus.query) :
  forallb is_lookup (events P (check_stream_status q) w) = true
  /\ academies (final P (check_stream_status q) w) = academies w.
Proof.
  assert (H : forallb is_lookup (events P (check_stream_status q) w) = true).
  { apply only_events. unfold check_stream_status.
    apply only_try_catch; [|intros e; exact I].
    apply only_bind; [apply only_await; reflexivity|].
    intros [academy|]; [|exact I].
    apply only_bind; [apply only_channel_client; reflexivity|].
    intros client.
    apply only_bind; [apply only_await; reflexivity|].
    intros [|broadcast bs]; [exact I|].
    apply only_bind; [apply only_await; reflexivity|].
    intros [|stream ss]; exact I. }
  split; [exact H|].
  apply run_frame.
  exact (@forallb_no_write _ is_lookup is_lookup_no_write H).
Qed.

Lemma only_attemptTransition_from (auth : OAuth2Client) (id : jsstring) :
  forall (n : nat) (retryCount : Z),
    only (is_start_op id) (attemptTransition_from n auth id retryCount).
Proof.
  assert (Hlookup : forall e, is_lookup e = true -> is_start_op id e = true).
  { intros [X op]; destruct op; simpl; congruence. }
  assert (Hthrow : only (is_start_op id)
                     (@Throw Start.result (Error (js "unreachable"))))
    by exact I.
  assert (Hbody : forall again retryCount,
             only (is_start_op id) again ->
             only (is_start_op id)
               (attemptTransition_body auth id again retryCount)).
  { intros again retryCount Hagain. unfold attemptTransition_body.
    apply only_bind; [apply only_checkStreamHealth, Hlookup|].
    intros h.
    destruct (jseqb (Start.broadcastStatus h) (js "live")); [exact I|].
    destruct (negb (jseqb (Start.streamStatus h) (js "active")));
      [exact I|].
    destruct (negb (is_good (Start.healthStatus h))); [exact I|].
    apply only_try_catch.
    - unfold transition_to_live.
      apply only_bind.
      + destruct (negb (jseqb (Start.broadcastStatus h) (js "testing")));
          [|exact I].
        apply only_bind; [|intros _; apply only_await; reflexivity].
        apply only_await. simpl. rewrite jseqb_refl. reflexivity.
      + intros _. apply only_bind; [|intros r; exact I].
        apply only_await. simpl. rewrite jseqb_refl. reflexivity.
    - intros e. destruct (retryCount <? MAX_RETRIES)%Z; [|exact I].
      apply only_bind; [apply only_await; reflexivity|].
      intros _. exact Hagain. }
  induction n as [|n IH]; intros retryCount; cbn [attemptTransition_from];
    apply Hbody; auto.
Qed.

(** X7.  /start-stream only looks up, moves the broadcast it was asked
    about, to "testing" or to "live", and waits: it never creates,
    binds or completes a broadcast, never touches another broadcast, and
    leaves the academies as they were. *)
Theorem start_stream_touches_one_broadcast (P : Platform) (w : World)
  (b : Start.body) :
  forallb (is_start_op (Start.broadcastId b)) (events P (start_stream b) w)
  = true
  /\ academies (final P (start_stream b) w) = academies w.
Proof.
  assert (H : forallb (is_start_op (Start.broadcastId b))
                (events P (start_stream b) w) = true).
  { apply only_events. unfold start_stream.
    apply only_try_catch; [|intros e; exact I].
    apply only_bind; [apply only_await; reflexivity|].
    intros [academy|]; [|exact I].
    apply only_bind; [apply only_channel_client; reflexivity|].
    intros client.
    apply only_bind; [|intros r; exact I].
    apply only_attemptTransition_from. }
  split; [exact H|].
  apply run_frame.
  exact (@forallb_no_write _ (is_start_op (Start.broadcastId b))
           (is_start_op_no_write (Start.broadcastId b)) H).
Qed.

(* ================================================================== *)
(** ** /check-stream-status and /end-stream: every answer *)
(* ================================================================== *)

(** X8.  How /check-stream-status answers, by what the platform lists: an
    error of the platform is a 500 with its message, an empty listing
    of the broadcast or of its bound stream is a 404 (and the stream is
    not asked for when the broadcast is missing), and otherwise the
    report is built from the first broadcast and the first stream. *)
Theorem check_stream_status_answers (P : Platform) (w w1 : World)
  (q : CheckStatus.query) (academy : Academy.t) (client : OAuth2Client) :
  let loaded := Ev (Academy_findOne (CheckStatus.academyId q)) in
  let company :=
    match CheckStatus.isCompanyChannel q with
    | Some s => jseqb s (js "true")
    | None => false
    end in
  let askB := liveBroadcasts_list client (CheckStatus.broadcastId q) in
  let listedB := P (trace w1) _ askB in
  let response := result P (check_stream_status q) w in
  find (is_academy (CheckStatus.academyId q)) (academies w) = Some academy ->
  run P (channel_client company academy) (record_event loaded w)
  = (inr client, w1) ->
  (forall e, listedB = inl e ->
     response = inr (CheckStatus.error 500 (message e)))
  /\ (listedB = inr [] ->
      response = inr (CheckStatus.error 404 (js "Broadcast not found"))
      /\ events P (check_stream_status q) w
         = loaded :: events P (channel_client company academy)
                       (record_event loaded w) ++ [Ev askB])
  /\ (forall broadcast others,
        listedB = inr (broadcast :: others) ->
        let askS := liveStreams_list client
                      (LiveBroadcast.boundStreamId broadcast) in
        let listedS := P (trace w1 ++ [Ev askB]) _ askS in
        (forall e, listedS = inl e ->
           response = inr (CheckStatus.error 500 (message e)))
        /\ (listedS = inr [] ->
            response = inr (CheckStatus.error 404 (js "Stream not found")))
        /\ (forall stream others',
              listedS = inr (stream :: others') ->
              response
              = inr (CheckStatus.ok
                  {| CheckStatus.broadcastStatus :=
                       LiveBroadcast.lifeCycleStatus broadcast;
                     CheckStatus.streamStatus :=
                       LiveStream.streamStatus stream;
                     CheckStatus.healthStatus :=
                       LiveStream.healthStatus stream;
                     CheckStatus.isReadyToStart :=
                       isReadyToStart broadcast stream |}))).
Proof.
  intros loaded company askB listedB response Hdb Hclient.
  subst loaded askB listedB response. unfold result, check_stream_status.
  rewrite run_try_catch, events_try_catch, run_bind, events_bind,
    run_await, events_await.
  cbn [perform fst snd]. rewrite Hdb.
  fold company. rewrite run_bind, events_bind, Hclient.
  rewrite run_bind, events_bind, run_await, events_await.
  cbn [perform fst snd].
  destruct (P (trace w1) _ (liveBroadcasts_list client
                              (CheckStatus.broadcastId q)))
    as [e|[|broadcast others]] eqn:HlistB.
  - split; [|split]; try (intros; discriminate).
    intros e' H. injection H as <-. reflexivity.
  - split; [|split]; try (intros; discriminate).
    intros _. cbn [run events fst snd app].
    rewrite ?app_nil_r. split; reflexivity.
  - split; [|split]; try (intros; discriminate).
    intros b' o' H. injection H as <- <-. cbv zeta.
    rewrite run_bind, run_await. cbn [perform fst snd record_event trace].
    destruct (P (trace w1 ++ [Ev (liveBroadcasts_list client
                                    (CheckStatus.broadcastId q))]) _
                (liveStreams_list client
                   (LiveBroadcast.boundStreamId broadcast)))
      as [e|[|stream others']] eqn:HlistS;
      (split; [|split]); try (intros; discriminate).
    + intros e' H. injection H as <-. reflexivity.
    + intros _. reflexivity.
    + intros s' o' H. injection H as <- <-. reflexivity.
Qed.

(** X9.  The requests of /end-stream, whatever the platform answers and
    in whatever order its answers arrive: the two lookups, the two
    searches, the academy's first, then for each channel whose search
    was fulfilled the transition to "complete" of the first broadcast
    that matches, and nothing else.  Of two such transitions the first
    is that of the channel whose listing arrived first.  A failure on
    one channel removes none of the other channel's requests. *)
Theorem end_stream_requests (P : Platform) (w : World)
  (arrival : list bool) (rev : revision)
  (b : EndStream.body) (academy : Academy.t) (company : Company.t)
  (tokensA tokensC : Tokens) :
  let a := Some tokensA in
  let c := Some tokensC in
  let searchA := liveBroadcasts_list_active a in
  let searchC := liveBroadcasts_list_active c in
  let h := trace w ++ [Ev (Academy_findOne (EndStream.academyId b));
                       Ev Company_findOne] in
  let listedA := P h _ searchA in
  let listedC := P (h ++ [Ev searchA]) _ searchC in
  let matchesA := title_matches rev academy (EndStream.title b) false in
  let matchesC := title_matches rev academy (EndStream.title b) true in
  let endA := ending_request a matchesA listedA in
  let endC := ending_request c matchesC listedC in
  find (is_academy (EndStream.academyId b)) (academies w) = Some academy ->
  Academy.youtubeTokens academy = Some tokensA ->
  hd_error (companies w) = Some company ->
  Company.youtubeTokens company = Some tokensC ->
  events P (end_stream arrival rev b) w
  = [Ev (Academy_findOne (EndStream.academyId b)); Ev Company_findOne;
     Ev searchA; Ev searchC]
    ++ (if hd true arrival then endA ++ endC else endC ++ endA).
Proof.
  intros a c searchA searchC h listedA listedC matchesA matchesC endA endC
    Hdb Ha Hc Htc.
  destruct (@end_stream_run P w arrival rev b academy company tokensA
              tokensC Hdb Ha Hc Htc) as [_ Hev].
  cbv zeta in Hev. rewrite Hev. clear Hev.
  destruct (end_both_channels P
              (record_event (Ev Company_findOne)
                 (record_event
                    (Ev (Academy_findOne (EndStream.academyId b))) w))
              arrival rev academy (EndStream.title b) a c)
    as [Hall _].
  cbv zeta in Hall. cbn [record_event trace] in Hall.
  replace ((trace w ++ [Ev (Academy_findOne (EndStream.academyId b))])
           ++ [Ev Company_findOne]) with h in Hall
    by (subst h; rewrite <- app_assoc; reflexivity).
  fold a c. rewrite Hall. reflexivity.
Qed.

(** X10.  /end-stream without credentials: an unknown or unauthenticated
    academy is answered 400 after the one lookup, and a missing or
    unauthenticated company 500; in both cases no channel is searched
    and nothing is ended. *)
Theorem end_stream_unauthenticated (P : Platform) (w : World)
  (arrival : list bool) (rev : revision) (b : EndStream.body) :
  ((forall academy tokens,
       find (is_academy (EndStream.academyId b)) (academies w)
       = Some academy ->
       Academy.youtubeTokens academy <> Some tokens) ->
   result P (end_stream arrival rev b) w
   = inr (EndStream.error 400 (js "Academy not authenticated"))
   /\ events P (end_stream arrival rev b) w
      = [Ev (Academy_findOne (EndStream.academyId b))])
  /\ (forall academy tokens,
        find (is_academy (EndStream.academyId b)) (academies w)
        = Some academy ->
        Academy.youtubeTokens academy = Some tokens ->
        (forall company tokens',
            hd_error (companies w) = Some company ->
            Company.youtubeTokens company <> Some tokens') ->
        result P (end_stream arrival rev b) w
        = inr (EndStream.error 500 (js "Company not authenticated"))
        /\ events P (end_stream arrival rev b) w
           = [Ev (Academy_findOne (EndStream.academyId b));
              Ev Company_findOne]).
Proof.
  unfold result, end_stream.
  rewrite run_try_catch, events_try_catch, run_bind, events_bind,
    run_await, events_await.
  cbn [perform fst snd].
  split.
  - intros Hno.
    destruct (find (is_academy (EndStream.academyId b)) (academies w))
      as [academy|]; [|split; reflexivity].
    destruct (Academy.youtubeTokens academy) as [t|] eqn:Ht;
      [exfalso; apply (Hno academy t eq_refl Ht) | split; reflexivity].
  - intros academy tokens -> -> Hno.
    rewrite run_bind, events_bind.
    unfold getCompanyOAuthClient, await.
    cbn [bind run events perform fst snd companies record_event].
    destruct (hd_error (companies w)) as [[n [t|]]|] eqn:Hcompany;
      [exfalso; apply (Hno _ t eq_refl); reflexivity | |];
      cbn [bind try_catch run events fst snd app message];
      split; reflexivity.
Qed.

(* ================================================================== *)
(** ** Resolver and binder: every answer *)
(* ================================================================== *)

(** X11.  A remembered stream that no longer resolves is replaced: without a
    usable id the resolver does not ask for it, and when the listing of
    the remembered id is rejected or empty it goes on to create a
    stream; in both cases the new id overwrites the ground's field. *)
Theorem getExistingStream_recreates (P : Platform) (w : World)
  (auth : OAuth2Client) (academy : Academy.t) (groundId : jsstring)
  (c : bool) (ground : Ground.t) (s : LiveStream.t) :
  let t := getExistingStream auth academy groundId c in
  let ins := liveStreams_insert auth (new_stream_body academy ground c) in
  let upd := Academy_findOneAndUpdate (Academy.academyId academy) groundId
               (updateField c) (LiveStream.id s) in
  let stored := findOneAndUpdate (Academy.academyId academy) groundId
                  (updateField c) (LiveStream.id s) (academies w) in
  find_ground groundId academy = Some ground ->
  (truthy_opt (remembered_stream_id c ground) = false ->
   P (trace w) _ ins = inr s ->
   result P t w = inr (stream_info s)
   /\ events P t w = [Ev ins; Ev upd]
   /\ academies (final P t w) = stored)
  /\ (forall id,
        remembered_stream_id c ground = Some id -> truthy id = true ->
        let ask := liveStreams_list auth (Some id) in
        (P (trace w) _ ask = inr [] \/ exists e, P (trace w) _ ask = inl e) ->
        P (trace w ++ [Ev ask]) _ ins = inr s ->
        result P t w = inr (stream_info s)
        /\ events P t w = [Ev ask; Ev ins; Ev upd]
        /\ academies (final P t w) = stored).
Proof.
  intros t ins upd stored Hg. subst t ins upd stored.
  unfold result, final, getExistingStream, fetch_remembered. rewrite Hg.
  split.
  - intros Hfalsy Hins. rewrite Hfalsy.
    unfold await.
    cbn [bind run events perform fst snd record_event trace].
    rewrite Hins.
    cbn [bind run events perform fst snd record_event trace academies
         with_academies].
    repeat split; reflexivity.
  - intros id Hid Htruthy Hask Hins.
    rewrite Hid. cbn [truthy_opt]. rewrite Htruthy.
    unfold await.
    cbn [bind try_catch run events perform fst snd record_event trace].
    destruct Hask as [Hask|[e Hask]]; rewrite Hask;
      cbn [bind try_catch run events perform fst snd record_event trace];
      rewrite Hins;
      cbn [bind try_catch run events perform fst snd record_event trace
           academies with_academies];
      repeat split; reflexivity.
Qed.

(** X12.  The binder after the resolver: without a stream nothing is
    created; a broadcast that could not be created is not bound; and a
    created broadcast is bound, under its returned id, to the resolved
    stream.  When that bind is rejected the error is thrown and the
    created broadcast is left as it is. *)
Theorem createBroadcastAndBind_steps (P : Platform) (w : World)
  (flag : bool) (auth : OAuth2Client) (academy : Academy.t)
  (groundId title teamA teamB : jsstring) (c : bool)
  (startTime : option jsstring) :
  let resolve := getExistingStream auth academy groundId c in
  let t := createBroadcastAndBind flag auth academy groundId title teamA
             teamB c startTime in
  let w1 := final P resolve w in
  let date := Date_toISOString startTime in
  (forall e, result P resolve w = inl e ->
     result P t w = inl e /\ events P t w = events P resolve w)
  /\ (forall streamDetails iso,
        result P resolve w = inr streamDetails ->
        P (trace w1) _ date = inr iso ->
        let ins := liveBroadcasts_insert auth
                     (new_broadcast_body flag title teamA teamB iso
                        (StreamInfo.streamId streamDetails)) in
        let created := P (trace w1 ++ [Ev date]) _ ins in
        (forall e, created = inl e ->
           result P t w = inl e
           /\ events P t w = events P resolve w ++ [Ev date; Ev ins])
        /\ (forall broadcast,
              created = inr broadcast ->
              let bnd := liveBroadcasts_bind auth (LiveBroadcast.id broadcast)
                           (StreamInfo.streamId streamDetails) in
              let bound := P (trace w1 ++ [Ev date; Ev ins]) _ bnd in
              events P t w = events P resolve w ++ [Ev date; Ev ins; Ev bnd]
              /\ (forall e, bound = inl e -> result P t w = inl e)
              /\ (bound = inr tt ->
                  result P t w
                  = inr {| Bound.academyId := Academy.academyId academy;
                           Bound.groundId := groundId;
                           Bound.broadcastId := LiveBroadcast.id broadcast;
                           Bound.stream := streamDetails |}))).
Proof.
  intros resolve t w1 date. subst t w1 date.
  unfold result, final, createBroadcastAndBind. fold resolve.
  rewrite run_bind, events_bind.
  destruct (run P resolve w) as [[e0|sd] w1]; cbn [fst snd].
  - split; [|intros ? ? H; discriminate H].
    intros e H. injection H as <-. rewrite app_nil_r. split; reflexivity.
  - split; [intros ? H; discriminate H|].
    intros streamDetails iso H Hdate. injection H as <-.
    unfold await.
    cbn [bind run events perform fst snd record_event trace].
    rewrite Hdate.
    cbn [bind run events perform fst snd record_event trace].
    destruct (P (trace w1 ++ [Ev (Date_toISOString startTime)]) _
                (liveBroadcasts_insert auth _)) as [e|broadcast] eqn:Hins.
    + split; [|intros ? H; discriminate H].
      intros e' H. injection H as <-.
      cbn [bind run events perform fst snd]. split; reflexivity.
    + split; [intros ? H; discriminate H|].
      intros b' H. injection H as <-.
      cbn [bind run events perform fst snd record_event trace].
      rewrite <- !app_assoc. cbn [app].
      destruct (P _ _ (liveBroadcasts_bind auth _ _)) as [e|[]] eqn:Hbind;
        cbn [bind run events perform fst snd].
      * split; [reflexivity|]. split; [|intros H; discriminate H].
        intros e' H. injection H as <-. reflexivity.
      * split; [reflexivity|]. split; [intros ? H; discriminate H|].
        intros _. reflexivity.
Qed.

(* ================================================================== *)
(** ** /go-live-now: every answer *)
(* ================================================================== *)

(** X13.  /go-live-now before any remote request: an unknown or
    unauthenticated academy is answered 400, an unknown ground 500 with
    "Ground not found"; in both cases the lookup of the academy is the
    only operation. *)
Theorem go_live_now_rejects (P : Platform) (w : World) (flag : bool)
  (b : GoLive.body) :
  ((forall academy tokens,
       find (is_academy (GoLive.academyId b)) (academies w) = Some academy ->
       Academy.youtubeTokens academy <> Some tokens) ->
   result P (go_live_now flag b) w
   = inr (GoLive.failure 400 (js "Academy not authenticated"))
   /\ events P (go_live_now flag b) w
      = [Ev (Academy_findOne (GoLive.academyId b))])
  /\ (forall academy tokens,
        find (is_academy (GoLive.academyId b)) (academies w) = Some academy ->
        Academy.youtubeTokens academy = Some tokens ->
        find_ground (GoLive.groundId b) academy = None ->
        result P (go_live_now flag b) w
        = inr (GoLive.failure 500 (js "Ground not found"))
        /\ events P (go_live_now flag b) w
           = [Ev (Academy_findOne (GoLive.academyId b))]).
Proof.
  split.
  - intros Hno. unfold result, go_live_now.
    rewrite run_try_catch, events_try_catch, run_bind, events_bind,
      run_await, events_await.
    cbn [perform fst snd].
    destruct (find (is_academy (GoLive.academyId b)) (academies w))
      as [academy|]; [|split; reflexivity].
    destruct (Academy.youtubeTokens academy) as [t|] eqn:Ht;
      [exfalso; apply (Hno academy t eq_refl Ht) | split; reflexivity].
  - intros academy tokens Hdb Ht Hg.
    destruct (@go_live_now_run P w flag b academy tokens Hdb Ht)
      as [Hrun Hev].
    cbv zeta in Hrun, Hev. unfold result. rewrite Hrun, Hev.
    unfold academy_subflow, createBroadcastAndBind, getExistingStream.
    rewrite Hg. cbn [bind run events fst snd app message]. split; reflexivity.
Qed.

Lemma find_after_update (db : list Academy.t) (academy : Academy.t)
  (academyId groundId v : jsstring) (field : StreamIdField)
  (ground : Ground.t) :
  find (is_academy academyId) db = Some academy ->
  find_ground groundId academy = Some ground ->
  let academy' :=
    with_grounds
      (update_first (is_ground groundId) (set_stream_id field v)
         (Academy.grounds academy)) academy in
  find (is_academy academyId)
    (findOneAndUpdate academyId groundId field v db) = Some academy'
  /\ find_ground groundId academy' = Some (set_stream_id field v ground).
Proof.
  intros Hdb Hg. unfold find_ground in Hg. cbv zeta. split.
  - unfold findOneAndUpdate.
    apply (find_update_first (is_academy academyId)
             (is_academy_with_ground academyId groundId)
             (fun a => with_grounds
                         (update_first (is_ground groundId)
                            (set_stream_id field v)
                            (Academy.grounds a)) a)).
    + intros x Hx. apply andb_true_iff in Hx. tauto.
    + intros x. reflexivity.
    + exact Hdb.
    + unfold is_academy_with_ground.
      apply find_some in Hdb. destruct Hdb as [_ Hdb]. rewrite Hdb.
      rewrite (find_existsb _ _ Hg). reflexivity.
  - unfold find_ground. cbn [with_grounds Academy.grounds].
    apply (find_update_first (is_ground groundId) (is_ground groundId)).
    + auto.
    + intros x. apply is_ground_set_stream_id.
    + exact Hg.
    + apply find_some in Hg. tauto.
Qed.

(** One run of the binder on a ground without a usable remembered id,
    against a platform that serves creation. *)
Lemma createBroadcastAndBind_fresh (P : Platform) (w : World) (flag : bool)
  (auth : OAuth2Client) (academy : Academy.t)
  (groundId title teamA teamB : jsstring) (c : bool)
  (startTime : option jsstring) (ground : Ground.t) :
  serves_creation P ->
  find_ground groundId academy = Some ground ->
  truthy_opt (remembered_stream_id c ground) = false ->
  let t := createBroadcastAndBind flag auth academy groundId title teamA
             teamB c startTime in
  exists r,
    result P t w = inr r
    /\ academies (final P t w)
       = findOneAndUpdate (Academy.academyId academy) groundId
           (updateField c) (StreamInfo.streamId (Bound.stream r))
           (academies w)
    /\ companies (final P t w) = companies w
    /\ count is_stream_insert (events P t w) = 1%nat
    /\ count is_broadcast_insert (events P t w) = 1%nat
    /\ count is_bind (events P t w) = 1%nat
    /\ count is_write (events P t w) = 1%nat.
Proof.
  intros (HinsS & HinsB & Hbind & Hdate) Hg Hfalsy t. subst t.
  unfold result, final, createBroadcastAndBind, getExistingStream,
    fetch_remembered.
  rewrite Hg, Hfalsy. unfold await.
  cbn [bind run events perform fst snd record_event trace].
  destruct (HinsS (trace w) auth (new_stream_body academy ground c))
    as [s Hs].
  rewrite Hs.
  cbn [bind run events perform fst snd record_event trace academies
       with_academies].
  destruct (Hdate ((trace w ++ [Ev (liveStreams_insert auth
                                      (new_stream_body academy ground c))])
                   ++ [Ev (Academy_findOneAndUpdate
                             (Academy.academyId academy) groundId
                             (updateField c) (LiveStream.id s))])
              startTime) as [iso Hiso].
  rewrite Hiso.
  cbn [bind run events perform fst snd record_event trace academies
       with_academies].
  match goal with
  | |- context [P ?h _ (liveBroadcasts_insert auth ?body)] =>
      destruct (HinsB h auth body) as [br Hbr]; rewrite Hbr
  end.
  cbn [bind run events perform fst snd record_event trace academies
       with_academies].
  rewrite Hbind.
  cbn [bind run events perform fst snd record_event trace academies
       with_academies companies].
  eexists. repeat split.
Qed.

(** X14.  The end-to-end run on a fresh ground: against a platform that
    serves creation, /go-live-now for an authenticated academy and
    company and a ground without remembered streams creates one stream
    and one broadcast per channel, binds each pair, answers with the two
    results, and leaves both new stream ids on the ground, whose other
    fields are as before. *)
Theorem go_live_now_fresh_ground (P : Platform) (w : World) (flag : bool)
  (b : GoLive.body) (academy : Academy.t) (tokens tokensC : Tokens)
  (company : Company.t) (ground : Ground.t) :
  serves_creation P ->
  find (is_academy (GoLive.academyId b)) (academies w) = Some academy ->
  Academy.youtubeTokens academy = Some tokens ->
  hd_error (companies w) = Some company ->
  Company.youtubeTokens company = Some tokensC ->
  find_ground (GoLive.groundId b) academy = Some ground ->
  truthy_opt (Ground.academyStreamId ground) = false ->
  truthy_opt (Ground.companyStreamId ground) = false ->
  let evs := events P (go_live_now flag b) w in
  exists academyStream companyStream academy' ground',
    result P (go_live_now flag b) w
    = inr (GoLive.success academyStream companyStream)
    /\ find (is_academy (GoLive.academyId b))
         (academies (final P (go_live_now flag b) w)) = Some academy'
    /\ find_ground (GoLive.groundId b) academy' = Some ground'
    /\ Ground.academyStreamId ground'
       = Some (StreamInfo.streamId (Bound.stream academyStream))
    /\ Ground.companyStreamId ground'
       = Some (StreamInfo.streamId (Bound.stream companyStream))
    /\ Ground.title ground' = Ground.title ground
    /\ Ground.streamKey ground' = Ground.streamKey ground
    /\ count is_stream_insert evs = 2%nat
    /\ count is_broadcast_insert evs = 2%nat
    /\ count is_bind evs = 2%nat
    /\ count is_write evs = 2%nat.
Proof.
  intros Hserves Hdb Ht Hc Htc Hg HfalsyA HfalsyC evs. subst evs.
  destruct (@go_live_now_run P w flag b academy tokens Hdb Ht)
    as [Hrun Hev].
  cbv zeta in Hrun, Hev.
  set (w0 := record_event (Ev (Academy_findOne (GoLive.academyId b))) w)
    in *.
  destruct (@createBroadcastAndBind_fresh P w0 flag
              (Academy.youtubeTokens academy) academy (GoLive.groundId b)
              (GoLive.title b) (GoLive.teamA b) (GoLive.teamB b) false
              (GoLive.startTime b) ground Hserves Hg HfalsyA)
    as (ra & HresA & HdbA & HcoA & HsA & HbA & HnA & HwA).
  fold (academy_subflow flag academy b) in HresA, HdbA, HcoA, HsA, HbA,
    HnA, HwA.
  unfold result, final in *.
  destruct (run P (academy_subflow flag academy b) w0) as [r1 w1].
  cbn [fst snd] in HresA, HdbA, HcoA. subst r1.
  assert (Hc1 : hd_error (companies w1) = Some company)
    by (rewrite HcoA; exact Hc).
  destruct (@getCompanyOAuthClient_run P w1 company tokensC Hc1 Htc)
    as [HrunC HevC].
  destruct (@createBroadcastAndBind_fresh P
              (record_event (Ev Company_findOne) w1) flag
              (Some tokensC) academy (GoLive.groundId b)
              (GoLive.title b) (GoLive.teamA b) (GoLive.teamB b) true
              (GoLive.startTime b) ground Hserves Hg HfalsyC)
    as (rc & HresC & HdbC & _ & HsC & HbC & HnC & HwC).
  unfold result, final in *.
  assert (HrunCo :
            run P (company_subflow flag academy b) w1
            = run P (createBroadcastAndBind flag (Some tokensC) academy
                       (GoLive.groundId b) (GoLive.title b) (GoLive.teamA b)
                       (GoLive.teamB b) true (GoLive.startTime b))
                (record_event (Ev Company_findOne) w1)).
  { unfold company_subflow. rewrite run_bind, HrunC. reflexivity. }
  assert (HevCo :
            events P (company_subflow flag academy b) w1
            = Ev Company_findOne
              :: events P (createBroadcastAndBind flag (Some tokensC) academy
                             (GoLive.groundId b) (GoLive.title b)
                             (GoLive.teamA b) (GoLive.teamB b) true
                             (GoLive.startTime b))
                   (record_event (Ev Company_findOne) w1)).
  { unfold company_subflow. rewrite events_bind, HrunC, HevC. reflexivity. }
  rewrite HrunCo, HevCo in *. clear HrunCo HevCo.
  destruct (run P (createBroadcastAndBind flag (Some tokensC) academy _ _ _ _
                     true _) _) as [r2 w2].
  cbn [fst snd] in HresC, HdbC. subst r2.
  cbn [academies record_event] in HdbC.
  rewrite Hrun, Hev. cbn [fst snd].
  assert (Hid : Academy.academyId academy = GoLive.academyId b).
  { apply find_some in Hdb. destruct Hdb as [_ Hdb].
    apply jseqb_eq in Hdb. exact Hdb. }
  rewrite Hid in HdbA, HdbC.
  assert (Hdb0 : academies w0 = academies w) by reflexivity.
  rewrite Hdb0 in HdbA.
  destruct (@find_after_update (academies w) academy (GoLive.academyId b)
              (GoLive.groundId b)
              (StreamInfo.streamId (Bound.stream ra)) academyStreamIdField
              ground Hdb Hg) as [Hdb1 Hg1].
  cbv zeta in Hdb1, Hg1. change (updateField false) with academyStreamIdField
    in HdbA.
  rewrite <- HdbA in Hdb1.
  destruct (@find_after_update (academies w1) _ (GoLive.academyId b)
              (GoLive.groundId b)
              (StreamInfo.streamId (Bound.stream rc)) companyStreamIdField
              _ Hdb1 Hg1) as [Hdb2 Hg2].
  cbv zeta in Hdb2, Hg2. change (updateField true) with companyStreamIdField
    in HdbC.
  rewrite <- HdbC in Hdb2.
  eexists ra, rc, _, _.
  split; [reflexivity|]. split; [exact Hdb2|]. split; [exact Hg2|].
  split; [reflexivity|]. split; [reflexivity|].
  split; [reflexivity|]. split; [reflexivity|].
  rewrite !count_cons, !count_app, !count_cons.
  cbn [is_stream_insert is_broadcast_insert is_bind is_write].
  rewrite HsA, HbA, HnA, HwA, HsC, HbC, HnC, HwC. repeat split.
Qed.

Lemma getExistingStream_writes (P : Platform) (w : World)
  (auth : OAuth2Client) (academy : Academy.t) (groundId : jsstring)
  (c : bool) :
  let writes :=
    filter is_write (events P (getExistingStream auth academy groundId c) w)
  in
  writes = []
  \/ exists v,
       writes = [Ev (Academy_findOneAndUpdate (Academy.academyId academy)
                       groundId (updateField c) v)].
Proof.
  cbv zeta.
  destruct (getExistingStream_outcome P w auth academy groundId c)
    as [(_ & _ & Hev)
       |(ground & _ &
         [(id & s & others & _ & _ & _ & _ & Hev)
         |(pre & w1 & _ & Hw & _ &
           [(e & _ & Hev)|(s & _ & Hev)])])];
    cbv zeta in Hev; rewrite Hev; try (left; reflexivity).
  - left. rewrite filter_app, (filter_none _ _ Hw). reflexivity.
  - right. rewrite filter_app, (filter_none _ _ Hw).
    eexists. reflexivity.
Qed.

Lemma createBroadcastAndBind_writes (P : Platform) (w : World)
  (flag : bool) (auth : OAuth2Client) (academy : Academy.t)
  (groundId title teamA teamB : jsstring) (c : bool)
  (startTime : option jsstring) :
  let writes :=
    filter is_write
      (events P (createBroadcastAndBind flag auth academy groundId title
                   teamA teamB c startTime) w) in
  writes = []
  \/ exists v,
       writes = [Ev (Academy_findOneAndUpdate (Academy.academyId academy)
                       groundId (updateField c) v)].
Proof.
  cbv zeta. unfold createBroadcastAndBind.
  rewrite events_bind, filter_app.
  assert (Htail :
            filter is_write
              (let (r, w') := run P (getExistingStream auth academy groundId c)
                                w in
               match r with
               | inl _ => []
               | inr sd =>
                   events P
                     (scheduledStartTime <- await (Date_toISOString startTime) ;;
                      broadcastResponse <-
                        await (liveBroadcasts_insert auth
                                 (new_broadcast_body flag title teamA teamB
                                    scheduledStartTime
                                    (StreamInfo.streamId sd))) ;;
                      await (liveBroadcasts_bind auth
                               (LiveBroadcast.id broadcastResponse)
                               (StreamInfo.streamId sd)) ;;;
                      Return {| Bound.academyId := Academy.academyId academy;
                                Bound.groundId := groundId;
                                Bound.broadcastId :=
                                  LiveBroadcast.id broadcastResponse;
                                Bound.stream := sd |}) w'
               end) = []).
  { destruct (run P (getExistingStream auth academy groundId c) w)
      as [[e|sd] w1]; [reflexivity|].
    unfold await. cbn [bind events perform fst snd filter is_write].
    destruct (P (trace w1) _ (Date_toISOString startTime)) as [e|iso];
      [reflexivity|].
    cbn [bind events perform fst snd filter is_write].
    destruct (P _ _ (liveBroadcasts_insert auth _)) as [e|br];
      [reflexivity|].
    cbn [bind events perform fst snd filter is_write].
    destruct (P _ _ (liveBroadcasts_bind auth _ _)) as [e|u]; reflexivity. }
  rewrite Htail, app_nil_r. apply getExistingStream_writes.
Qed.

Lemma company_subflow_writes (P : Platform) (w : World) (flag : bool)
  (academy : Academy.t) (b : GoLive.body) :
  let writes :=
    filter is_write (events P (company_subflow flag academy b) w) in
  writes = []
  \/ exists v,
       writes = [Ev (Academy_findOneAndUpdate (Academy.academyId academy)
                       (GoLive.groundId b) companyStreamIdField v)].
Proof.
  cbv zeta. unfold company_subflow. rewrite events_bind, filter_app.
  unfold getCompanyOAuthClient.
  rewrite events_bind, events_await, run_bind, run_await.
  cbn [perform fst snd].
  destruct (hd_error (companies w)) as [[n [tc|]]|];
    cbn [run events app filter is_write]; try (left; reflexivity).
  apply (createBroadcastAndBind_writes P
           (record_event (Ev Company_findOne) w)
           flag (Some tc) academy
           (GoLive.groundId b) (GoLive.title b) (GoLive.teamA b)
           (GoLive.teamB b) true (GoLive.startTime b)).
Qed.

(** X15.  On any platform /go-live-now writes at most twice, first the
    academy's stream id and then the company's, and both times on the
    ground and academy it was asked about. *)
Theorem go_live_now_writes (P : Platform) (w : World) (flag : bool)
  (b : GoLive.body) :
  let update := Academy_findOneAndUpdate (GoLive.academyId b)
                  (GoLive.groundId b) in
  let writes := filter is_write (events P (go_live_now flag b) w) in
  exists forAcademy forCompany,
    writes = forAcademy ++ forCompany
    /\ (forAcademy = []
        \/ exists v, forAcademy = [Ev (update academyStreamIdField v)])
    /\ (forCompany = []
        \/ exists v, forCompany = [Ev (update companyStreamIdField v)]).
Proof.
  cbv zeta.
  destruct (find (is_academy (GoLive.academyId b)) (academies w))
    as [academy|] eqn:Hdb.
  2: { exists [], []. unfold go_live_now.
       rewrite events_try_catch, events_bind, events_await, run_bind,
         run_await.
       cbn [perform fst snd]. rewrite Hdb. repeat split; auto. }
  destruct (Academy.youtubeTokens academy) as [tokens|] eqn:Ht.
  2: { exists [], []. unfold go_live_now.
       rewrite events_try_catch, events_bind, events_await, run_bind,
         run_await.
       cbn [perform fst snd]. rewrite Hdb, Ht. repeat split; auto. }
  destruct (@go_live_now_run P w flag b academy tokens Hdb Ht) as [_ Hev].
  cbv zeta in Hev. rewrite Hev. clear Hev.
  assert (Hid : Academy.academyId academy = GoLive.academyId b).
  { apply find_some in Hdb. destruct Hdb as [_ Hdb].
    apply jseqb_eq in Hdb. exact Hdb. }
  cbn [filter is_write]. rewrite filter_app.
  eexists _, _. split; [reflexivity|]. split.
  - pose proof (createBroadcastAndBind_writes P
                  (record_event (Ev (Academy_findOne (GoLive.academyId b))) w)
                  flag (Academy.youtubeTokens academy) academy
                  (GoLive.groundId b) (GoLive.title b) (GoLive.teamA b)
                  (GoLive.teamB b) false (GoLive.startTime b)) as H.
    cbv zeta in H. rewrite Hid in H. exact H.
  - destruct (run P (academy_subflow flag academy b) _) as [[e|ra] w1];
      [left; reflexivity|].
    rewrite <- Hid. apply company_subflow_writes.
Qed.

Lemma check_stream_status_answers_witness :
  result (Fixture.platform Fixture.healthy)
    (check_stream_status check_company_b1) Fixture.world
  = inr (CheckStatus.ok
      {| CheckStatus.broadcastStatus := js "ready";
         CheckStatus.streamStatus := js "active";
         CheckStatus.healthStatus := Some {| LiveStream.status := js "good" |};
         CheckStatus.isReadyToStart := true |}).
Proof.
  destruct (@check_stream_status_answers (Fixture.platform Fixture.healthy)
              Fixture.world
              (record_event (Ev Company_findOne)
                 (record_event (Ev (Academy_findOne (js "A1")))
                    Fixture.world))
              check_company_b1 Fixture.A1 (Some Fixture.companyTokens)
              eq_refl eq_refl) as (_ & _ & H).
  destruct (H _ _ eq_refl) as (_ & _ & Hok).
  exact (Hok _ _ eq_refl).
Defined.

(** The company's listing arrives first: its broadcast is ended
    first. *)
Lemma end_stream_requests_witness :
  let a := Some Fixture.academyTokens in
  let c := Some Fixture.companyTokens in
  events (Fixture.platform Fixture.healthy)
    (end_stream [false; true] part_001 end_U15_U17) world_live_on_both
  = [Ev (Academy_findOne (js "A1")); Ev Company_findOne;
     Ev (liveBroadcasts_list_active a); Ev (liveBroadcasts_list_active c);
     Ev (liveBroadcasts_transition c (js "complete")
           (js "broadcast:U15 vs U17"));
     Ev (liveBroadcasts_transition a (js "complete")
           (js "broadcast:U15 vs U17"))].
Proof.
  intros a c.
  exact (@end_stream_requests (Fixture.platform Fixture.healthy)
           world_live_on_both [false; true] part_001 end_U15_U17
           Fixture.A1 the_company
           Fixture.academyTokens Fixture.companyTokens
           eq_refl eq_refl eq_refl eq_refl).
Defined.

Lemma end_stream_unauthenticated_witness :
  let P := Fixture.platform Fixture.healthy in
  (result P (end_stream [] final_js end_U15_U17)
     (with_academies [A1_unauthenticated] Fixture.world)
   = inr (EndStream.error 400 (js "Academy not authenticated"))
   /\ events P (end_stream [] final_js end_U15_U17)
        (with_academies [A1_unauthenticated] Fixture.world)
      = [Ev (Academy_findOne (js "A1"))])
  /\ (result P (end_stream [] final_js end_U15_U17)
        (with_companies [] Fixture.world)
      = inr (EndStream.error 500 (js "Company not authenticated"))
      /\ events P (end_stream [] final_js end_U15_U17)
           (with_companies [] Fixture.world)
         = [Ev (Academy_findOne (js "A1")); Ev Company_findOne]).
Proof.
  intros P. split.
  - destruct (end_stream_unauthenticated P
                (with_academies [A1_unauthenticated] Fixture.world)
                [] final_js end_U15_U17) as [H _].
    apply H. intros academy tokens Hdb Ht.
    injection Hdb as <-. discriminate Ht.
  - destruct (end_stream_unauthenticated P
                (with_companies [] Fixture.world)
                [] final_js end_U15_U17) as [_ H].
    apply (H Fixture.A1 Fixture.academyTokens eq_refl eq_refl).
    intros company tokens' Hc. discriminate Hc.
Defined.

Lemma getExistingStream_recreates_witness :
  let a := Some Fixture.academyTokens in
  let fresh := Fixture.stream (js "stream:Second Ground - Stream")
                 (js "A1-G2-1700000000000") (js "inactive") (js "noData") in
  let t := getExistingStream a Fixture.A1 (js "G2") false in
  result (healthy_but is_stream_listing) t Fixture.world
  = inr (stream_info fresh)
  /\ events (healthy_but is_stream_listing) t Fixture.world
     = [Ev (liveStreams_list a (Some (js "stream-2")));
        Ev (liveStreams_insert a
              (new_stream_body Fixture.A1 Fixture.G2 false));
        Ev (Academy_findOneAndUpdate (js "A1") (js "G2")
              academyStreamIdField (js "stream:Second Ground - Stream"))]
  /\ academies (final (healthy_but is_stream_listing) t Fixture.world)
     = findOneAndUpdate (js "A1") (js "G2") academyStreamIdField
         (js "stream:Second Ground - Stream") (academies Fixture.world).
Proof.
  intros a fresh t.
  destruct (@getExistingStream_recreates (healthy_but is_stream_listing)
              Fixture.world a Fixture.A1 (js "G2") false Fixture.G2 fresh
              eq_refl) as [_ H].
  apply (H (js "stream-2") eq_refl eq_refl).
  - right. eexists. reflexivity.
  - reflexivity.
Defined.

Lemma createBroadcastAndBind_steps_witness :
  let a := Some Fixture.academyTokens in
  let P := Fixture.platform Fixture.healthy in
  result P
    (createBroadcastAndBind true a Fixture.A1 (js "G2") (js "U15 vs U17")
       (js "U15") (js "U17") false None) Fixture.world
  = inr {| Bound.academyId := js "A1";
           Bound.groundId := js "G2";
           Bound.broadcastId := js "broadcast:U15 vs U17";
           Bound.stream :=
             stream_info (Fixture.stream (js "stream-2")
                            (js "key-of-stream-2") (js "active")
                            (js "good")) |}.
Proof.
  intros a P.
  destruct (@createBroadcastAndBind_steps P Fixture.world true a Fixture.A1
              (js "G2") (js "U15 vs U17") (js "U15") (js "U17") false None)
    as [_ H].
  destruct (H _ _ eq_refl eq_refl) as [_ Hcreated].
  destruct (Hcreated _ eq_refl) as (_ & _ & Hbound).
  exact (Hbound eq_refl).
Defined.

Lemma go_live_now_rejects_witness :
  let P := Fixture.platform Fixture.healthy in
  (result P (go_live_now true go_live_G1)
     (with_academies [A1_unauthenticated] Fixture.world)
   = inr (GoLive.failure 400 (js "Academy not authenticated")))
  /\ (result P (go_live_now true go_live_G9) Fixture.world
      = inr (GoLive.failure 500 (js "Ground not found"))
      /\ events P (go_live_now true go_live_G9) Fixture.world
         = [Ev (Academy_findOne (js "A1"))]).
Proof.
  intros P. split.
  - destruct (go_live_now_rejects P
                (with_academies [A1_unauthenticated] Fixture.world)
                true go_live_G1) as [H _].
    apply H. intros academy tokens Hdb Ht.
    injection Hdb as <-. discriminate Ht.
  - destruct (go_live_now_rejects P Fixture.world true go_live_G9)
      as [_ H].
    exact (H Fixture.A1 Fixture.academyTokens eq_refl eq_refl eq_refl).
Defined.

Lemma healthy_serves_creation :
  serves_creation (Fixture.platform Fixture.healthy).
Proof.
  repeat split; intros; try (eexists; reflexivity); reflexivity.
Defined.

Lemma go_live_now_fresh_ground_witness :
  let P := Fixture.platform Fixture.healthy in
  let evs := events P (go_live_now true go_live_G1) Fixture.world in
  exists academyStream companyStream academy' ground',
    result P (go_live_now true go_live_G1) Fixture.world
    = inr (GoLive.success academyStream companyStream)
    /\ find (is_academy (js "A1"))
         (academies (final P (go_live_now true go_live_G1) Fixture.world))
       = Some academy'
    /\ find_ground (js "G1") academy' = Some ground'
    /\ Ground.academyStreamId ground'
       = Some (StreamInfo.streamId (Bound.stream academyStream))
    /\ Ground.companyStreamId ground'
       = Some (StreamInfo.streamId (Bound.stream companyStream))
    /\ Ground.title ground' = js "Main Ground"
    /\ Ground.streamKey ground' = js "A1-G1-1700000000000"
    /\ count is_stream_insert evs = 2%nat
    /\ count is_broadcast_insert evs = 2%nat
    /\ count is_bind evs = 2%nat
    /\ count is_write evs = 2%nat.
Proof.
  exact (@go_live_now_fresh_ground (Fixture.platform Fixture.healthy)
           Fixture.world true go_live_G1 Fixture.A1 Fixture.academyTokens
           Fixture.companyTokens the_company Fixture.G1
           healthy_serves_creation eq_refl eq_refl eq_refl eq_refl eq_refl
           eq_refl eq_refl).
Defined.

(* ================================================================== *)
(** ** Titles and stream names *)
(* ================================================================== *)

Lemma replace_space_runs_single (s : jsstring) :
  forall in_run,
    Forall (fun c => is_space c = true -> c = SPACE)
      (replace_space_runs [SPACE] in_run s).
Proof.
  induction s as [|c s IH]; intros in_run; simpl; [constructor|].
  destruct (is_space c) eqn:Hc.
  - destruct in_run; simpl; [apply IH|].
    constructor; [reflexivity | apply IH].
  - constructor; [congruence | apply IH].
Qed.

Lemma replace_space_runs_filter (s : jsstring) :
  forall in_run, replace_space_runs [] in_run s = filter is_ink s.
Proof.
  induction s as [|c s IH]; intros in_run; simpl; [reflexivity|].
  unfold is_ink at 1. destruct (is_space c); simpl.
  - destruct in_run; simpl; apply IH.
  - f_equal. apply IH.
Qed.

Lemma forallb_filter_same (A : Type) (p : A -> bool) (l : list A) :
  forallb p (filter p l) = true.
Proof.
  induction l as [|x l IH]; simpl; [reflexivity|].
  destruct (p x) eqn:Hp; simpl; [rewrite Hp|]; exact IH.
Qed.

Lemma filter_idempotent (A : Type) (p : A -> bool) (l : list A) :
  filter p (filter p l) = filter p l.
Proof.
  induction l as [|x l IH]; simpl; [reflexivity|].
  destruct (p x) eqn:Hp; simpl; [rewrite Hp, IH|]; auto.
Qed.

(** X16.  [normalize] of /end-stream (part_001) yields a normal form:
    normalizing twice is normalizing once, a title always compares
    equal to its normal form, and the only white space left in a normal
    form is the single space U+0020. *)
Theorem normalize_idempotent (s : jsstring) :
  normalize (normalize s) = normalize s
  /\ compareStrings s (normalize s) = true
  /\ Forall (fun c => is_space c = true -> c = SPACE) (normalize s).
Proof.
  assert (H : normalize (normalize s) = normalize s).
  { rewrite (normalize_unwords (normalize s)), words_normalize.
    symmetry. apply normalize_unwords. }
  split; [exact H|]. split.
  - apply compareStrings_spec. symmetry. exact H.
  - apply replace_space_runs_single.
Qed.

(** X17.  The name under which [getExistingStream] creates a ground's
    stream.  On the company channel it is the academy's name, a colon,
    and the ground's title without any of its white space, so that two
    titles of one academy that differ only in white space get the same
    stream name; on the academy channel it is the ground's stream
    key. *)
Theorem new_stream_body_streamName (academy : Academy.t)
  (ground ground' : Ground.t) :
  let name g c := StreamInsert.streamName (new_stream_body academy g c) in
  name ground true
  = Some (Academy.name academy ++ js ":"
            ++ filter is_ink (Ground.title ground))
  /\ forallb is_ink (strip_spaces (Ground.title ground)) = true
  /\ strip_spaces (strip_spaces (Ground.title ground))
     = strip_spaces (Ground.title ground)
  /\ (name ground true = name ground' true
      <-> filter is_ink (Ground.title ground)
          = filter is_ink (Ground.title ground'))
  /\ name ground false = Some (Ground.streamKey ground).
Proof.
  intros name. subst name. cbn [new_stream_body StreamInsert.streamName].
  unfold strip_spaces. rewrite !replace_space_runs_filter.
  split; [reflexivity|].
  split; [apply forallb_filter_same|].
  split; [apply filter_idempotent|].
  split; [|reflexivity].
  split; intros H.
  - injection H as H. apply app_inv_head in H.
    injection H as H. exact H.
  - rewrite H. reflexivity.
Qed.

(* ================================================================== *)
(** ** The file-based revision *)
(* ================================================================== *)

(** The requests of one iteration of the loop of /end-stream: the
    validation, then possibly the search, then possibly the
    completion of the broadcast found. *)
Lemma end_on_channel_events (P : Platform)
  (toLowerCase : jsstring -> jsstring) (title : jsstring)
  (c : Legacy.channel_entry) (t : Tokens) (w : World) :
  exists rest,
    events P (Legacy.end_on_channel toLowerCase title c t) w
    = Ev (channels_list_mine (Some t)) :: rest
    /\ (rest = []
        \/ rest = [Ev (liveBroadcasts_list_active (Some t))]
        \/ exists id,
             rest = [Ev (liveBroadcasts_list_active (Some t));
                     Ev (liveBroadcasts_transition (Some t) (js "complete")
                           id)]).
Proof.
  unfold Legacy.end_on_channel, Legacy.validateTokens.
  rewrite events_try_catch, events_bind, run_bind.
  rewrite events_try_catch, run_try_catch, events_bind, run_bind.
  rewrite events_await, run_await.
  destruct (perform P (channels_list_mine (Some t)) w) as [[e|[]] w1];
    cbn [run events fst snd app negb].
  - eexists. split; [reflexivity|]. left. reflexivity.
  - rewrite events_bind, run_bind, events_await, run_await.
    destruct (perform P (liveBroadcasts_list_active (Some t)) w1)
      as [[e|items] w2]; cbn [run events fst snd app].
    + eexists. split; [reflexivity|]. right. left. reflexivity.
    + destruct (find _ items) as [m|]; cbn [run events fst snd app].
      * rewrite events_bind, run_bind, events_await, run_await.
        destruct (perform P (liveBroadcasts_transition (Some t) _ _) w2)
          as [[e|x] w3]; cbn [run events fst snd app];
          (eexists; split; [reflexivity|]; right; right; eexists;
           reflexivity).
      * eexists. split; [reflexivity|]. right. left. reflexivity.
Qed.

Lemma end_on_channel_counts (P : Platform)
  (toLowerCase : jsstring -> jsstring) (title : jsstring)
  (c : Legacy.channel_entry) (t : Tokens) (w : World) :
  let evs := events P (Legacy.end_on_channel toLowerCase title c t) w in
  forallb is_ending_op evs = true
  /\ count is_validation evs = 1%nat
  /\ (count is_active_search evs <= 1)%nat
  /\ (count is_transition evs <= count is_active_search evs)%nat.
Proof.
  intros evs. subst evs.
  destruct (end_on_channel_events P toLowerCase title c t w)
    as (rest & -> & [->|[->|[id ->]]]); unfold count; simpl;
    repeat split; lia.
Qed.

Lemma end_each_counts (P : Platform) (toLowerCase : jsstring -> jsstring)
  (title : jsstring) (channels : list Legacy.channel_entry) :
  forall (results : list Legacy.outcome) (w : World),
    let evs :=
      events P (Legacy.end_each toLowerCase title channels results) w in
    forallb is_ending_op evs = true
    /\ count is_validation evs = List.length (filter has_tokens channels)
    /\ (count is_active_search evs <= count is_validation evs)%nat
    /\ (count is_transition evs <= count is_active_search evs)%nat.
Proof.
  induction channels as [|c rest IH]; intros results w;
    cbn [Legacy.end_each].
  - unfold count. simpl. repeat split; lia.
  - change (filter has_tokens (c :: rest))
      with (if has_tokens c then c :: filter has_tokens rest
            else filter has_tokens rest).
    unfold has_tokens at 1.
    destruct (Legacy.tokens c) as [t|]; [|apply IH].
    cbv zeta. rewrite events_bind.
    destruct (end_on_channel_total P toLowerCase title c t w)
      as (o & Ho & _).
    unfold result in Ho.
    pose proof (end_on_channel_counts P toLowerCase title c t w) as Hc.
    cbv zeta in Hc. destruct Hc as (Hall & Hval & Hsearch & Htrans).
    destruct (run P (Legacy.end_on_channel toLowerCase title c t) w)
      as [r w1].
    cbn [fst] in Ho. subst r.
    destruct (IH (results ++ [o]) w1) as (IHall & IHval & IHsearch & IHtrans).
    rewrite forallb_app, !count_app, Hall, IHall.
    cbn [List.length]. repeat split; lia.
Qed.

(** X18.  The requests of /end-stream of the file-based revision,
    whatever the platform answers.  It only validates credentials,
    searches the active broadcasts and completes broadcasts: each
    channel of [CHANNELS] that has tokens is validated exactly once,
    searched at most once, and has at most one broadcast completed;
    a channel without tokens is never contacted, and a request without
    a title contacts no channel.  The token files are never read: the
    tokens are the ones [CHANNELS] holds. *)
Theorem legacy_end_stream_contacts (P : Platform) (w : World)
  (toLowerCase : jsstring -> jsstring)
  (CHANNELS : list Legacy.channel_entry) (title : jsstring) :
  let evs := events P (Legacy.end_stream toLowerCase CHANNELS title) w in
  forallb is_ending_op evs = true
  /\ count is_validation evs
     = (if truthy title
        then List.length (filter has_tokens CHANNELS) else 0%nat)
  /\ (count is_active_search evs <= count is_validation evs)%nat
  /\ (count is_transition evs <= count is_active_search evs)%nat.
Proof.
  intros evs. subst evs. unfold Legacy.end_stream.
  destruct (truthy title); cbn [negb].
  - rewrite events_try_catch, events_bind, run_bind.
    destruct (end_each_total P toLowerCase title CHANNELS [] w)
      as (pushed & Hp & _).
    unfold result in Hp.
    pose proof (end_each_counts P toLowerCase title CHANNELS [] w) as Hc.
    cbv zeta in Hc.
    destruct (run P (Legacy.end_each toLowerCase title CHANNELS []) w)
      as [r w1].
    cbn [fst] in Hp. subst r. cbn [run events fst snd].
    rewrite !app_nil_r. exact Hc.
  - unfold count. simpl. repeat split; lia.
Qed.

(** What [createBroadcastAndStream] returns is labelled with the
    channel it was called for. *)
Lemma createBroadcastAndStream_channel (P : Platform) (b : Legacy.body)
  (auth : OAuth2Client) (channelName : jsstring) (w : World)
  (d : Legacy.details) :
  result P (Legacy.createBroadcastAndStream b auth channelName) w = inr d ->
  Legacy.channel d = channelName.
Proof.
  unfold result, Legacy.createBroadcastAndStream.
  repeat (rewrite run_bind, run_await;
          match goal with
          | |- context [perform P ?op ?w0] =>
              destruct (perform P op w0) as [[?|?] ?]
          end; cbn [fst snd run]; [intros H; discriminate H|]).
  intros H. injection H as <-. reflexivity.
Qed.

Lemma our_channel_attempt_channel (P : Platform) (b : Legacy.body)
  (w : World) :
  exists mine,
    result P (Legacy.our_channel_attempt b) w = inr mine
    /\ (mine = []
        \/ exists o, mine = [o] /\ Legacy.channel o = js "ourChannel").
Proof.
  unfold result, Legacy.our_channel_attempt.
  rewrite run_bind, run_await.
  destruct (perform P (loadTokens (js "ourChannel")) w)
    as [[e|[t|]] w0] eqn:Hload; cbn [fst snd run].
  - cbn [perform] in Hload. discriminate.
  - rewrite run_bind.
    destruct (validateTokens_total P t w0) as [valid Hv].
    unfold result in Hv.
    destruct (run P (Legacy.validateTokens t) w0) as [r w1].
    cbn [fst] in Hv. subst r.
    destruct valid; cbn [run fst]; [|exists []; auto].
    rewrite run_try_catch, run_bind.
    pose proof (@createBroadcastAndStream_channel P b (Some t)
                  (js "ourChannel") w1) as Hch.
    unfold result in Hch.
    destruct (run P (Legacy.createBroadcastAndStream b (Some t) _) w1)
      as [[e|d] w2]; cbn [run fst]; eexists; (split; [reflexivity|]).
    + left. reflexivity.
    + right. exists d. split; [reflexivity|]. apply Hch. reflexivity.
  - exists []. auto.
Qed.

(** X19.  The answers of /go-live-now of the file-based revision.  The
    first request, without [authCompleted], only redirects and performs
    nothing.  Without a token file for customerChannel the request
    fails after that one read, before any request to the platform.  And
    a successful response lists either the customer channel alone, with
    the message that ends in "on customer channel", or ourChannel and
    then the customer channel, with the message that ends in "on both
    channels": the customer channel is always the last, and never
    missing. *)
Theorem legacy_go_live_now_results (P : Platform) (w : World)
  (generateAuthUrl : jsstring -> jsstring) (lb : Legacy.body) :
  let handler := Legacy.go_live_now generateAuthUrl lb in
  (result P (handler false) w
   = inr (Legacy.redirect (generateAuthUrl (js "customerChannel")))
   /\ events P (handler false) w = [])
  /\ (lookup_tokens (js "customerChannel") (token_files w) = None ->
      result P (handler true) w
      = inr (Legacy.failure
          (js "Customer channel authentication required. Please try again."))
      /\ events P (handler true) w
         = [Ev (loadTokens (js "customerChannel"))])
  /\ (forall results text,
        result P (handler true) w = inr (Legacy.success results text) ->
        (exists d,
            results = [d]
            /\ Legacy.channel d = js "customerChannel"
            /\ text = js "Streams created successfully on customer channel")
        \/ (exists o d,
               results = [o; d]
               /\ Legacy.channel o = js "ourChannel"
               /\ Legacy.channel d = js "customerChannel"
               /\ text = js "Streams created successfully on both channels")).
Proof.
  intros handler. subst handler.
  split; [split; reflexivity|].
  unfold result, Legacy.go_live_now.
  rewrite run_bind, events_bind, run_await, events_await.
  cbn [perform fst snd].
  destruct (lookup_tokens (js "customerChannel") (token_files w))
    as [ct|].
  - split; [intros H; discriminate H|].
    intros results text.
    rewrite run_try_catch, run_bind.
    destruct (our_channel_attempt_channel P lb
                (record_event (Ev (loadTokens (js "customerChannel"))) w))
      as (mine & Hmine & Hshape).
    unfold result in Hmine.
    destruct (run P (Legacy.our_channel_attempt lb) _) as [r w1].
    cbn [fst] in Hmine. subst r. rewrite run_bind.
    pose proof (@createBroadcastAndStream_channel P lb (Some ct)
                  (js "customerChannel") w1) as Hch.
    unfold result in Hch.
    destruct (run P (Legacy.createBroadcastAndStream lb (Some ct) _) w1)
      as [[e|d] w2]; cbn [run fst snd]; [intros H; discriminate H|].
    specialize (Hch d eq_refl).
    destruct Hshape as [->|(o & -> & Ho)]; cbn [app List.length Nat.ltb
      Nat.leb]; intros H; injection H as <- <-.
    + left. exists d. auto.
    + right. exists o, d. auto.
  - split; [|intros ? ? H; discriminate H].
    intros _. split; reflexivity.
Qed.

Lemma legacy_go_live_now_results_witness :
  exists o d,
    result (Fixture.platform Fixture.healthy)
      (Legacy.go_live_now consent_url legacy_go_live true) Fixture.world
    = inr (Legacy.success [o; d]
             (js "Streams created successfully on both channels"))
    /\ Legacy.channel o = js "ourChannel"
    /\ Legacy.channel d = js "customerChannel".
Proof.
  destruct (legacy_go_live_now_results (Fixture.platform Fixture.healthy)
              Fixture.world consent_url legacy_go_live) as (_ & _ & H).
  destruct (H _ _ eq_refl) as [(d & Hr & _)|(o & d & Hr & Ho & Hd & _)].
  - discriminate Hr.
  - exists o, d. injection Hr as <- <-. repeat split; assumption.
Defined.

(* ================================================================== *)
(** ** Authentication: /oauth2callback and /company *)
(* ================================================================== *)

Lemma find_update_first_other (A : Type) (p q : A -> bool) (f : A -> A)
  (l : list A) :
  (forall x, q x = true -> p x = false) ->
  (forall x, q x = true -> p (f x) = false) ->
  find p (update_first q f l) = find p l.
Proof.
  intros Hx Hfx. induction l as [|x l IH]; simpl; [reflexivity|].
  destruct (q x) eqn:Hq; simpl.
  - rewrite (Hx x Hq), (Hfx x Hq). reflexivity.
  - rewrite IH. reflexivity.
Qed.

(** X20.  What /oauth2callback stores is what the streaming handlers
    read.  With the state "company" and a company in the store,
    [getCompanyOAuthClient] afterwards yields exactly the exchanged
    tokens, and no academy changes.  With any other state that is the
    id of an academy, a lookup of that id afterwards yields the academy
    with the exchanged tokens and with its name and grounds (hence its
    remembered stream ids) as they were; lookups of other ids and the
    company are unaffected. *)
Theorem oauth2callback_stores_tokens (P : Platform) (w : World)
  (tokens : Tokens) (state : jsstring) :
  (forall company,
      hd_error (companies w) = Some company ->
      let w' := snd (oauth2callback (inr tokens) (js "company") w) in
      result P getCompanyOAuthClient w' = inr tokens
      /\ academies w' = academies w)
  /\ (forall academy,
        state <> js "company" ->
        find (is_academy state) (academies w) = Some academy ->
        let w' := snd (oauth2callback (inr tokens) state w) in
        exists academy',
          find (is_academy state) (academies w') = Some academy'
          /\ Academy.youtubeTokens academy' = Some tokens
          /\ Academy.name academy' = Academy.name academy
          /\ Academy.grounds academy' = Academy.grounds academy
          /\ (forall other,
                other <> state ->
                find (is_academy other) (academies w')
                = find (is_academy other) (academies w))
          /\ companies w' = companies w).
Proof.
  split.
  - intros company Hc w'. subst w'.
    cbn [oauth2callback snd]. change (jseqb (js "company") (js "company"))
      with true. cbv iota.
    split; [|reflexivity].
    destruct (companies w) as [|c rest] eqn:Hcs; [discriminate Hc|].
    unfold result.
    rewrite (proj1 (@getCompanyOAuthClient_run P
                      (with_companies
                         (Company_findOneAndUpdate tokens (c :: rest)) w)
                      (set_company_tokens tokens c) tokens
                      eq_refl eq_refl)).
    reflexivity.
  - intros academy Hstate Hfind w'. subst w'.
    cbn [oauth2callback snd].
    apply jseqb_neq in Hstate. rewrite Hstate.
    cbn [with_academies academies companies].
    exists (set_academy_tokens tokens academy).
    unfold Academy_updateTokens.
    split.
    { apply find_update_first; auto.
      apply find_some in Hfind. apply Hfind. }
    repeat split.
    intros other Hother. apply find_update_first_other.
    + intros x Hx. unfold is_academy in *. apply jseqb_eq in Hx.
      rewrite Hx. apply jseqb_neq. congruence.
    + intros x Hx. unfold is_academy in *. apply jseqb_eq in Hx.
      cbn [set_academy_tokens Academy.academyId].
      rewrite Hx. apply jseqb_neq. congruence.
Qed.

Lemma oauth2callback_stores_tokens_witness :
  result (Fixture.platform Fixture.healthy) getCompanyOAuthClient
    (snd (oauth2callback (inr fresh_tokens) (js "company") Fixture.world))
  = inr fresh_tokens
  /\ exists academy',
       find (is_academy (js "A1"))
         (academies (snd (oauth2callback (inr fresh_tokens) (js "A1")
                            (with_academies [A1_unauthenticated]
                               Fixture.world))))
       = Some academy'
       /\ Academy.youtubeTokens academy' = Some fresh_tokens
       /\ Academy.grounds academy' = [Fixture.G1; Fixture.G2].
Proof.
  split.
  - destruct (oauth2callback_stores_tokens
                (Fixture.platform Fixture.healthy) Fixture.world
                fresh_tokens (js "company")) as [H _].
    exact (proj1 (H the_company eq_refl)).
  - destruct (oauth2callback_stores_tokens
                (Fixture.platform Fixture.healthy)
                (with_academies [A1_unauthenticated] Fixture.world)
                fresh_tokens (js "A1")) as [_ H].
    assert (Hne : js "A1" <> js "company") by discriminate.
    destruct (H A1_unauthenticated Hne eq_refl)
      as (academy' & Hfind & Ht & _ & Hg & _).
    exists academy'. repeat split; assumption.
Defined.

(** X22.  The company is a singleton that POST /company creates once.
    With a company in the store the request is answered 400 and changes
    nothing, so a store with at most one company keeps at most one.  On
    an empty store a name that passes validation creates the company,
    without credentials: [getCompanyOAuthClient] rejects with "Company
    not authenticated" until /oauth2callback with the state "company"
    stores tokens, which it then returns; and a further POST /company
    is answered 400 and leaves those tokens in place. *)
Theorem post_company_singleton (P : Platform)
  (validate : option jsstring -> Settled jsstring)
  (name name' : option jsstring) (w : World) (tokens : Tokens) :
  let w1 := snd (post_company validate name w) in
  (forall existing,
      hd_error (companies w) = Some existing ->
      post_company validate name w
      = (CompanyRoute.error 400 (js "Company already exists"), w))
  /\ ((List.length (companies w) <= 1)%nat ->
      (List.length (companies w1) <= 1)%nat)
  /\ academies w1 = academies w
  /\ (forall stored,
        companies w = [] ->
        validate name = inr stored ->
        let company := {| Company.name := stored;
                          Company.youtubeTokens := None |} in
        let w2 := snd (oauth2callback (inr tokens) (js "company") w1) in
        fst (post_company validate name w) = CompanyRoute.created company
        /\ companies w1 = [company]
        /\ result P getCompanyOAuthClient w1
           = inl (Error (js "Company not authenticated"))
        /\ result P getCompanyOAuthClient w2 = inr tokens
        /\ post_company validate name' w2
           = (CompanyRoute.error 400 (js "Company already exists"), w2)).
Proof.
  intros w1. subst w1. unfold post_company.
  split; [intros existing ->; reflexivity|].
  destruct (companies w) as [|c rest] eqn:Hcs; cbn [hd_error].
  - destruct (validate name) as [e|stored] eqn:Hv; cbn [fst snd].
    + rewrite Hcs. split; [auto|]. split; [reflexivity|].
      intros ? _ H; discriminate H.
    + cbn [with_companies companies academies app List.length].
      split; [auto|]. split; [reflexivity|].
      intros stored' _ Hs. injection Hs as <-. cbv zeta.
      repeat split.
  - cbn [snd]. rewrite Hcs. split; [auto|]. split; [reflexivity|].
    intros ? H; discriminate H.
Qed.

Lemma post_company_singleton_witness :
  let w0 := with_companies [] Fixture.world in
  let w1 := snd (post_company required_name (Some (js "Company")) w0) in
  let w2 := snd (oauth2callback (inr fresh_tokens) (js "company") w1) in
  result (Fixture.platform Fixture.healthy) getCompanyOAuthClient w1
  = inl (Error (js "Company not authenticated"))
  /\ result (Fixture.platform Fixture.healthy) getCompanyOAuthClient w2
     = inr fresh_tokens
  /\ post_company required_name (Some (js "Another")) w2
     = (CompanyRoute.error 400 (js "Company already exists"), w2).
Proof.
  intros w0 w1 w2.
  destruct (post_company_singleton (Fixture.platform Fixture.healthy)
              required_name (Some (js "Company")) (Some (js "Another"))
              w0 fresh_tokens) as (_ & _ & _ & H).
  destruct (H (js "Company") eq_refl eq_refl) as (_ & _ & H1 & H2 & H3).
  repeat split; assumption.
Defined.
